(** * Matching and anonymous-relay engine of the dating bot

    A shallow embedding of the handlers in [handlers/feed.py],
    [handlers/chat.py] and [handlers/registration.py] together with the
    helpers of [utils/supabase_client.py] they call, of the /start
    handler of [bot.py], and of the administrator list of [config.py]
    and [admin.py].

    The record store is a value of type [Store]: one list of rows per
    table, in insertion order.  A query is a filter over that list, an
    insert appends a row with a fresh [bigserial] id, an update maps over
    the rows that satisfy the filter.  Every handler is a function from
    the store (and its inputs) to the new store and the list of [Event]s
    it emitted, in order.

    Handlers live in the monad [M]: a state monad over the [World] (the
    store, the clock, the outcomes of the external calls still to come,
    and the events emitted so far) with one exception.  Every call that
    leaves the process (a store [execute()], a send through the
    messaging transport) consumes one flag of [w_faults]; [false] makes
    that call raise, and [try_except] is the source's [try/except
    Exception].  An empty [w_faults] means every call succeeds.

    The handlers of the registration dialogue also thread the dialogue
    state of their user (the monad [Dialogue.D]). *)

From Stdlib Require Import ZArith List String Ascii Bool Lia DecimalString DecimalZ.
Import ListNotations.

Open Scope string_scope.
Open Scope Z_scope.

Set Implicit Arguments.

(** ** Rows (the columns the handlers read or write) *)

(** Timestamps are seconds on the common clock of the application and
    the store; [timestamptz] columns compare as integers. *)
Definition timestamp := Z.

Definition days (d : Z) : Z := d * 86400.
Definition hours (h : Z) : Z := h * 3600.

Record User := mkUser {
  u_id : Z;
  u_tg_id : Z;
  u_username : option string;
  u_first_name : option string;
  u_last_name : option string;
  u_is_blocked : bool
}.

Record Profile := mkProfile {
  p_id : Z;
  p_user_id : Z;
  p_name : option string;
  p_gender : option string;
  p_age : option Z;
  p_city : option string;
  p_photos : list string;
  p_bio : option string;
  p_is_active : bool;
  p_boosted_until : option timestamp;
  p_created_at : timestamp
}.

Record Like := mkLike {
  l_id : Z;
  l_from_user_id : Z;
  l_to_user_id : Z;
  l_message : option string;
  l_video_url : option string
}.

Record Match := mkMatch {
  m_id : Z;
  m_user1_id : Z;
  m_user2_id : Z;
  m_is_active : bool
}.

Record Chat := mkChat {
  c_id : Z;
  c_match_id : Z;
  c_is_active : bool;
  c_updated_at : option timestamp
}.

Record Complaint := mkComplaint {
  k_id : Z;
  k_from_user_id : option Z;
  k_against_user_id : option Z;
  k_reason : option string;
  k_resolved : bool
}.

Record ViewedProfile := mkViewedProfile {
  v_id : Z;
  v_user_id : Z;
  v_profile_id : Z;
  v_viewed_at : timestamp
}.

(** ** The store *)

Record Store := mkStore {
  USERS : list User;
  PROFILES : list Profile;
  LIKES : list Like;
  MATCHES : list Match;
  CHATS : list Chat;
  COMPLAINTS : list Complaint;
  VIEWED_PROFILES : list ViewedProfile
}.

Definition empty_store : Store := mkStore [] [] [] [] [] [] [].

Definition set_USERS (st : Store) (t : list User) : Store :=
  mkStore t (PROFILES st) (LIKES st) (MATCHES st) (CHATS st) (COMPLAINTS st) (VIEWED_PROFILES st).
Definition set_PROFILES (st : Store) (t : list Profile) : Store :=
  mkStore (USERS st) t (LIKES st) (MATCHES st) (CHATS st) (COMPLAINTS st) (VIEWED_PROFILES st).
Definition set_LIKES (st : Store) (t : list Like) : Store :=
  mkStore (USERS st) (PROFILES st) t (MATCHES st) (CHATS st) (COMPLAINTS st) (VIEWED_PROFILES st).
Definition set_MATCHES (st : Store) (t : list Match) : Store :=
  mkStore (USERS st) (PROFILES st) (LIKES st) t (CHATS st) (COMPLAINTS st) (VIEWED_PROFILES st).
Definition set_CHATS (st : Store) (t : list Chat) : Store :=
  mkStore (USERS st) (PROFILES st) (LIKES st) (MATCHES st) t (COMPLAINTS st) (VIEWED_PROFILES st).
Definition set_COMPLAINTS (st : Store) (t : list Complaint) : Store :=
  mkStore (USERS st) (PROFILES st) (LIKES st) (MATCHES st) (CHATS st) t (VIEWED_PROFILES st).
Definition set_VIEWED_PROFILES (st : Store) (t : list ViewedProfile) : Store :=
  mkStore (USERS st) (PROFILES st) (LIKES st) (MATCHES st) (CHATS st) (COMPLAINTS st) t.

(** ** Query primitives *)

Section Table.
Variable R : Type.
Variable id : R -> Z.

(** [bigserial]: an id larger than every id in the table. *)
Definition fresh_id (t : list R) : Z := 1 + fold_right Z.max 0 (map id t).

(** [.select(..).<filters>.execute()] *)
Definition select (p : R -> bool) (t : list R) : list R := filter p t.

(** [.limit(n)] *)
Definition limit (n : nat) (rows : list R) : list R := firstn n rows.

(** [.update(patch).<filters>.execute()] *)
Definition update (p : R -> bool) (patch : R -> R) (t : list R) : list R :=
  map (fun r => if p r then patch r else r) t.

(** [rows[0] if rows else None] *)
Definition first_row (rows : list R) : option R := hd_error rows.

(** Number of rows satisfying a predicate. *)
Definition count (p : R -> bool) (t : list R) : nat := List.length (filter p t).

(** [.order(col, desc=True)] and [list.sort(key=.., reverse=True)]:
    a stable sort, largest key first; [lt x y] says that the key of
    [x] is strictly below the key of [y]. *)
Variable lt : R -> R -> bool.

Fixpoint insert_desc (x : R) (l : list R) : list R :=
  match l with
  | [] => [x]
  | y :: l' => if lt x y then y :: insert_desc x l' else x :: y :: l'
  end.

Fixpoint sort_desc (l : list R) : list R :=
  match l with
  | [] => []
  | x :: l' => insert_desc x (sort_desc l')
  end.
End Table.

(** Python truthiness of the values the handlers test. *)
Definition truthy_int (o : option Z) : bool :=
  match o with Some z => negb (z =? 0) | None => false end.

Definition truthy_str (o : option string) : bool :=
  match o with Some s => negb (String.eqb s "") | None => false end.

Definition opt_Z_eqb (a b : option Z) : bool :=
  match a, b with
  | Some x, Some y => x =? y
  | None, None => true
  | _, _ => false
  end.

Definition opt_str_eqb (a b : option string) : bool :=
  match a, b with
  | Some x, Some y => String.eqb x y
  | None, None => true
  | _, _ => false
  end.

Definition str_of_Z (z : Z) : string := NilZero.string_of_int (Z.to_int z).

(** ** Events emitted by a handler *)

Inductive Event :=
| SendMessage (chat_id : Z) (text : string)   (* bot.send_message(chat_id, text) *)
| MessageAnswer (text : string)               (* message.answer(text) *)
| CallAnswer (text : string)                  (* call.answer(text) *)
| EditText (text : string)                    (* call.message.edit_text(text) *)
| ProfileCard (photo : bool) (profile_id : Z) (* answer_photo / answer with the card and its keyboard *)
| ContactPrompt (chat_id : Z) (match_id : Z)  (* the approve / reject keyboard of a match *)
| CopyMessage (chat_id : Z)                   (* bot.copy_message(chat_id, ..) *)
| FsmUpdate (target_user_id : Z)              (* state.update_data(target_user_id=..) *)
| FsmSetState (name : string)                 (* state.set_state(..) *)
| FsmClear                                    (* state.clear() *)
| LogWarning (text : string).                 (* logger.warning / logger.error *)

(** ** The handler monad *)

Record World := mkWorld {
  w_store : Store;
  w_faults : list bool;
  w_clock : timestamp;
  w_trace : list Event
}.

Inductive Outcome (A : Type) : Type :=
| Return (a : A)
| Raised.

Arguments Raised {A}.

Definition M (A : Type) : Type := World -> Outcome A * World.

Definition ret {A} (a : A) : M A := fun w => (Return a, w).

Definition bind {A B} (m : M A) (k : A -> M B) : M B :=
  fun w =>
    match m w with
    | (Return a, w') => k a w'
    | (Raised, w') => (Raised, w')
    end.

Notation "x <- m ;; k" := (bind m (fun x => k))
  (at level 61, m at next level, right associativity).
Notation "m ;; k" := (bind m (fun _ => k))
  (at level 61, right associativity).

(** [try: m except Exception: h] *)
Definition try_except {A} (m : M A) (h : M A) : M A :=
  fun w =>
    match m w with
    | (Return a, w') => (Return a, w')
    | (Raised, w') => h w'
    end.

(** One call leaving the process: it raises when the next flag says so. *)
Definition external : M unit :=
  fun w =>
    match w_faults w with
    | false :: fs => (Raised, mkWorld (w_store w) fs (w_clock w) (w_trace w))
    | true :: fs => (Return tt, mkWorld (w_store w) fs (w_clock w) (w_trace w))
    | [] => (Return tt, w)
    end.

Definition emit (e : Event) : M unit :=
  fun w => (Return tt, mkWorld (w_store w) (w_faults w) (w_clock w) (w_trace w ++ [e])).

(** A send through the messaging transport. *)
Definition send (e : Event) : M unit := external ;; emit e.

Definition log_warning (text : string) : M unit := emit (LogWarning text).

(** [datetime.now(timezone.utc)], also the store's [default now()]. *)
Definition datetime_now : M timestamp := fun w => (Return (w_clock w), w).

(** [<query>.execute()]: a read returns rows, a write replaces the store. *)
Definition execute_read {A} (q : Store -> A) : M A :=
  external ;; (fun w => (Return (q (w_store w)), w)).

Definition execute_write {A} (q : timestamp -> Store -> A * Store) : M A :=
  external ;;
  (fun w =>
     let (a, st') := q (w_clock w) (w_store w) in
     (Return a, mkWorld st' (w_faults w) (w_clock w) (w_trace w))).

(** Running a handler on a store where every external call succeeds. *)
Definition run {A} (m : M A) (st : Store) (now : timestamp) : Outcome A * World :=
  m (mkWorld st [] now []).

Definition returned {A} (r : Outcome A * World) : option A :=
  match fst r with Return a => Some a | Raised => None end.
Definition store_of {A} (r : Outcome A * World) : Store := w_store (snd r).
Definition events_of {A} (r : Outcome A * World) : list Event := w_trace (snd r).

(** ** utils/supabase_client.py *)

(** [upsert(payload, on_conflict="tg_id")] on [Users]. *)
Definition users_upsert (tg : Z) (username first_name last_name : option string)
    (t : list User) : list User :=
  if existsb (fun u => u_tg_id u =? tg) t
  then update (fun u => u_tg_id u =? tg)
         (fun u => mkUser (u_id u) tg username first_name last_name (u_is_blocked u)) t
  else t ++ [mkUser (fresh_id u_id t) tg username first_name last_name false].

(** [upsert_user_basic]; its callers drop the returned row. *)
Definition upsert_user_basic (tg : Z) (username first_name last_name : option string) : M unit :=
  execute_write (fun _ st =>
    (tt, set_USERS st (users_upsert tg username first_name last_name (USERS st)))).

Definition get_user_by_tg_id (tg : Z) : M (option User) :=
  rows <- execute_read (fun st => limit 1 (select (fun u => u_tg_id u =? tg) (USERS st))) ;;
  ret (first_row rows).

Definition mark_profile_viewed (user_id profile_id : Z) : M unit :=
  try_except
    (execute_write (fun now st =>
       (tt, set_VIEWED_PROFILES st
              (VIEWED_PROFILES st ++
               [mkViewedProfile (fresh_id v_id (VIEWED_PROFILES st)) user_id profile_id now]))))
    (log_warning "Failed to insert ViewedProfiles record").

(** ** Text helpers of the Python runtime

    Text is a string of bytes (UTF-8).  [strip] removes the ASCII
    characters for which [str.isspace] holds; [py_int] is [int(s)] on
    ASCII input: surrounding whitespace, one optional sign, decimal
    digits with single underscores between them. *)

Definition is_space (c : ascii) : bool :=
  let n := Z.of_nat (nat_of_ascii c) in
  ((9 <=? n) && (n <=? 13)) || ((28 <=? n) && (n <=? 32)).

Fixpoint lstrip (s : string) : string :=
  match s with
  | String c s' => if is_space c then lstrip s' else s
  | EmptyString => EmptyString
  end.

Fixpoint rstrip (s : string) : string :=
  match s with
  | String c s' =>
      match rstrip s' with
      | EmptyString => if is_space c then EmptyString else String c EmptyString
      | r => String c r
      end
  | EmptyString => EmptyString
  end.

Definition strip (s : string) : string := rstrip (lstrip s).

(** [s.partition(sep)] when [sep] occurs in [s]: the text before the
    first occurrence and the text after it. *)
Fixpoint find_sep (sep : ascii) (s : string) : option (string * string) :=
  match s with
  | EmptyString => None
  | String c s' =>
      if Ascii.eqb c sep then Some (EmptyString, s')
      else match find_sep sep s' with
           | Some (before, after) => Some (String c before, after)
           | None => None
           end
  end.

(** [s.partition(sep)[2]] *)
Definition partition_after (sep : ascii) (s : string) : string :=
  match find_sep sep s with
  | Some (_, after) => after
  | None => EmptyString
  end.

(** [s.split(sep, maxsplit)] *)
Fixpoint split (sep : ascii) (maxsplit : nat) (s : string) : list string :=
  match maxsplit with
  | O => [s]
  | S n =>
      match find_sep sep s with
      | Some (before, after) => before :: split sep n after
      | None => [s]
      end
  end.

Definition digit_of (c : ascii) : option Z :=
  let n := Z.of_nat (nat_of_ascii c) in
  if (48 <=? n) && (n <=? 57) then Some (n - 48) else None.

(** Digits after the first one; [us] says the previous character was an
    underscore, which a digit must follow. *)
Fixpoint py_digits (acc : Z) (us : bool) (s : string) : option Z :=
  match s with
  | EmptyString => if us then None else Some acc
  | String c s' =>
      match digit_of c with
      | Some d => py_digits (10 * acc + d) false s'
      | None =>
          if Ascii.eqb c "_"%char && negb us then py_digits acc true s' else None
      end
  end.

Definition py_nat (s : string) : option Z :=
  match s with
  | String c s' =>
      match digit_of c with
      | Some d => py_digits d false s'
      | None => None
      end
  | EmptyString => None
  end.

Definition py_int (s : string) : option Z :=
  match strip s with
  | String "-" s' => option_map Z.opp (py_nat s')
  | String "+" s' => py_nat s'
  | s' => py_nat s'
  end.

(** ** Inbound updates *)

Record TgUser := mkTgUser {
  tg_user_id : Z;
  tg_username : option string;
  tg_first_name : option string;
  tg_last_name : option string
}.

Record Message := mkMessage {
  from_user : option TgUser;
  msg_text : option string;  (* message.text *)
  msg_video : option string  (* message.video, the bytes a download yields *)
}.

(** [message.from_user.id if message.from_user else None] *)
Definition from_id (message : Message) : option Z :=
  option_map tg_user_id (from_user message).

Record CallbackQuery := mkCallbackQuery {
  call_message : option Message;
  call_from_user : option TgUser;
  call_data : option string
}.

(** [x or ""] *)
Definition or_empty (o : option string) : string :=
  match o with Some s => s | None => "" end.

Definition nl : string := String "010"%char EmptyString.

(** ** handlers/feed.py *)

Module Feed.

Definition FEED_PREFIX : string := "feed".

Definition _action_cb (action : string) (profile_id to_user_id : Z) : string :=
  (FEED_PREFIX ++ ":" ++ action ++ ":" ++ str_of_Z profile_id ++ ":" ++ str_of_Z to_user_id)%string.

(** [None] stands for [ValueError("bad callback data")]. *)
Definition _parse_cb (data : string) : option (string * Z * Z) :=
  match split ":" 3 data with
  | [prefix; action; pid; uid] =>
      if negb (String.eqb prefix FEED_PREFIX) then None
      else match py_int pid, py_int uid with
           | Some p, Some u => Some (action, p, u)
           | _, _ => None
           end
  | _ => None
  end.

Definition _get_db_user (message : Message) : M (option User) :=
  match from_user message with
  | None => ret None
  | Some u => get_user_by_tg_id (tg_user_id u)
  end.

Definition _download_video_bytes (message : Message) : M (option string) :=
  match msg_video message with
  | None => ret None
  | Some content =>
      try_except
        (external ;; ret (Some content))
        (log_warning "Failed to download video" ;; ret None)
  end.

Definition _get_recently_viewed_ids (user_id : Z) (ndays : Z) : M (list Z) :=
  now <- datetime_now ;;
  let since := now - days ndays in
  rows <- execute_read (fun st =>
            select (fun v => (v_user_id v =? user_id) && (since <=? v_viewed_at v))
                   (VIEWED_PROFILES st)) ;;
  ret (map v_profile_id rows).

Definition _opposite_gender (g : option string) : option string :=
  if opt_str_eqb g (Some "male") then Some "female"
  else if opt_str_eqb g (Some "female") then Some "male"
  else None.

(** The filters [_apply_common_filters] adds to a query on [Profiles],
    as a predicate on one row. *)
Definition _apply_common_filters (me : Z) (gender_filter city_filter : option string)
    (viewed_ids : list Z) (p : Profile) : bool :=
  p_is_active p && negb (p_user_id p =? me)
  && (match gender_filter with
      | Some g => opt_str_eqb (p_gender p) (Some g)
      | None => true
      end)
  && (match city_filter with
      | Some c => opt_str_eqb (p_city p) (Some c)
      | None => true
      end)
  && (match viewed_ids with
      | [] => true
      | _ => negb (existsb (Z.eqb (p_id p)) viewed_ids)
      end).

(** [.gte("boosted_until", now_iso)]; a NULL never satisfies it. *)
Definition boost_live (now : timestamp) (p : Profile) : bool :=
  match p_boosted_until p with
  | Some t => now <=? t
  | None => false
  end.

Definition boost_key (p : Profile) : Z :=
  match p_boosted_until p with Some t => t | None => 0 end.

Definition boost_lt (p q : Profile) : bool := boost_key p <? boost_key q.

Definition created_lt (p q : Profile) : bool := p_created_at p <? p_created_at q.

Definition _fetch_next_profile (db_user : User) : M (option Profile) :=
  my_profile_list <- execute_read (fun st =>
      limit 1 (select (fun p => p_user_id p =? u_id db_user) (PROFILES st))) ;;
  let my_profile := first_row my_profile_list in
  let gender_filter :=
    match my_profile with
    | Some mp => _opposite_gender (p_gender mp)
    | None => None
    end in
  let city_filter :=
    match my_profile with
    | Some mp => if truthy_str (p_city mp) then p_city mp else None
    | None => None
    end in
  viewed_ids <- _get_recently_viewed_ids (u_id db_user) 2 ;;
  now_iso <- datetime_now ;;
  let common := _apply_common_filters (u_id db_user) gender_filter city_filter viewed_ids in
  (* 1) boosted first *)
  boosted <- execute_read (fun st =>
      limit 20 (sort_desc boost_lt
                  (select (fun p => common p && boost_live now_iso p) (PROFILES st)))) ;;
  match boosted with
  | b :: _ => ret (Some b)
  | [] =>
      (* 2) others by recency *)
      others <- execute_read (fun st =>
          limit 50 (sort_desc created_lt (select common (PROFILES st)))) ;;
      ret (first_row others)
  end.

Definition _show_profile (db_user : User) (profile : Profile) : M unit :=
  (match p_photos profile with
   | _ :: _ =>
       try_except (send (ProfileCard true (p_id profile)))
                  (send (ProfileCard false (p_id profile)))
   | [] => send (ProfileCard false (p_id profile))
   end) ;;
  (* mark as viewed *)
  try_except (mark_profile_viewed (u_id db_user) (p_id profile))
             (log_warning "Failed to mark viewed").

Definition cmd_feed (message : Message) : M unit :=
  db_user <- _get_db_user message ;;
  match db_user with
  | None => send (MessageAnswer "Ошибка идентификации пользователя. Попробуйте /start.")
  | Some dbu =>
      profile <- _fetch_next_profile dbu ;;
      match profile with
      | None => send (MessageAnswer "Подходящих анкет не найдено. Попробуйте позже.")
      | Some p => _show_profile dbu p
      end
  end.

(** [upsert(payload, on_conflict="from_user_id,to_user_id")] on [Likes]:
    the row of that pair takes every column of the payload, or a new
    row is appended. *)
Definition same_pair (from_user_id to_user_id : Z) (l : Like) : bool :=
  (l_from_user_id l =? from_user_id) && (l_to_user_id l =? to_user_id).

Definition likes_upsert (from_user_id to_user_id : Z) (message_text video_url : option string)
    (t : list Like) : list Like :=
  if existsb (same_pair from_user_id to_user_id) t
  then update (same_pair from_user_id to_user_id)
         (fun l => mkLike (l_id l) from_user_id to_user_id message_text video_url) t
  else t ++ [mkLike (fresh_id l_id t) from_user_id to_user_id message_text video_url].

Definition _insert_like (from_user_id to_user_id : Z) (message_text video_url : option string)
    : M unit :=
  try_except
    (execute_write (fun _ st =>
       (tt, set_LIKES st
              (likes_upsert from_user_id to_user_id message_text video_url (LIKES st)))))
    (log_warning "Like upsert failed").

Definition _check_reciprocal_like (a_user_id b_user_id : Z) : M bool :=
  try_except
    (rows <- execute_read (fun st =>
               limit 1 (select (same_pair b_user_id a_user_id) (LIKES st))) ;;
     ret (match rows with [] => false | _ => true end))
    (log_warning "Reciprocal like check failed" ;; ret false).

Definition between (a_user_id b_user_id : Z) (m : Match) : bool :=
  ((m_user1_id m =? a_user_id) && (m_user2_id m =? b_user_id))
  || ((m_user1_id m =? b_user_id) && (m_user2_id m =? a_user_id)).

Definition _get_match_between (a_user_id b_user_id : Z) : M (option Match) :=
  try_except
    (rows <- execute_read (fun st =>
               limit 1 (select (between a_user_id b_user_id) (MATCHES st))) ;;
     ret (first_row rows))
    (log_warning "Get match failed" ;; ret None).

(** [insert({"user1_id": .., "user2_id": ..})] on [Matches]; the store
    fills [id] and [is_active] (default true) and returns the row. *)
Definition matches_insert (user1 user2 : Z) (t : list Match) : list Match * list Match :=
  let row := mkMatch (fresh_id m_id t) user1 user2 true in
  ([row], (t ++ [row])%list).

Definition _create_match (a_user_id b_user_id : Z) : M (option Match) :=
  if a_user_id =? b_user_id then ret None
  else
    let user1 := Z.min a_user_id b_user_id in
    let user2 := Z.max a_user_id b_user_id in
    found <- _get_match_between user1 user2 ;;
    match found with
    | Some _ => _get_match_between user1 user2
    | None =>
        try_except
          (rows <- execute_write (fun _ st =>
                     let (rows, t) := matches_insert user1 user2 (MATCHES st) in
                     (rows, set_MATCHES st t)) ;;
           ret (first_row rows))
          (log_warning "Create match failed" ;; _get_match_between user1 user2)
    end.

Definition _notify_like (to_tg_id : Z) (from_profile : Profile) (like_text : option string)
    : M unit :=
  let name := if truthy_str (p_name from_profile)
              then or_empty (p_name from_profile) else "Пользователь" in
  let msg := ("Вас лайкнул(а) " ++ name ++ "!")%string in
  let msg := if truthy_str like_text
             then (msg ++ nl ++ "Сообщение: " ++ or_empty like_text)%string else msg in
  try_except (send (SendMessage to_tg_id msg)) (log_warning "Notify like failed").

Definition MATCH_TEXT : string :=
  "🔥 У вас взаимная симпатия! Мы предложим анонимный чат в ближайшее время.".

Definition _notify_match (user_a_tg user_b_tg : Z) : M unit :=
  try_except (send (SendMessage user_a_tg MATCH_TEXT)) (log_warning "Notify match failed") ;;
  try_except (send (SendMessage user_b_tg MATCH_TEXT)) (log_warning "Notify match failed").

Definition _resolve_tg_id (users_id : Z) : M (option Z) :=
  try_except
    (rows <- execute_read (fun st => limit 1 (select (fun u => u_id u =? users_id) (USERS st))) ;;
     ret (option_map u_tg_id (first_row rows)))
    (ret None).

(** What the three like handlers do after [_insert_like]: notify the
    target, then detect reciprocity and create the match. *)
Definition notify_and_match (db_user : User) (to_user_id : Z) (my_tg : option Z)
    (like_text : option string) : M unit :=
  target_tg <- _resolve_tg_id to_user_id ;;
  my_profile_resp <- execute_read (fun st =>
      limit 1 (select (fun p => p_user_id p =? u_id db_user) (PROFILES st))) ;;
  (match target_tg, first_row my_profile_resp with
   | Some tg, Some my_profile =>
       if truthy_int target_tg then _notify_like tg my_profile like_text else ret tt
   | _, _ => ret tt
   end) ;;
  reciprocal <- _check_reciprocal_like (u_id db_user) to_user_id ;;
  if reciprocal then
    m <- _create_match (u_id db_user) to_user_id ;;
    match m, target_tg, my_tg with
    | Some _, Some other_tg, Some me_tg =>
        if truthy_int target_tg && truthy_int my_tg
        then _notify_match me_tg other_tg else ret tt
    | _, _, _ => ret tt
    end
  else ret tt.

(** The Like operation as the three like handlers perform it: the
    upsert of the edge, then [notify_and_match]. *)
Definition like (db_user : User) (to_user_id : Z) (my_tg : option Z)
    (message_text video_url like_text : option string) : M unit :=
  _insert_like (u_id db_user) to_user_id message_text video_url ;;
  notify_and_match db_user to_user_id my_tg like_text.

Definition show_next (db_user : User) : M unit :=
  next_profile <- _fetch_next_profile db_user ;;
  match next_profile with
  | None => send (EditText "Больше анкет нет. Попробуйте позже.")
  | Some p => _show_profile db_user p
  end.

Definition feed_actions (call : CallbackQuery) : M unit :=
  match call_message call with
  | None => ret tt
  | Some message =>
      db_user <- _get_db_user message ;;
      match db_user with
      | None => send (CallAnswer "Ошибка пользователя")
      | Some dbu =>
          match _parse_cb (or_empty (call_data call)) with
          | None => send (CallAnswer "Некорректные данные")
          | Some (action, profile_id, to_user_id) =>
              if String.eqb action "skip" then
                send (CallAnswer "Пропущено") ;;
                show_next dbu
              else if String.eqb action "like" then
                like dbu to_user_id (option_map tg_user_id (call_from_user call))
                     None None None ;;
                send (CallAnswer "Лайк отправлен") ;;
                show_next dbu
              else if String.eqb action "like_msg" then
                emit (FsmUpdate to_user_id) ;;
                emit (FsmSetState "LikeWithMessage:waiting_text") ;;
                send (MessageAnswer "Напишите сообщение, которое отправим вместе с лайком.") ;;
                send (CallAnswer "")
              else if String.eqb action "like_vid" then
                emit (FsmUpdate to_user_id) ;;
                emit (FsmSetState "LikeWithVideo:waiting_video") ;;
                send (MessageAnswer "Отправьте видео (как видео, не файлом).") ;;
                send (CallAnswer "")
              else ret tt
          end
      end
  end.

(** [like_with_message]; [target_user_id] is the value kept in the
    dialogue state by [feed_actions]. *)
Definition like_with_message (message : Message) (target_user_id : option Z) : M unit :=
  db_user <- _get_db_user message ;;
  match db_user with
  | None => send (MessageAnswer "Ошибка пользователя.")
  | Some dbu =>
      let text := strip (or_empty (msg_text message)) in
      match target_user_id with
      | Some to_user_id =>
          if negb (truthy_int target_user_id) || String.eqb text ""
          then send (MessageAnswer "Сообщение не может быть пустым.")
          else
            like dbu to_user_id (from_id message) (Some text) None (Some text) ;;
            emit FsmClear ;;
            send (MessageAnswer "Лайк с сообщением отправлен.")
      | None => send (MessageAnswer "Сообщение не может быть пустым.")
      end
  end.

Section Media.
(** The media store: the URL an upload of these bytes yields. *)
Variable upload_video : string -> option string.

Definition like_with_video (message : Message) (target_user_id : option Z) : M unit :=
  db_user <- _get_db_user message ;;
  match db_user with
  | None => send (MessageAnswer "Ошибка пользователя.")
  | Some dbu =>
      match target_user_id with
      | Some to_user_id =>
          if negb (truthy_int target_user_id)
          then send (MessageAnswer "Ошибка цели лайка.")
          else
            content <- _download_video_bytes message ;;
            if negb (truthy_str content)
            then send (MessageAnswer "Не удалось получить видео. Попробуйте ещё раз отправить видео.")
            else
              up <- try_except
                      (external ;; ret (Some (upload_video (or_empty content))))
                      (log_warning "Cloudinary video upload error" ;;
                       send (MessageAnswer "Ошибка загрузки видео. Попробуйте позже.") ;;
                       ret None) ;;
              match up with
              | None => ret tt
              | Some vurl =>
                  like dbu to_user_id (from_id message) None vurl (Some "[видео]") ;;
                  emit FsmClear ;;
                  send (MessageAnswer "Лайк с видео отправлен.")
              end
      | None => send (MessageAnswer "Ошибка цели лайка.")
      end
  end.
End Media.

End Feed.

(** ** handlers/chat.py *)

Module Relay.

Definition CB_PREFIX : string := "chat".

Definition _cb (action : string) (match_id : Z) : string :=
  (CB_PREFIX ++ ":" ++ action ++ ":" ++ str_of_Z match_id)%string.

(** [None] stands for [ValueError("bad callback data")]; the unpacking
    into three names needs exactly three parts. *)
Definition _parse_cb (data : string) : option (string * Z) :=
  match split ":" 3 data with
  | [prefix; action; mid] =>
      if negb (String.eqb prefix CB_PREFIX) then None
      else match py_int mid with
           | Some n => Some (action, n)
           | None => None
           end
  | _ => None
  end.

Definition _db_user_from_message (message : Message) : M (option User) :=
  match from_user message with
  | None => ret None
  | Some u => get_user_by_tg_id (tg_user_id u)
  end.

Definition _other_user_id (m : Match) (my_user_id : Z) : option Z :=
  if m_user1_id m =? my_user_id then Some (m_user2_id m)
  else if m_user2_id m =? my_user_id then Some (m_user1_id m)
  else None.

(** [x or 0] *)
Definition or_zero (o : option Z) : Z :=
  match o with Some z => if z =? 0 then 0 else z | None => 0 end.

Definition involves (user_id : Z) (m : Match) : bool :=
  (m_user1_id m =? user_id) || (m_user2_id m =? user_id).

Definition _get_matches_for_user (user_id : Z) (active_only : bool) (lim : nat)
    : M (list Match) :=
  execute_read (fun st =>
    limit lim (select (fun m => (if active_only then m_is_active m else true)
                                && involves user_id m) (MATCHES st))).

Definition in_ids (ids : list Z) (x : Z) : bool := existsb (Z.eqb x) ids.

Definition _get_active_chats_for_matches (match_ids : list Z) : M (list Chat) :=
  match match_ids with
  | [] => ret []
  | _ =>
      execute_read (fun st =>
        select (fun c => c_is_active c && in_ids match_ids (c_match_id c)) (CHATS st))
  end.

Definition _get_match_by_id (mid : Z) : M (option Match) :=
  rows <- execute_read (fun st => limit 1 (select (fun m => m_id m =? mid) (MATCHES st))) ;;
  ret (first_row rows).

(** Order of the sort key [c.get("updated_at") or ""]: a missing
    timestamp is below every timestamp. *)
Definition updated_lt (c d : Chat) : bool :=
  match c_updated_at c, c_updated_at d with
  | None, Some _ => true
  | Some a, Some b => a <? b
  | _, None => false
  end.

(** Return (chat, match) for active chat of user if any (latest by
    updated_at). *)
Definition _get_active_chat_for_user (user_id : Z) : M (option (Chat * Match)) :=
  matches <- _get_matches_for_user user_id true 100 ;;
  let mids := map m_id matches in
  chats <- _get_active_chats_for_matches mids ;;
  match sort_desc updated_lt chats with
  | [] => ret None
  | chat :: _ =>
      match find (fun m => m_id m =? c_match_id chat) matches with
      | None => ret None
      | Some m => ret (Some (chat, m))
      end
  end.

Definition _has_active_chat_for_match (match_id : Z) : M bool :=
  rows <- execute_read (fun st =>
            limit 1 (select (fun c => (c_match_id c =? match_id) && c_is_active c) (CHATS st))) ;;
  ret (match rows with [] => false | _ => true end).

Definition deactivate (c : Chat) : Chat :=
  mkChat (c_id c) (c_match_id c) false (c_updated_at c).

Definition _deactivate_all_user_chats (user_id : Z) : M unit :=
  matches <- _get_matches_for_user user_id true 200 ;;
  let mids := map m_id matches in
  match mids with
  | [] => ret tt
  | _ =>
      try_except
        (execute_write (fun _ st =>
           (tt, set_CHATS st
                  (update (fun c => in_ids mids (c_match_id c) && c_is_active c)
                          deactivate (CHATS st)))))
        (log_warning "Deactivate chats failed")
  end.

Definition _create_chat (match_id : Z) : M (option Chat) :=
  try_except
    (rows <- execute_write (fun now st =>
               let row := mkChat (fresh_id c_id (CHATS st)) match_id true (Some now) in
               ([row], set_CHATS st (CHATS st ++ [row]))) ;;
     ret (first_row rows))
    (log_warning "Create chat failed" ;; ret None).

Definition _tg_id (users_id : Z) : M (option Z) :=
  rows <- execute_read (fun st => limit 1 (select (fun u => u_id u =? users_id) (USERS st))) ;;
  ret (option_map u_tg_id (first_row rows)).

(** The name as an f-string renders it. *)
Definition render (o : option string) : string :=
  match o with Some s => s | None => "None" end.

Definition _profile_name (user_id : Z) : M (option string) :=
  try_except
    (rows <- execute_read (fun st =>
               limit 1 (select (fun p => p_user_id p =? user_id) (PROFILES st))) ;;
     ret (match first_row rows with
          | Some p => p_name p
          | None => Some "Пользователь"
          end))
    (ret (Some "Пользователь")).

(** The loop of [cmd_start_chat]: the first match without active chat. *)
Fixpoint pick_candidate (ms : list Match) : M (option Match) :=
  match ms with
  | [] => ret None
  | m :: ms' =>
      busy <- _has_active_chat_for_match (m_id m) ;;
      if busy then pick_candidate ms' else ret (Some m)
  end.

Definition when (b : bool) (m : M unit) : M unit := if b then m else ret tt.

Definition send_to (tg : option Z) (text : string) : M unit :=
  match tg with
  | Some chat_id => when (truthy_int tg) (send (SendMessage chat_id text))
  | None => ret tt
  end.

Definition cmd_start_chat (message : Message) : M unit :=
  dbu <- _db_user_from_message message ;;
  match dbu with
  | None => ret tt
  | Some dbu =>
      ms <- _get_matches_for_user (u_id dbu) true 50 ;;
      match ms with
      | [] => send (MessageAnswer "Нет активных матчей для начала чата.")
      | _ =>
          (* pick first without active chat *)
          candidate <- pick_candidate ms ;;
          match candidate with
          | None =>
              send (MessageAnswer "По всем матчам уже есть активные чаты. Используйте /end_chat, чтобы завершить текущий, и затем /start_chat.")
          | Some candidate =>
              (* ensure only one chat active for this user *)
              _deactivate_all_user_chats (u_id dbu) ;;
              ch <- _create_chat (m_id candidate) ;;
              match ch with
              | None => send (MessageAnswer "Не удалось создать чат. Попробуйте позже.")
              | Some _ =>
                  let other := or_zero (_other_user_id candidate (u_id dbu)) in
                  let my_tg := from_id message in
                  other_tg <- _tg_id other ;;
                  name_me <- _profile_name (u_id dbu) ;;
                  name_ot <- _profile_name other ;;
                  send_to my_tg
                    ("Анонимный чат с ‘" ++ render name_ot ++ "’ начат. Сообщения будут пересылаться анонимно. Используйте /end_chat для завершения.")%string ;;
                  send_to other_tg
                    ("‘" ++ render name_me ++ "’ начал(а) с вами анонимный чат. Сообщения будут пересылаться анонимно. Используйте /end_chat для завершения.")%string
              end
          end
      end
  end.

Definition cmd_end_chat (message : Message) : M unit :=
  dbu <- _db_user_from_message message ;;
  match dbu with
  | None => ret tt
  | Some dbu =>
      active <- _get_active_chat_for_user (u_id dbu) ;;
      match active with
      | None => send (MessageAnswer "У вас нет активного чата.")
      | Some (chat, m) =>
          try_except
            (execute_write (fun _ st =>
               (tt, set_CHATS st (update (fun c => c_id c =? c_id chat) deactivate (CHATS st)))))
            (log_warning "End chat update failed") ;;
          let my_tg := from_id message in
          let other := or_zero (_other_user_id m (u_id dbu)) in
          other_tg <- _tg_id other ;;
          send_to my_tg "Чат завершён." ;;
          send_to other_tg "Собеседник завершил чат."
      end
  end.

Definition block (u : User) : User :=
  mkUser (u_id u) (u_tg_id u) (u_username u) (u_first_name u) (u_last_name u) true.

Definition cmd_block_user (message : Message) : M unit :=
  dbu <- _db_user_from_message message ;;
  match dbu with
  | None => ret tt
  | Some dbu =>
      active <- _get_active_chat_for_user (u_id dbu) ;;
      match active with
      | None => send (MessageAnswer "Нет активного чата для блокировки.")
      | Some (chat, m) =>
          let other := or_zero (_other_user_id m (u_id dbu)) in
          try_except
            (execute_write (fun _ st =>
               (tt, set_USERS st (update (fun u => u_id u =? other) block (USERS st)))) ;;
             execute_write (fun _ st =>
               (tt, set_CHATS st (update (fun c => c_id c =? c_id chat) deactivate (CHATS st)))) ;;
             send (MessageAnswer "Пользователь заблокирован, чат завершён."))
            (log_warning "Block user failed" ;;
             send (MessageAnswer "Ошибка блокировки пользователя."))
      end
  end.

Definition cmd_report (message : Message) : M unit :=
  dbu <- _db_user_from_message message ;;
  match dbu with
  | None => ret tt
  | Some dbu =>
      let reason := strip (partition_after " " (or_empty (msg_text message))) in
      if String.eqb reason ""
      then send (MessageAnswer "Использование: /report <описание жалобы>")
      else
        active <- _get_active_chat_for_user (u_id dbu) ;;
        let target_id :=
          match active with
          | Some (_, m) => _other_user_id m (u_id dbu)
          | None => None
          end in
        try_except
          (execute_write (fun _ st =>
             (tt, set_COMPLAINTS st
                    (COMPLAINTS st ++
                     [mkComplaint (fresh_id k_id (COMPLAINTS st))
                                  (Some (u_id dbu)) target_id (Some reason) false]))) ;;
           send (MessageAnswer "Жалоба отправлена."))
          (log_warning "Report failed" ;;
           send (MessageAnswer "Ошибка отправки жалобы."))
  end.

Definition cmd_share_contact (message : Message) : M unit :=
  dbu <- _db_user_from_message message ;;
  match dbu with
  | None => ret tt
  | Some dbu =>
      active <- _get_active_chat_for_user (u_id dbu) ;;
      match active with
      | None => send (MessageAnswer "Нет активного чата для обмена контактами.")
      | Some (_, m) =>
          let match_id := m_id m in
          let other := or_zero (_other_user_id m (u_id dbu)) in
          other_tg <- _tg_id other ;;
          match other_tg with
          | Some tg =>
              if truthy_int other_tg then
                send (MessageAnswer "Запрос отправлен. Ожидайте подтверждения собеседника.") ;;
                try_except (send (ContactPrompt tg match_id))
                           (log_warning "Share contact notify failed")
              else send (MessageAnswer "Не удалось связаться с собеседником.")
          | None => send (MessageAnswer "Не удалось связаться с собеседником.")
          end
      end
  end.

Definition _mention (tg : option Z) : string :=
  match tg with
  | Some n => if truthy_int tg then ("tg://user?id=" ++ str_of_Z n)%string
              else "контакт недоступен"
  | None => "контакт недоступен"
  end.

Definition APPROVED : string := "Обмен контактами разрешён. Контакт собеседника: ".
Definition DECLINED_BY_PEER : string := "Собеседник отклонил обмен контактами.".
Definition YOU_DECLINED : string := "Вы отклонили обмен контактами.".

Definition cb_share_contact (call : CallbackQuery) : M unit :=
  match _parse_cb (or_empty (call_data call)) with
  | None => send (CallAnswer "Некорректные данные")
  | Some (action, mid) =>
      found <- _get_match_by_id mid ;;
      match found with
      | None => send (CallAnswer "Матч не найден")
      | Some m =>
          (* identify parties *)
          let user_a := m_user1_id m in
          let user_b := m_user2_id m in
          tg_a <- _tg_id user_a ;;
          tg_b <- _tg_id user_b ;;
          if String.eqb action "approve" then
            try_except
              (match tg_a, tg_b with
               | Some a, Some b =>
                   when (truthy_int tg_a && truthy_int tg_b)
                     (send (SendMessage a (APPROVED ++ _mention tg_b)) ;;
                      send (SendMessage b (APPROVED ++ _mention tg_a)))
               | _, _ => ret tt
               end ;;
               send (CallAnswer "Обмен контактами выполнен"))
              (log_warning "Approve contact failed" ;;
               send (CallAnswer "Ошибка обмена контактами"))
          else if String.eqb action "reject" then
            try_except
              (send_to tg_a DECLINED_BY_PEER ;;
               send_to tg_b YOU_DECLINED ;;
               send (CallAnswer "Отклонено"))
              (log_warning "Reject contact failed" ;;
               send (CallAnswer "Ошибка"))
          else ret tt
      end
  end.

(** Proxy messages inside active anonymous chat. *)
Definition proxy_messages (message : Message) : M unit :=
  dbu <- _db_user_from_message message ;;
  match dbu with
  | None => ret tt
  | Some dbu =>
      active <- _get_active_chat_for_user (u_id dbu) ;;
      match active with
      | None => ret tt
      | Some (_, m) =>
          let other := or_zero (_other_user_id m (u_id dbu)) in
          other_tg <- _tg_id other ;;
          match other_tg with
          | Some tg =>
              when (truthy_int other_tg)
                (try_except (send (CopyMessage tg)) (log_warning "Proxy copy message failed"))
          | None => ret tt
          end
      end
  end.

End Relay.

(** ** handlers/registration.py *)

Module Registration.

Definition BACK_BTN : string := "⬅️ Назад".

(** The answers staged in the dialogue state ([state.get_data()]). *)
Record RegData := mkRegData {
  d_name : option string;
  d_gender : option string;
  d_age : option Z;
  d_city : option string;
  d_photos : option (list string);
  d_bio : option string
}.

(** [data.update(bio=bio)] *)
Definition with_bio (data : RegData) (bio : string) : RegData :=
  mkRegData (d_name data) (d_gender data) (d_age data) (d_city data) (d_photos data) (Some bio).

(** [data.get("photos", [])] *)
Definition photos_of (data : RegData) : list string :=
  match d_photos data with Some l => l | None => [] end.

(** [update(payload)]: the columns of the payload are overwritten, the
    others ([id], [boosted_until], [created_at]) stay. *)
Definition apply_payload (user_id : Z) (data : RegData) (p : Profile) : Profile :=
  mkProfile (p_id p) user_id (d_name data) (d_gender data) (d_age data) (d_city data)
            (photos_of data) (d_bio data) true (p_boosted_until p) (p_created_at p).

(** [insert(payload)] with [boosted_until] in the payload; the store
    fills [id] and [created_at]. *)
Definition new_profile (user_id : Z) (data : RegData) (boosted_until now : timestamp)
    (t : list Profile) : Profile :=
  mkProfile (fresh_id p_id t) user_id (d_name data) (d_gender data) (d_age data) (d_city data)
            (photos_of data) (d_bio data) true (Some boosted_until) now.

Definition _create_or_update_profile (message : Message) (data : RegData) : M unit :=
  match from_user message with
  | None => ret tt
  | Some user =>
      (* Ensure user present in Users *)
      upsert_user_basic (tg_user_id user) (tg_username user) (tg_first_name user)
                        (tg_last_name user) ;;
      db_user <- get_user_by_tg_id (tg_user_id user) ;;
      match db_user with
      | None => send (MessageAnswer "Ошибка: не удалось идентифицировать пользователя в базе.")
      | Some dbu =>
          (* Check existing profile *)
          rows <- execute_read (fun st =>
                    limit 1 (select (fun p => p_user_id p =? u_id dbu) (PROFILES st))) ;;
          try_except
            (match first_row rows with
             | Some existing =>
                 execute_write (fun _ st =>
                   (tt, set_PROFILES st
                          (update (fun p => p_id p =? p_id existing)
                                  (apply_payload (u_id dbu) data) (PROFILES st))))
             | None =>
                 now <- datetime_now ;;
                 let boosted_until := now + hours 24 in
                 execute_write (fun created st =>
                   (tt, set_PROFILES st
                          (PROFILES st ++
                           [new_profile (u_id dbu) data boosted_until created (PROFILES st)])))
             end)
            (log_warning "Failed to persist profile" ;;
             send (MessageAnswer "Ошибка сохранения анкеты. Попробуйте позже."))
      end
  end.

Definition SAVED : string :=
  ("Анкета сохранена." ++ nl ++
   "Откройте /start для управления:" ++ nl ++
   "1. Смотреть анкеты" ++ nl ++
   "2. Заполнить анкету заново" ++ nl ++
   "3. Изменить фото/видео" ++ nl ++
   "4. Изменить текст анкеты")%string.

(** The Bio step; [data] is the dialogue state on entry. *)
Definition reg_bio (message : Message) (data : RegData) : M unit :=
  let raw := strip (or_empty (msg_text message)) in
  if String.eqb raw BACK_BTN then
    emit (FsmSetState "Registration:photo") ;;
    send (MessageAnswer "Отправьте фото для анкеты (как фотографию, не файлом).")
  else
    let bio := raw in
    if String.eqb bio "" then
      send (MessageAnswer "Описание не должно быть пустым. Введите описание.")
    else
      (* Persist profile *)
      _create_or_update_profile message (with_bio data bio) ;;
      emit FsmClear ;;
      send (MessageAnswer SAVED).

End Registration.

(** * Notions used in the statements *)

Abbreviation W st now tr := (mkWorld st [] now tr).

(** Ids of the profiles the viewer was shown in the last two days. *)
Definition recently_viewed (st : Store) (now : timestamp) (user_id : Z) : list Z :=
  map v_profile_id
      (select (fun v => (v_user_id v =? user_id) && (now - days 2 <=? v_viewed_at v))
              (VIEWED_PROFILES st)).

(** The common filters of the viewer, as [_fetch_next_profile] sets
    them up from the viewer's own profile and view log. *)
Definition viewer_filter (st : Store) (now : timestamp) (db_user : User) : Profile -> bool :=
  let my_profile := find (fun p => p_user_id p =? u_id db_user) (PROFILES st) in
  Feed._apply_common_filters (u_id db_user)
    (match my_profile with
     | Some mp => Feed._opposite_gender (p_gender mp)
     | None => None
     end)
    (match my_profile with
     | Some mp => if truthy_str (p_city mp) then p_city mp else None
     | None => None
     end)
    (recently_viewed st now (u_id db_user)).

Definition boosted_pool (st : Store) (now : timestamp) (db_user : User) : list Profile :=
  select (fun p => viewer_filter st now db_user p && Feed.boost_live now p) (PROFILES st).

Definition recency_pool (st : Store) (now : timestamp) (db_user : User) : list Profile :=
  select (viewer_filter st now db_user) (PROFILES st).

(** The [Matches] table after [_create_match a b]. *)
Definition matches_after (a b : Z) (t : list Match) : list Match :=
  if a =? b then t
  else if existsb (Feed.between (Z.min a b) (Z.max a b)) t then t
  else t ++ [mkMatch (fresh_id m_id t) (Z.min a b) (Z.max a b) true].

Definition match_created (a b : Z) (st : Store) : Store :=
  if (a =? b) || existsb (Feed.between (Z.min a b) (Z.max a b)) (MATCHES st) then st
  else set_MATCHES st (matches_after a b (MATCHES st)).

(** The store after [notify_and_match]: the match exists when the like was
    reciprocal. *)
Definition liked_back (me to : Z) (st : Store) : Store :=
  if existsb (Feed.same_pair to me) (LIKES st) then match_created me to st else st.

Definition canonical_pair (a b : Z) (t : list Match) : Prop :=
  forall m, In m t -> Feed.between a b m = true ->
            m_user1_id m = Z.min a b /\ m_user2_id m = Z.max a b /\ m_user1_id m < m_user2_id m.

(** The [Users] id under which the sender is known once
    [upsert_user_basic] has run. *)
Definition uid_of (tg : Z) (t : list User) : Z :=
  match find (fun u => u_tg_id u =? tg) t with
  | Some u => u_id u
  | None => fresh_id u_id t
  end.

Definition owned_by (uid : Z) (p : Profile) : bool := p_user_id p =? uid.

(** The [Profiles] table after one completed run. *)
Definition profiles_after (uid : Z) (data : Registration.RegData) (now : timestamp)
    (t : list Profile) : list Profile :=
  match find (owned_by uid) t with
  | Some existing =>
      update (fun p => p_id p =? p_id existing) (Registration.apply_payload uid data) t
  | None => t ++ [Registration.new_profile uid data (now + hours 24) now t]
  end.

(** A message that completes the Bio step: its text is neither empty
    after trimming nor the back button. *)
Definition completes_bio (text : string) : bool :=
  negb (String.eqb (strip text) Registration.BACK_BTN) && negb (String.eqb (strip text) "").

(** Completed registration runs of one sender, each with the text of
    the Bio message, the staged answers and the time of the run. *)
Fixpoint complete_runs (user : TgUser) (runs : list (string * Registration.RegData * timestamp))
    (st : Store) : Store :=
  match runs with
  | [] => st
  | (text, data, now) :: rest =>
      complete_runs user rest
        (store_of (run (Registration.reg_bio (mkMessage (Some user) (Some text) None) data)
                       st now))
  end.

(** The user's current active chat, as [_get_active_chat_for_user]
    finds it when the store answers. *)
Definition active_chat (st : Store) (user_id : Z) : option (Chat * Match) :=
  let matches := limit 100 (select (fun m => m_is_active m && Relay.involves user_id m)
                                   (MATCHES st)) in
  let chats :=
    match map m_id matches with
    | [] => []
    | mids => select (fun c => c_is_active c && Relay.in_ids mids (c_match_id c)) (CHATS st)
    end in
  match sort_desc Relay.updated_lt chats with
  | [] => None
  | chat :: _ =>
      match find (fun m => m_id m =? c_match_id chat) matches with
      | None => None
      | Some m => Some (chat, m)
      end
  end.

(** The reason of a report, as [cmd_report] reads it from the text. *)
Definition report_reason (message : Message) : string :=
  strip (partition_after " " (or_empty (msg_text message))).

Definition has_active_chat (st : Store) (match_id : Z) : bool :=
  existsb (fun c => (c_match_id c =? match_id) && c_is_active c) (CHATS st).

(** The user's matches as [_get_matches_for_user] selects them. *)
Definition active_matches (st : Store) (user_id : Z) : list Match :=
  select (fun m => m_is_active m && Relay.involves user_id m) (MATCHES st).

(** Active chats on the user's matches. *)
Definition active_chats_of (st : Store) (user_id : Z) : nat :=
  count (fun c => c_is_active c
                  && existsb (fun m => (m_id m =? c_match_id c) && Relay.involves user_id m)
                             (MATCHES st))
        (CHATS st).

(** The [Chats] table after a successful [cmd_start_chat] on [candidate]. *)
Definition chats_after_start (st : Store) (user_id : Z) (candidate : Match) (now : timestamp)
    : list Chat :=
  let mids := map m_id (limit 200 (active_matches st user_id)) in
  let t := match mids with
           | [] => CHATS st
           | _ => update (fun c => Relay.in_ids mids (c_match_id c) && c_is_active c)
                         Relay.deactivate (CHATS st)
           end in
  t ++ [mkChat (fresh_id c_id t) (m_id candidate) true (Some now)].

(** ** Scenarios *)

Definition tg (n : Z) : TgUser := mkTgUser n None None None.

Definition from_tg (n : Z) (text : option string) : Message :=
  mkMessage (Some (tg n)) text None.

Definition three_users : list User :=
  [mkUser 1 101 None None None false;
   mkUser 2 102 None None None false;
   mkUser 3 103 None None None false].

(** User 2 is matched with user 1 and with user 3; nobody chats yet. *)
Definition two_matches : Store :=
  mkStore three_users [] [] [mkMatch 1 1 2 true; mkMatch 2 2 3 true] [] [] [].

(** Users 1 and 2 are matched and in an active chat. *)
Definition one_chat : Store :=
  mkStore three_users [] [] [mkMatch 1 1 2 true] [mkChat 1 1 true (Some 5)] [] [].

(** User 2 has liked user 1, who has a profile. *)
Definition liked : Store :=
  mkStore three_users
    [mkProfile 1 1 (Some "Ann") (Some "female") (Some 30) (Some "Paris") [] (Some "hi")
               true None 0]
    [mkLike 1 2 1 None None] [] [] [] [].

(** A male viewer in Paris and two female profiles in Paris, one of
    them boosted for another hour at time 1000. *)
Definition paris : Store :=
  mkStore three_users
    [mkProfile 1 1 (Some "Max") (Some "male") (Some 25) (Some "Paris") [] (Some "a")
               true None 100;
     mkProfile 2 2 (Some "Ann") (Some "female") (Some 24) (Some "Paris") [] (Some "b")
               true None 300;
     mkProfile 3 3 (Some "Eve") (Some "female") (Some 26) (Some "Paris") [] (Some "c")
               true (Some 4600) 200]
    [] [] [] [] [].

(** User 1 presses the like button under the card of user 2. *)
Definition like_call : CallbackQuery :=
  mkCallbackQuery (Some (from_tg 101 None)) (Some (tg 101)) (Some "feed:like:7:2").

(** What C8 says of a Like whose upsert failed: nothing is sent to
    anybody, the user is not told that the like was sent, and no match
    is created. *)
Definition like_aborted (before : Store) (r : Outcome unit * World) : Prop :=
  (forall e, In e (events_of r) ->
             match e with
             | SendMessage _ _ => False
             | CallAnswer t => t <> "Лайк отправлен"
             | _ => True
             end) /\
  MATCHES (store_of r) = MATCHES before.

(** ** config.py and admin.py *)

Module Config.

(** [value.replace(";", ",")] *)
Fixpoint replace_semicolons (s : string) : string :=
  match s with
  | EmptyString => EmptyString
  | String c s' => String (if Ascii.eqb c ";" then ","%char else c) (replace_semicolons s')
  end.

(** [s.split(sep)]: every separator splits, so the result is never
    empty. *)
Fixpoint split_all (sep : ascii) (s : string) : list string :=
  match s with
  | EmptyString => [EmptyString]
  | String c s' =>
      if Ascii.eqb c sep then EmptyString :: split_all sep s'
      else match split_all sep s' with
           | h :: t => String c h :: t
           | [] => [String c EmptyString]
           end
  end.

(** One round of the loop of [_parse_admin_ids]: the ids the part adds. *)
Definition admin_id_of_part (p : string) : list Z :=
  let s := strip p in
  if String.eqb s "" then []
  else match py_int s with
       | Some n => [n]
       | None => []   (* ignore invalid entries silently *)
       end.

(** Parse comma/semicolon separated list of admin IDs into integers. *)
Definition _parse_admin_ids (value : option string) : list Z :=
  match value with
  | Some v =>
      if String.eqb v "" then []
      else flat_map admin_id_of_part (split_all "," (replace_semicolons v))
  | None => []
  end.

(** admin.py *)
Definition _is_admin (user_id : Z) (admin_ids : list Z) : bool :=
  existsb (Z.eqb user_id) admin_ids.

Definition ADMIN_HELP : string :=
  ("Админка:" ++ nl ++
   "/users — список пользователей (заглушка)" ++ nl ++
   "/broadcast <text> — рассылка (заглушка)" ++ nl)%string.

(** [admin_help]; [env_admin_ids] is the value of ADMIN_IDS in the
    environment, from which the settings take [admin_ids]. *)
Definition admin_help (env_admin_ids : option string) (message : Message) : M unit :=
  let admin_ids := _parse_admin_ids env_admin_ids in
  match from_user message with
  | None => ret tt
  | Some user =>
      if negb (_is_admin (tg_user_id user) admin_ids) then ret tt
      else send (MessageAnswer ADMIN_HELP)
  end.

End Config.

(** ** handlers/chat.py: the listing of matches *)

Module Listing.

(** The loop of [cmd_my_matches]: one line per match. *)
Fixpoint match_lines (me : Z) (ms : list Match) : M (list string) :=
  match ms with
  | [] => ret []
  | m :: rest =>
      let other := Relay.or_zero (Relay._other_user_id m me) in
      nm <- Relay._profile_name other ;;
      busy <- Relay._has_active_chat_for_match (m_id m) ;;
      lines <- match_lines me rest ;;
      ret (("• " ++ Relay.render nm ++ " — активный чат: "
            ++ (if busy then "да" else "нет"))%string :: lines)
  end.

Definition cmd_my_matches (message : Message) : M unit :=
  dbu <- Relay._db_user_from_message message ;;
  match dbu with
  | None => ret tt
  | Some dbu =>
      ms <- Relay._get_matches_for_user (u_id dbu) true 50 ;;
      match ms with
      | [] => send (MessageAnswer "У вас пока нет матчей.")
      | _ =>
          lines <- match_lines (u_id dbu) (firstn 20 ms) ;;
          send (MessageAnswer ("Ваши матчи:" ++ nl ++ String.concat nl lines))
      end
  end.

End Listing.

(** ** handlers/registration.py: the dialogue, and bot.py *)

Module Dialogue.

Import Registration.

Definition MENU_BTN_FEED : string := "1. Смотреть анкеты".
Definition MENU_BTN_REGISTER : string := "2. Заполнить анкету заново".
Definition MENU_BTN_MEDIA : string := "3. Изменить фото/видео".
Definition MENU_BTN_BIO : string := "4. Изменить текст анкеты".
Definition CREATE_BTN : string := "Создать анкету".

Definition GENDER_MAP : list (string * string) :=
  [("мужской", "male"); ("женский", "female"); ("другое", "other");
   (* english shortcuts *)
   ("male", "male"); ("female", "female"); ("other", "other")].

(** [GENDER_MAP.get(text)] *)
Definition gender_of (text : string) : option string :=
  option_map snd (find (fun kv => String.eqb (fst kv) text) GENDER_MAP).

(** [f"{x}"] of a nullable text and of a nullable integer. *)
Definition py_str (o : option string) : string :=
  match o with Some s => s | None => "None" end.
Definition py_str_int (o : option Z) : string :=
  match o with Some n => str_of_Z n | None => "None" end.

Definition _format_profile (p : Profile) : string :=
  String.concat nl
    ["Имя: " ++ py_str (p_name p);
     "Пол: " ++ py_str (p_gender p);
     "Возраст: " ++ py_str_int (p_age p);
     "Город: " ++ py_str (p_city p);
     "Описание: " ++ py_str (p_bio p);
     "Активна: " ++ (if p_is_active p then "да" else "нет")]%string.

(** The text under which the menu is shown. *)
Definition MENU : string :=
  (nl ++ nl ++ "Выберите:" ++ nl ++
   "1. Смотреть анкеты" ++ nl ++
   "2. Заполнить анкету заново" ++ nl ++
   "3. Изменить фото/видео" ++ nl ++
   "4. Изменить текст анкеты" ++ nl ++
   "(ответьте цифрой)")%string.

Definition CREATE_PROMPT : string := "Нажмите кнопку, чтобы создать анкету.".

Definition GREET_UPDATE : string :=
  ("Обновим вашу анкету. Отправьте имя (как вы хотите, чтобы оно отображалось)."
   ++ nl ++ "Для отмены нажмите '⬅️ Назад'.")%string.
Definition GREET_CREATE : string :=
  ("Создадим вашу анкету. Отправьте имя (как вы хотите, чтобы оно отображалось)."
   ++ nl ++ "Для отмены нажмите '⬅️ Назад'.")%string.
Definition WELCOME : string :=
  ("👋 Добро пожаловать!" ++ nl ++
   "Используя этого бота, вы соглашаетесь с нашей Политикой конфиденциальности." ++ nl ++
   "Ознакомиться можно командой /privacy." ++ nl ++ nl ++
   "Нажмите кнопку, чтобы создать анкету.")%string.

Definition ASK_NAME : string := "Отправьте имя (как вы хотите, чтобы оно отображалось).".
Definition ASK_GENDER : string := "Выберите пол:".
Definition ASK_AGE : string := "Укажите возраст (число от 18 до 100).".
Definition ASK_CITY : string := "Укажите город (текстом).".
Definition ASK_PHOTO : string := "Отправьте фото для анкеты (как фотографию, не файлом).".
Definition ASK_BIO : string := "Расскажите о себе (краткое описание).".

(** An exception raised by the handler's own code. *)
Definition raise {A} : M A := fun w => (Raised, w).

(** [get_user_by_tg_id(tg_id)["id"]] raises on an unknown user; every
    exception ends in a warning and [None]. *)
Definition _get_profile_for_user (tg_id : Z) : M (option Profile) :=
  try_except
    (db_user <- get_user_by_tg_id tg_id ;;
     match db_user with
     | None => raise
     | Some dbu =>
         rows <- execute_read (fun st =>
                   limit 1 (select (fun p => p_user_id p =? u_id dbu) (PROFILES st))) ;;
         ret (first_row rows)
     end)
    (log_warning "_get_profile_for_user error" ;; ret None).

(** [photo] stands for [message.photo]: the bytes a download of its
    largest size yields, [None] when the message has no photo. *)
Definition _download_photo_bytes (photo : option string) : M (option string) :=
  match photo with
  | None => ret None
  | Some content =>
      try_except
        (external ;; ret (Some content))
        (log_warning "Failed to download photo" ;; ret None)
  end.

(** *** The dialogue state *)

(** [state.get_state()] and the keys of [state.get_data()] these
    handlers read and write. *)
Record Session := mkSession {
  fsm : option string;
  entry : option string;
  staged : RegData
}.

(** The state after [state.clear()]. *)
Definition cleared : Session :=
  mkSession None None (mkRegData None None None None None None).

(** A handler with the dialogue state of its user; what it did to the
    state before raising stays. *)
Definition D (A : Type) : Type := Session -> World -> Outcome A * (Session * World).

Definition dret {A} (a : A) : D A := fun s w => (Return a, (s, w)).

Definition dbind {A B} (m : D A) (k : A -> D B) : D B :=
  fun s w =>
    match m s w with
    | (Return a, (s', w')) => k a s' w'
    | (Raised, sw) => (Raised, sw)
    end.

Definition dtry {A} (m : D A) (h : D A) : D A :=
  fun s w =>
    match m s w with
    | (Return a, sw) => (Return a, sw)
    | (Raised, (s', w')) => h s' w'
    end.

Definition lift {A} (m : M A) : D A :=
  fun s w => let (o, w') := m w in (o, (s, w')).

Declare Scope dialogue_scope.
Notation "x <- m ;; k" := (dbind m (fun x => k))
  (at level 61, m at next level, right associativity) : dialogue_scope.
Notation "m ;; k" := (dbind m (fun _ => k))
  (at level 61, right associativity) : dialogue_scope.
Local Open Scope dialogue_scope.

Definition get_state : D (option string) := fun s w => (Return (fsm s), (s, w)).
Definition get_data : D Session := fun s w => (Return s, (s, w)).
Definition modify (f : Session -> Session) : D unit := fun s w => (Return tt, (f s, w)).

Definition set_state (name : string) : D unit :=
  modify (fun s => mkSession (Some name) (entry s) (staged s)) ;;
  lift (emit (FsmSetState name)).

Definition clear : D unit :=
  modify (fun _ => cleared) ;; lift (emit FsmClear).

(** [state.update_data(entry=..)], [state.update_data(name=..)], ... *)
Definition update_entry (e : string) : D unit :=
  modify (fun s => mkSession (fsm s) (Some e) (staged s)).
Definition update_staged (f : RegData -> RegData) : D unit :=
  modify (fun s => mkSession (fsm s) (entry s) (f (staged s))).

Definition with_name (v : string) (d : RegData) : RegData :=
  mkRegData (Some v) (d_gender d) (d_age d) (d_city d) (d_photos d) (d_bio d).
Definition with_gender (v : string) (d : RegData) : RegData :=
  mkRegData (d_name d) (Some v) (d_age d) (d_city d) (d_photos d) (d_bio d).
Definition with_age (v : Z) (d : RegData) : RegData :=
  mkRegData (d_name d) (d_gender d) (Some v) (d_city d) (d_photos d) (d_bio d).
Definition with_city (v : string) (d : RegData) : RegData :=
  mkRegData (d_name d) (d_gender d) (d_age d) (Some v) (d_photos d) (d_bio d).
Definition with_photos (v : list string) (d : RegData) : RegData :=
  mkRegData (d_name d) (d_gender d) (d_age d) (d_city d) (Some v) (d_bio d).

(** What the dialogue events of a handler of the other modules do to the
    state. *)
Definition fsm_effect (s : Session) (e : Event) : Session :=
  match e with
  | FsmSetState name => mkSession (Some name) (entry s) (staged s)
  | FsmClear => cleared
  | _ => s
  end.

(** A handler written over the events, run on the dialogue state. *)
Definition with_fsm {A} (m : Session -> M A) : D A :=
  fun s w =>
    let (o, w') := m s w in
    (o, (fold_left fsm_effect (skipn (List.length (w_trace w)) (w_trace w')) s, w')).

Definition answer (text : string) : D unit := lift (send (MessageAnswer text)).

(** [data.get("entry", "start")] *)
Definition entry_of (data : Session) : string :=
  match entry data with Some e => e | None => "start" end.

(** The menu over the profile, or the prompt to create one. *)
Definition menu_or_prompt (to_menu : bool) (p : option Profile) : D unit :=
  match p with
  | Some p =>
      if to_menu then
        answer (_format_profile p ++ MENU) ;;
        set_state "MyProfileMenu:waiting_choice"
      else answer CREATE_PROMPT
  | None => answer CREATE_PROMPT
  end.

(** *** The handlers *)

Definition cmd_register (message : Message) : D unit :=
  match from_user message with
  | None => dret tt
  | Some user =>
      (* Ensure user exists in Users table *)
      lift (upsert_user_basic (tg_user_id user) (tg_username user) (tg_first_name user)
                              (tg_last_name user)) ;;
      (* Check if profile exists to inform user about update *)
      db_user <- lift (get_user_by_tg_id (tg_user_id user)) ;;
      existing <- match db_user with
                  | Some dbu =>
                      rows <- lift (execute_read (fun st =>
                                limit 1 (select (fun p => p_user_id p =? u_id dbu)
                                                (PROFILES st)))) ;;
                      dret (first_row rows)
                  | None => dret None
                  end ;;
      match existing with
      | Some _ => answer GREET_UPDATE
      | None => answer GREET_CREATE
      end ;;
      data <- get_data ;;
      match entry data with
      | None => update_entry "start"
      | Some _ => dret tt
      end ;;
      set_state "Registration:name"
  end.

Definition create_profile_button (message : Message) : D unit :=
  update_entry "start" ;;
  cmd_register message.

Definition reg_name (message : Message) : D unit :=
  let back_text := strip (or_empty (msg_text message)) in
  if String.eqb back_text BACK_BTN then
    data <- get_data ;;
    let entry := entry_of data in
    clear ;;
    p <- match from_user message with
         | Some user => lift (_get_profile_for_user (tg_user_id user))
         | None => dret None
         end ;;
    menu_or_prompt (String.eqb entry "menu") p
  else
    let name := back_text in
    if String.eqb name "" then answer "Введите корректное имя."
    else
      update_staged (with_name name) ;;
      set_state "Registration:gender" ;;
      answer ASK_GENDER.

Section Text.
(** [str.lower] *)
Variable lower : string -> string.

Definition reg_gender (message : Message) : D unit :=
  let raw := strip (or_empty (msg_text message)) in
  if String.eqb raw BACK_BTN then
    set_state "Registration:name" ;;
    answer ASK_NAME
  else
    let text := lower raw in
    match gender_of text with
    | None => answer "Пожалуйста, выберите пол с клавиатуры: Мужской, Женский или Другое."
    | Some gender =>
        update_staged (with_gender gender) ;;
        set_state "Registration:age" ;;
        answer ASK_AGE
    end.
End Text.

Definition reg_age (message : Message) : D unit :=
  let raw := strip (or_empty (msg_text message)) in
  if String.eqb raw BACK_BTN then
    set_state "Registration:gender" ;;
    answer ASK_GENDER
  else
    let text := raw in
    let bad := answer "Возраст должен быть числом в диапазоне 18–100. Введите возраст ещё раз." in
    match py_int text with
    | Some age =>
        if (age <? 18) || (100 <? age) then bad
        else
          update_staged (with_age age) ;;
          set_state "Registration:city" ;;
          answer ASK_CITY
    | None => bad
    end.

Definition reg_city (message : Message) : D unit :=
  let txt := strip (or_empty (msg_text message)) in
  if String.eqb txt BACK_BTN then
    set_state "Registration:age" ;;
    answer ASK_AGE
  else
    let city := txt in
    if String.eqb city "" then answer "Введите корректное название города."
    else
      update_staged (with_city city) ;;
      set_state "Registration:photo" ;;
      answer ASK_PHOTO.

Section Images.
(** The media store: the URL in its answer to an upload of these bytes. *)
Variable upload_image : string -> string.

Definition reg_photo (message : Message) (photo : option string) : D unit :=
  content <- lift (_download_photo_bytes photo) ;;
  if negb (truthy_str content)
  then answer "Не удалось получить фото. Отправьте фото ещё раз."
  else
    up <- lift (try_except
                  (bind external (fun _ => ret (Some (upload_image (or_empty content)))))
                  (bind (log_warning "Cloudinary upload error") (fun _ =>
                   bind (send (MessageAnswer "Ошибка загрузки фото. Попробуйте другое изображение."))
                        (fun _ => ret None)))) ;;
    match up with
    | None => dret tt
    | Some url =>
        update_staged (with_photos [url]) ;;
        set_state "Registration:bio" ;;
        answer ASK_BIO
    end.
End Images.

Definition reg_photo_invalid (message : Message) : D unit :=
  if String.eqb (strip (or_empty (msg_text message))) BACK_BTN then
    set_state "Registration:city" ;;
    answer ASK_CITY
  else answer "Пожалуйста, отправьте фото (как фотографию, не файлом).".

(** The Bio step of [Registration], on the dialogue state. *)
Definition reg_bio (message : Message) : D unit :=
  with_fsm (fun s => Registration.reg_bio message (staged s)).

Definition back_button (message : Message) : D unit :=
  match from_user message with
  | None => dret tt
  | Some user =>
      current <- get_state ;;
      data <- get_data ;;
      let entry := entry_of data in
      let at_state name := opt_str_eqb current (Some name) in
      (* If at first step, return to where we came from *)
      if at_state "Registration:name" then
        clear ;;
        p <- lift (_get_profile_for_user (tg_user_id user)) ;;
        menu_or_prompt (String.eqb entry "menu") p
      (* Step back inside Registration flow *)
      else if at_state "Registration:gender" then
        set_state "Registration:name" ;; answer ASK_NAME
      else if at_state "Registration:age" then
        set_state "Registration:gender" ;; answer ASK_GENDER
      else if at_state "Registration:city" then
        set_state "Registration:age" ;; answer ASK_AGE
      else if at_state "Registration:photo" then
        set_state "Registration:city" ;; answer ASK_CITY
      else if at_state "Registration:bio" then
        set_state "Registration:photo" ;; answer ASK_PHOTO
      (* Edit flows -> back to menu *)
      else if at_state "ChangePhoto:waiting_photo" || at_state "ChangeBio:waiting_bio" then
        clear ;;
        p <- lift (_get_profile_for_user (tg_user_id user)) ;;
        menu_or_prompt true p
      (* Fallback *)
      else
        clear ;;
        answer CREATE_PROMPT
  end.

Definition is_choice (choice n label : string) : bool :=
  String.eqb choice n || String.prefix (n ++ ".") choice || String.eqb choice label.

Definition myprofile_choice (message : Message) : D unit :=
  let choice := strip (or_empty (msg_text message)) in
  if is_choice choice "1" MENU_BTN_FEED then
    (* Keep menu state so subsequent numeric choices still work after viewing feed *)
    lift (Feed.cmd_feed message)
  else if is_choice choice "2" MENU_BTN_REGISTER then
    update_entry "menu" ;;
    cmd_register message
  else if is_choice choice "3" MENU_BTN_MEDIA then
    set_state "ChangePhoto:waiting_photo" ;;
    answer "Отправьте новое фото/видео для анкеты (как медиа)."
  else if is_choice choice "4" MENU_BTN_BIO then
    set_state "ChangeBio:waiting_bio" ;;
    answer "Отправьте новый текст анкеты."
  else answer "Выберите пункт меню кнопкой или введите цифру: 1, 2, 3 или 4.".

(** [update({"bio": bio})] *)
Definition set_bio (bio : string) (p : Profile) : Profile :=
  mkProfile (p_id p) (p_user_id p) (p_name p) (p_gender p) (p_age p) (p_city p)
            (p_photos p) (Some bio) (p_is_active p) (p_boosted_until p) (p_created_at p).

Definition change_bio_receive (message : Message) : D unit :=
  let raw := strip (or_empty (msg_text message)) in
  if String.eqb raw BACK_BTN then
    clear ;;
    p <- match from_user message with
         | Some user => lift (_get_profile_for_user (tg_user_id user))
         | None => dret None
         end ;;
    menu_or_prompt true p
  else
    let bio := raw in
    if String.eqb bio "" then answer "Текст не должен быть пустым. Отправьте новый текст анкеты."
    else
      match from_user message with
      | None => dret tt
      | Some user =>
          p <- lift (_get_profile_for_user (tg_user_id user)) ;;
          match p with
          | None => answer "Анкета не найдена." ;; clear
          | Some p =>
              dtry
                (lift (execute_write (fun _ st =>
                   (tt, set_PROFILES st
                          (update (fun r => p_id r =? p_id p) (set_bio bio) (PROFILES st))))) ;;
                 answer "Текст анкеты обновлён." ;;
                 (* Get updated profile and show menu *)
                 updated_p <- lift (_get_profile_for_user (tg_user_id user)) ;;
                 match updated_p with
                 | Some up =>
                     answer (_format_profile up ++ MENU) ;;
                     set_state "MyProfileMenu:waiting_choice"
                 | None => clear
                 end)
                (lift (log_warning "Update bio error") ;;
                 answer "Ошибка обновления текста анкеты." ;;
                 clear)
          end
      end.

(** bot.py *)
Definition start_handler (message : Message) : D unit :=
  match from_user message with
  | Some user =>
      lift (upsert_user_basic (tg_user_id user) (tg_username user) (tg_first_name user)
                              (tg_last_name user))
  | None => dret tt
  end ;;
  (* Check if profile exists *)
  p <- match from_user message with
       | Some user => lift (_get_profile_for_user (tg_user_id user))
       | None => dret None
       end ;;
  match p with
  | None =>
      (* greet and start registration flow *)
      answer WELCOME
  | Some p =>
      (* Show profile and numeric menu: the lines of [_format_profile]
         and of the menu, written out once more *)
      answer (_format_profile p ++ MENU) ;;
      set_state "MyProfileMenu:waiting_choice"
  end.

(** Running a handler on a dialogue state and a store where every
    external call succeeds. *)
Definition drun {A} (m : D A) (s : Session) (st : Store) (now : timestamp)
    : Outcome A * (Session * World) :=
  m s (mkWorld st [] now []).

Definition session_of {A} (r : Outcome A * (Session * World)) : Session := fst (snd r).
Definition world_of {A} (r : Outcome A * (Session * World)) : World := snd (snd r).

End Dialogue.

(** ** Further notions *)

(** Every character of the text satisfies [p]. *)
Fixpoint all_chars (p : ascii -> bool) (s : string) : bool :=
  match s with
  | EmptyString => true
  | String c s' => p c && all_chars p s'
  end.

(** A character that is neither whitespace nor the separator of the
    callback data. *)
Definition plain_char (c : ascii) : bool :=
  negb (is_space c) && negb (Ascii.eqb c ":").

(** The handler leaves [f] of the store as it was, whatever the
    outcomes of its external calls. *)
Definition keeps {A T : Type} (f : Store -> T) (m : M A) : Prop :=
  forall w, f (w_store (snd (m w))) = f (w_store w).

(** The store without the named tables. *)
Definition but_CHATS (st : Store) : Store := set_CHATS st [].
Definition but_COMPLAINTS (st : Store) : Store := set_COMPLAINTS st [].
Definition but_USERS_CHATS (st : Store) : Store := set_USERS (set_CHATS st []) [].
Definition but_VIEWED (st : Store) : Store := set_VIEWED_PROFILES st [].
Definition but_LIKES_MATCHES (st : Store) : Store := set_LIKES (set_MATCHES st []) [].
Definition but_LIKES_MATCHES_VIEWED (st : Store) : Store :=
  set_VIEWED_PROFILES (set_LIKES (set_MATCHES st []) []) [].
Definition but_USERS_PROFILES (st : Store) : Store := set_USERS (set_PROFILES st []) [].

(** Whether the card of a profile is sent as a photo. *)
Definition with_photo (p : Profile) : bool :=
  match p_photos p with
  | [] => false
  | _ :: _ => true
  end.

(** A character of a decimal number as [str] prints it. *)
Definition num_char (c : ascii) : bool :=
  match digit_of c with
  | Some _ => true
  | None => Ascii.eqb c "-"
  end.

(** Handlers of one dialogue, one after the other. *)
Definition dseq (hs : list (Dialogue.D unit)) : Dialogue.D unit :=
  fold_right (fun h k => Dialogue.dbind h (fun _ => k)) (Dialogue.dret tt) hs.

(** A text message of a user. *)
Definition text_from (user : TgUser) (text : string) : Message :=
  mkMessage (Some user) (Some text) None.

(** A text that a step of the dialogue takes as an answer: after
    trimming it is neither empty nor the back button. *)
Definition answers (text : string) : bool :=
  negb (String.eqb (strip text) Registration.BACK_BTN) && negb (String.eqb (strip text) "").

(** The staged answers that are present are valid: a name and a city
    are not empty, a gender is one of the three values of the store, an
    age is between 18 and 100. *)
Definition valid_staged (d : Registration.RegData) : bool :=
  match Registration.d_name d with Some n => negb (String.eqb n "") | None => true end
  && match Registration.d_gender d with
     | Some g => existsb (String.eqb g) ["male"; "female"; "other"]
     | None => true
     end
  && match Registration.d_age d with Some a => (18 <=? a) && (a <=? 100) | None => true end
  && match Registration.d_city d with Some c => negb (String.eqb c "") | None => true end.

(** The handler keeps the staged answers valid and leaves [f] of the
    store as it was, whatever the outcomes of its external calls. *)
Definition keeps_valid {A T : Type} (f : Store -> T) (m : Dialogue.D A) : Prop :=
  forall s w,
    valid_staged (Dialogue.staged s) = true ->
    valid_staged (Dialogue.staged (Dialogue.session_of (m s w))) = true /\
    f (w_store (Dialogue.world_of (m s w))) = f (w_store w).

Definition but_USERS (st : Store) : Store := set_USERS st [].
Definition but_PROFILES (st : Store) : Store := set_PROFILES st [].
Definition but_USERS_VIEWED (st : Store) : Store := set_USERS (set_VIEWED_PROFILES st []) [].

(** The checks of the [Profiles] table on [gender] and [age]; a NULL
    passes a check. *)
Definition passes_checks (p : Profile) : bool :=
  match p_gender p with
  | Some g => existsb (String.eqb g) ["male"; "female"; "other"]
  | None => true
  end
  && match p_age p with Some a => (18 <=? a) && (a <=? 100) | None => true end.

(** Every run of the handler takes the store to one related to it by
    [R], whatever the outcomes of its external calls. *)
Definition post {A : Type} (R : Store -> Store -> Prop) (m : M A) : Prop :=
  forall w, R (w_store w) (w_store (snd (m w))).

(** The rows of [Profiles] in [st'] are rows of [st] or satisfy [ok]. *)
Definition new_rows (ok : Profile -> bool) (st st' : Store) : Prop :=
  forall p, In p (PROFILES st') -> In p (PROFILES st) \/ ok p = true.

(** A row the Bio step may write: active, with a text, passing the
    checks. *)
Definition saved_row (p : Profile) : bool :=
  passes_checks p && p_is_active p && truthy_str (p_bio p).

(** * Properties *)

Unset Implicit Arguments.

(** ** Tables *)

Section TableFacts.
Variable R : Type.
Implicit Types (p : R -> bool) (t : list R).

Lemma first_limit_select p t :
  first_row (limit 1 (select p t)) = find p t.
Proof.
  unfold first_row, limit, select.
  induction t as [|x t IH]; cbn; [reflexivity|].
  destruct (p x); cbn; [reflexivity|exact IH].
Qed.

Lemma limit_1_nonempty p t :
  match limit 1 (select p t) with [] => false | _ => true end = existsb p t.
Proof.
  unfold limit, select.
  induction t as [|x t IH]; cbn; [reflexivity|].
  destruct (p x); cbn; [reflexivity|exact IH].
Qed.

Lemma find_existsb p t :
  existsb p t = match find p t with Some _ => true | None => false end.
Proof.
  induction t as [|x t IH]; cbn; [reflexivity|].
  destruct (p x); cbn; [reflexivity|exact IH].
Qed.

Lemma limit_In n t x : In x (limit n t) -> In x t.
Proof.
  unfold limit. revert t. induction n as [|n IH]; intros [|y t]; cbn; try tauto.
  intros [->|H]; [now left|right; now apply IH].
Qed.

Lemma find_app p t1 t2 :
  find p (t1 ++ t2) = match find p t1 with Some x => Some x | None => find p t2 end.
Proof.
  induction t1 as [|x t1 IH]; cbn; [reflexivity|].
  destruct (p x); [reflexivity|exact IH].
Qed.

Lemma count_app p t1 t2 : count p (t1 ++ t2) = (count p t1 + count p t2)%nat.
Proof. unfold count. now rewrite filter_app, length_app. Qed.

Lemma count_zero_iff p t : count p t = 0%nat <-> existsb p t = false.
Proof.
  unfold count. induction t as [|x t IH]; cbn; [tauto|].
  destruct (p x); cbn; [split; discriminate|exact IH].
Qed.

Lemma count_update_stable p q (f : R -> R) t :
  (forall x, In x t -> q x = true -> p (f x) = p x) ->
  count p (update q f t) = count p t.
Proof.
  unfold count, update.
  induction t as [|x t IH]; cbn [map filter]; intros H; [reflexivity|].
  assert (IH' : List.length (filter p (map (fun r => if q r then f r else r) t))
                = List.length (filter p t)).
  { apply IH. intros y Hy. apply H. now right. }
  destruct (q x) eqn:Q.
  - rewrite (H x (or_introl eq_refl) Q). destruct (p x); cbn; now rewrite IH'.
  - destruct (p x); cbn; now rewrite IH'.
Qed.

Lemma find_update_same p (f : R -> R) t :
  (forall x, p x = true -> p (f x) = true) ->
  find p (update p f t) = option_map f (find p t).
Proof.
  intros H. unfold update.
  induction t as [|x t IH]; cbn; [reflexivity|].
  destruct (p x) eqn:P.
  - now rewrite (H x P).
  - now rewrite P.
Qed.

Lemma select_update_same p (f : R -> R) t :
  (forall x, p x = true -> p (f x) = true) ->
  select p (update p f t) = map f (select p t).
Proof.
  intros H. unfold select, update.
  induction t as [|x t IH]; cbn; [reflexivity|].
  destruct (p x) eqn:P.
  - rewrite (H x P). cbn. now rewrite IH.
  - rewrite P. exact IH.
Qed.

Lemma select_nil_iff p t : select p t = [] <-> existsb p t = false.
Proof.
  unfold select. induction t as [|x t IH]; cbn; [tauto|].
  destruct (p x); cbn; [split; discriminate|exact IH].
Qed.

Variable id : R -> Z.

Lemma fresh_id_above t x : In x t -> id x < fresh_id id t.
Proof.
  unfold fresh_id. induction t as [|y t IH]; cbn [map fold_right In]; [tauto|].
  intros [->|H]; [lia|]. specialize (IH H). lia.
Qed.

Lemma map_id_update p (f : R -> R) t :
  (forall x, id (f x) = id x) -> map id (update p f t) = map id t.
Proof.
  intros H. unfold update. rewrite map_map. apply map_ext.
  intros x. now destruct (p x).
Qed.

Lemma same_id_same_row t x y :
  NoDup (map id t) -> In x t -> In y t -> id x = id y -> x = y.
Proof.
  induction t as [|z t IH]; cbn; [tauto|].
  intros N Hx Hy E. inversion N as [|? ? Hz N']; subst.
  destruct Hx as [->|Hx], Hy as [->|Hy]; auto.
  - exfalso. apply Hz. rewrite E. now apply in_map.
  - exfalso. apply Hz. rewrite <- E. now apply in_map.
Qed.

Lemma fresh_id_not_in t : ~ In (fresh_id id t) (map id t).
Proof.
  intros H. apply in_map_iff in H as [x [E H]].
  apply fresh_id_above in H. lia.
Qed.
End TableFacts.

(** ** Runs in which every external call succeeds *)

Lemma run_bind {A B} (m : M A) (k : A -> M B) w a w' :
  m w = (Return a, w') -> bind m k w = k a w'.
Proof. intros H. unfold bind. now rewrite H. Qed.

Lemma run_try {A} (m h : M A) w a w' :
  m w = (Return a, w') -> try_except m h w = (Return a, w').
Proof. intros H. unfold try_except. now rewrite H. Qed.

Lemma run_send e st now tr :
  send e (W st now tr) = (Return tt, W st now (tr ++ [e])).
Proof. reflexivity. Qed.

Lemma run_read {A} (q : Store -> A) st now tr :
  execute_read q (W st now tr) = (Return (q st), W st now tr).
Proof. reflexivity. Qed.

Lemma run_write {A} (q : timestamp -> Store -> A * Store) st now tr :
  execute_write q (W st now tr) = (Return (fst (q now st)), W (snd (q now st)) now tr).
Proof.
  unfold execute_write, bind, external. cbn. now destruct (q now st).
Qed.

Ltac run_with lem := erewrite run_bind; [|apply lem].

Lemma run_get_user_by_tg_id tg st now tr :
  get_user_by_tg_id tg (W st now tr)
  = (Return (find (fun u => u_tg_id u =? tg) (USERS st)), W st now tr).
Proof.
  unfold get_user_by_tg_id. run_with @run_read.
  unfold ret. now rewrite first_limit_select.
Qed.

(** ** Sorting, largest key first *)

Section SortFacts.
Variable R : Type.
Variable key : R -> Z.
Variable lt : R -> R -> bool.
Hypothesis lt_key : forall x y, lt x y = (key x <? key y).

Lemma insert_desc_In x y l : In y (insert_desc lt x l) <-> y = x \/ In y l.
Proof.
  induction l as [|z l IH]; cbn; [intuition congruence|].
  destruct (lt x z); cbn; rewrite ?IH; intuition congruence.
Qed.

Lemma sort_desc_In y l : In y (sort_desc lt l) <-> In y l.
Proof.
  induction l as [|x l IH]; cbn; [tauto|].
  rewrite insert_desc_In, IH. intuition congruence.
Qed.

Lemma insert_desc_head_is_max x l :
  (forall h r, l = h :: r -> forall z, In z l -> key z <= key h) ->
  forall h r, insert_desc lt x l = h :: r ->
              forall z, In z (insert_desc lt x l) -> key z <= key h.
Proof.
  intros H h r E z Hz. destruct l as [|y l]; cbn in E, Hz.
  - injection E as <- <-. destruct Hz as [<-|[]]. lia.
  - rewrite lt_key in E, Hz. destruct (Z.ltb_spec (key x) (key y)) as [L|L].
    + injection E as <- <-. destruct Hz as [<-|Hz]; [lia|].
      apply insert_desc_In in Hz as [->|Hz]; [lia|].
      apply (H y l eq_refl). now right.
    + injection E as <- <-. destruct Hz as [<-|Hz]; [lia|].
      specialize (H y l eq_refl z Hz). lia.
Qed.

Lemma sort_desc_head_is_max l :
  forall h r, sort_desc lt l = h :: r ->
              forall z, In z (sort_desc lt l) -> key z <= key h.
Proof.
  induction l as [|x l IH]; cbn.
  - intros h r E. discriminate.
  - now apply insert_desc_head_is_max.
Qed.

Lemma sort_desc_head l h r :
  sort_desc lt l = h :: r -> In h l /\ forall z, In z l -> key z <= key h.
Proof.
  intros E. split.
  - apply sort_desc_In. rewrite E. now left.
  - intros z Hz. eapply sort_desc_head_is_max; [exact E|]. now apply sort_desc_In.
Qed.

Lemma sort_desc_nil l : sort_desc lt l = [] -> l = [].
Proof.
  destruct l as [|x l]; [reflexivity|]. intros E.
  assert (H : In x (sort_desc lt (x :: l))) by (apply sort_desc_In; now left).
  rewrite E in H. destruct H.
Qed.
End SortFacts.

(** *** The feed selector *)

Lemma run_get_recently_viewed_ids uid st now tr :
  Feed._get_recently_viewed_ids uid 2 (W st now tr)
  = (Return (recently_viewed st now uid), W st now tr).
Proof. reflexivity. Qed.

Lemma run_fetch_next_profile dbu st now tr :
  Feed._fetch_next_profile dbu (W st now tr)
  = (Return (match sort_desc Feed.boost_lt (boosted_pool st now dbu) with
             | b :: _ => Some b
             | [] => first_row (sort_desc Feed.created_lt (recency_pool st now dbu))
             end),
     W st now tr).
Proof.
  unfold Feed._fetch_next_profile.
  run_with @run_read. rewrite first_limit_select.
  run_with run_get_recently_viewed_ids.
  erewrite run_bind; [|reflexivity]. run_with @run_read.
  fold (viewer_filter st now dbu). cbn [w_clock]. fold (boosted_pool st now dbu).
  destruct (sort_desc Feed.boost_lt (boosted_pool st now dbu)) as [|b l]; cbn [limit firstn].
  - run_with @run_read. fold (recency_pool st now dbu). unfold ret.
    destruct (sort_desc Feed.created_lt (recency_pool st now dbu)); reflexivity.
  - reflexivity.
Qed.

(** *** feed.py *)

Lemma run_insert_like a b msg vid st now tr :
  Feed._insert_like a b msg vid (W st now tr)
  = (Return tt, W (set_LIKES st (Feed.likes_upsert a b msg vid (LIKES st))) now tr).
Proof.
  unfold Feed._insert_like. erewrite run_try; [reflexivity|]. now rewrite run_write.
Qed.

Lemma run_resolve_tg_id uid st now tr :
  Feed._resolve_tg_id uid (W st now tr)
  = (Return (option_map u_tg_id (find (fun u => u_id u =? uid) (USERS st))), W st now tr).
Proof.
  unfold Feed._resolve_tg_id. erewrite run_try; [reflexivity|].
  run_with @run_read. unfold ret. now rewrite first_limit_select.
Qed.

Lemma run_notify_like tg p txt st now tr :
  exists evs, Feed._notify_like tg p txt (W st now tr) = (Return tt, W st now (tr ++ evs)).
Proof. eexists. unfold Feed._notify_like. erewrite run_try; [reflexivity|apply run_send]. Qed.

Lemma run_notify_match a b st now tr :
  exists evs, Feed._notify_match a b (W st now tr) = (Return tt, W st now (tr ++ evs)).
Proof.
  exists [SendMessage a Feed.MATCH_TEXT; SendMessage b Feed.MATCH_TEXT].
  unfold Feed._notify_match.
  erewrite run_bind; [|erewrite run_try; [reflexivity|apply run_send]].
  erewrite run_try; [reflexivity|]. rewrite run_send. now rewrite <- app_assoc.
Qed.

Lemma run_check_reciprocal_like a b st now tr :
  Feed._check_reciprocal_like a b (W st now tr)
  = (Return (existsb (Feed.same_pair b a) (LIKES st)), W st now tr).
Proof.
  unfold Feed._check_reciprocal_like. erewrite run_try; [reflexivity|].
  run_with @run_read. unfold ret. now rewrite limit_1_nonempty.
Qed.

Lemma run_get_match_between a b st now tr :
  Feed._get_match_between a b (W st now tr)
  = (Return (find (Feed.between a b) (MATCHES st)), W st now tr).
Proof.
  unfold Feed._get_match_between. erewrite run_try; [reflexivity|].
  run_with @run_read. unfold ret. now rewrite first_limit_select.
Qed.

Lemma MATCHES_match_created a b st :
  MATCHES (match_created a b st) = matches_after a b (MATCHES st).
Proof.
  unfold match_created, matches_after.
  destruct (a =? b); cbn; [reflexivity|].
  destruct (existsb _ _); reflexivity.
Qed.

Lemma LIKES_match_created a b st : LIKES (match_created a b st) = LIKES st.
Proof. unfold match_created. now destruct (_ || _). Qed.

Lemma run_create_match a b st now tr :
  exists r,
    Feed._create_match a b (W st now tr) = (Return r, W (match_created a b st) now tr) /\
    (a <> b -> r = find (Feed.between (Z.min a b) (Z.max a b))
                        (MATCHES (match_created a b st))
               /\ r <> None).
Proof.
  unfold Feed._create_match, match_created, matches_after.
  destruct (Z.eqb_spec a b) as [E|E]; cbn [orb].
  { eexists; split; [reflexivity|tauto]. }
  cbv zeta. run_with run_get_match_between.
  rewrite find_existsb.
  destruct (find _ (MATCHES st)) as [m|] eqn:F.
  - eexists; split; [apply run_get_match_between|]. intros _. rewrite F. split; congruence.
  - eexists; split.
    + erewrite run_try; [reflexivity|]. run_with @run_write. reflexivity.
    + intros _. cbn. rewrite find_app, F. cbn.
      unfold Feed.between at 1. cbn. rewrite !Z.eqb_refl. cbn. split; congruence.
Qed.

Lemma run_notify_and_match dbu to my_tg txt st now tr :
  exists evs,
    Feed.notify_and_match dbu to my_tg txt (W st now tr)
    = (Return tt, W (liked_back (u_id dbu) to st) now (tr ++ evs)).
Proof.
  unfold Feed.notify_and_match, liked_back.
  run_with run_resolve_tg_id. run_with @run_read.
  set (target_tg := option_map u_tg_id _).
  assert (N : exists evs,
             (match target_tg, first_row (limit 1 (select (fun p => p_user_id p =? u_id dbu) (PROFILES st))) with
              | Some tg, Some my_profile =>
                  if truthy_int target_tg then Feed._notify_like tg my_profile txt else ret tt
              | _, _ => ret tt
              end) (W st now tr) = (Return tt, W st now (tr ++ evs))).
  { destruct target_tg as [tg|]; [|exists []; now rewrite app_nil_r].
    destruct (first_row _) as [p|]; [|exists []; now rewrite app_nil_r].
    destruct (truthy_int _); [apply run_notify_like|exists []; now rewrite app_nil_r]. }
  destruct N as [evs1 N]. run_with N.
  run_with run_check_reciprocal_like.
  destruct (existsb _ (LIKES st)); [|exists evs1; reflexivity].
  destruct (run_create_match (u_id dbu) to st now (tr ++ evs1)) as [r [C _]]. run_with C.
  destruct r as [m|]; [|exists evs1; reflexivity].
  destruct target_tg as [other_tg|]; [|exists evs1; reflexivity].
  destruct my_tg as [me_tg|]; [|exists evs1; reflexivity].
  destruct (_ && _); [|exists evs1; reflexivity].
  destruct (run_notify_match me_tg other_tg (match_created (u_id dbu) to st) now (tr ++ evs1))
    as [evs2 H].
  exists (evs1 ++ evs2)%list. rewrite H. now rewrite app_assoc.
Qed.

Lemma run_like dbu to my_tg msg vid txt st now tr :
  exists evs,
    Feed.like dbu to my_tg msg vid txt (W st now tr)
    = (Return tt,
       W (liked_back (u_id dbu) to
            (set_LIKES st (Feed.likes_upsert (u_id dbu) to msg vid (LIKES st)))) now (tr ++ evs)).
Proof.
  unfold Feed.like. run_with run_insert_like. apply run_notify_and_match.
Qed.

Lemma run_show_next dbu st now tr :
  exists st' evs,
    Feed.show_next dbu (W st now tr) = (Return tt, W st' now (tr ++ evs)) /\
    LIKES st' = LIKES st /\ MATCHES st' = MATCHES st.
Proof.
  unfold Feed.show_next. run_with run_fetch_next_profile.
  destruct (match sort_desc Feed.boost_lt _ with [] => _ | b :: _ => _ end) as [p|].
  - unfold Feed._show_profile.
    assert (S : exists evs,
               (match p_photos p with
                | _ :: _ => try_except (send (ProfileCard true (p_id p)))
                                       (send (ProfileCard false (p_id p)))
                | [] => send (ProfileCard false (p_id p))
                end) (W st now tr) = (Return tt, W st now (tr ++ evs))).
    { destruct (p_photos p); eexists; [apply run_send|].
      erewrite run_try; [reflexivity|apply run_send]. }
    destruct S as [evs S]. run_with S.
    eexists. exists evs. split.
    + erewrite run_try; [reflexivity|]. unfold mark_profile_viewed.
      erewrite run_try; [reflexivity|]. apply run_write.
    + cbn. auto.
  - exists st. eexists. split; [apply run_send|auto].
Qed.

(** *** Facts about the tables of likes and matches *)

Lemma between_sym a b m : Feed.between a b m = Feed.between b a m.
Proof. unfold Feed.between. apply orb_comm. Qed.

Lemma between_min_max a b m :
  Feed.between (Z.min a b) (Z.max a b) m = Feed.between a b m.
Proof.
  destruct (Z.le_ge_cases a b) as [H|H].
  - now rewrite Z.min_l, Z.max_r.
  - rewrite Z.min_r, Z.max_l by lia. apply between_sym.
Qed.

Lemma existsb_ext_eq {A} (p q : A -> bool) l :
  (forall x, p x = q x) -> existsb p l = existsb q l.
Proof. intros H. induction l as [|x l IH]; cbn; [reflexivity|]. now rewrite H, IH. Qed.

Lemma count_ext_eq {A} (p q : A -> bool) l :
  (forall x, p x = q x) -> count p l = count q l.
Proof. intros H. unfold count. now rewrite (filter_ext _ _ H). Qed.

Lemma matches_after_sym a b t : matches_after a b t = matches_after b a t.
Proof.
  unfold matches_after. rewrite (Z.eqb_sym a b), (Z.min_comm a b), (Z.max_comm a b).
  reflexivity.
Qed.

Lemma matches_after_one a b t :
  a <> b -> (count (Feed.between a b) t <= 1)%nat -> canonical_pair a b t ->
  count (Feed.between a b) (matches_after a b t) = 1%nat /\
  canonical_pair a b (matches_after a b t) /\
  existsb (Feed.between (Z.min a b) (Z.max a b)) (matches_after a b t) = true.
Proof.
  intros Hab Hc Hcan. unfold matches_after.
  rewrite (proj2 (Z.eqb_neq a b) Hab).
  rewrite (existsb_ext_eq _ _ t (between_min_max a b)).
  destruct (existsb (Feed.between a b) t) eqn:E.
  - split; [|split]; [|exact Hcan|].
    + destruct (count (Feed.between a b) t) as [|[|n]] eqn:C; [|reflexivity|lia].
      apply count_zero_iff in C. congruence.
    + now rewrite (existsb_ext_eq _ _ t (between_min_max a b)).
  - apply count_zero_iff in E.
    assert (B : Feed.between a b (mkMatch (fresh_id m_id t) (Z.min a b) (Z.max a b) true) = true).
    { rewrite <- between_min_max. unfold Feed.between. cbn. now rewrite !Z.eqb_refl. }
    split; [|split].
    + rewrite count_app, E. unfold count. cbn [filter]. now rewrite B.
    + intros m Hin Hb. apply in_app_iff in Hin as [Hin|[<-|[]]]; [now apply Hcan|].
      cbn. repeat split; lia.
    + rewrite existsb_app. cbn [existsb]. rewrite between_min_max, B. cbn.
      apply orb_true_r.
Qed.

Lemma matches_after_idem a b t :
  existsb (Feed.between (Z.min a b) (Z.max a b)) t = true -> matches_after a b t = t.
Proof. intros H. unfold matches_after. rewrite H. now destruct (a =? b). Qed.
Lemma same_pair_upserted a b msg vid l :
  Feed.same_pair a b l = true ->
  Feed.same_pair a b (mkLike (l_id l) a b msg vid) = true.
Proof. intros _. unfold Feed.same_pair. cbn. now rewrite !Z.eqb_refl. Qed.

Lemma likes_upsert_select a b msg vid t :
  (count (Feed.same_pair a b) t <= 1)%nat ->
  exists l,
    select (Feed.same_pair a b) (Feed.likes_upsert a b msg vid t) = [l] /\
    l_from_user_id l = a /\ l_to_user_id l = b /\
    l_message l = msg /\ l_video_url l = vid.
Proof.
  intros Hc. unfold Feed.likes_upsert.
  destruct (existsb (Feed.same_pair a b) t) eqn:E.
  - rewrite select_update_same by apply same_pair_upserted.
    unfold count, select in *.
    destruct (filter (Feed.same_pair a b) t) as [|x [|y r]] eqn:F; cbn in Hc; [| |lia].
    + apply select_nil_iff in F. congruence.
    + eexists. split; [reflexivity|]. cbn. tauto.
  - apply select_nil_iff in E. unfold select in *. rewrite filter_app, E. cbn.
    unfold Feed.same_pair at 1. cbn. rewrite !Z.eqb_refl. cbn.
    eexists. split; [reflexivity|]. cbn. tauto.
Qed.

Lemma likes_upsert_has a b msg vid t :
  existsb (Feed.same_pair a b) (Feed.likes_upsert a b msg vid t) = true.
Proof.
  unfold Feed.likes_upsert.
  destruct (existsb (Feed.same_pair a b) t) eqn:E.
  - apply existsb_exists in E as [x [Hin Hx]]. apply existsb_exists.
    exists (mkLike (l_id x) a b msg vid). split; [|now apply same_pair_upserted].
    unfold update. apply in_map_iff. exists x. now rewrite Hx.
  - rewrite existsb_app. cbn. unfold Feed.same_pair at 2. cbn. rewrite !Z.eqb_refl.
    cbn. apply orb_true_r.
Qed.

Lemma likes_upsert_keeps x y a b msg vid t :
  existsb (Feed.same_pair x y) t = true ->
  existsb (Feed.same_pair x y) (Feed.likes_upsert a b msg vid t) = true.
Proof.
  intros H. unfold Feed.likes_upsert.
  destruct (existsb (Feed.same_pair a b) t).
  - apply existsb_exists in H as [l [Hin Hl]]. apply existsb_exists.
    destruct (Feed.same_pair a b l) eqn:P.
    + exists (mkLike (l_id l) a b msg vid). split.
      * unfold update. apply in_map_iff. exists l. now rewrite P.
      * unfold Feed.same_pair in *. cbn.
        apply andb_true_iff in Hl as [H1 H2]. apply andb_true_iff in P as [P1 P2].
        apply Z.eqb_eq in H1, H2, P1, P2. subst. now rewrite !Z.eqb_refl.
    + exists l. split; [|exact Hl].
      unfold update. apply in_map_iff. exists l. now rewrite P.
  - rewrite existsb_app, H. reflexivity.
Qed.
Lemma get_match_between_store a b w :
  w_store (snd (Feed._get_match_between a b w)) = w_store w.
Proof.
  unfold Feed._get_match_between, try_except, bind, execute_read, external, log_warning, emit, ret.
  destruct w as [st fs now tr]; cbn.
  destruct fs as [|[] fs]; cbn; reflexivity.
Qed.

(** C9: [_create_match] on one user twice returns no match and leaves
    the store as it is; on any two users, and whatever the store calls
    do, it leaves [Matches] as it was or appends one row, and that row
    has the lower id first and two different users. *)
Theorem create_match_refuses_self :
  (forall a w, Feed._create_match a a w = (Return None, w)) /\
  (forall a b w,
      let w' := snd (Feed._create_match a b w) in
      MATCHES (w_store w') = MATCHES (w_store w) \/
      exists row,
        MATCHES (w_store w') = (MATCHES (w_store w) ++ [row])%list /\
        a <> b /\
        m_user1_id row = Z.min a b /\ m_user2_id row = Z.max a b /\
        m_user1_id row < m_user2_id row).
Proof.
  split.
  - intros a w. unfold Feed._create_match. rewrite Z.eqb_refl. reflexivity.
  - intros a b w w'. subst w'.
    destruct (Z.eqb_spec a b) as [Hab|Hab].
    { left. unfold Feed._create_match. rewrite (proj2 (Z.eqb_eq a b) Hab). reflexivity. }
    remember (snd (Feed._create_match a b w)) as w' eqn:E.
    unfold Feed._create_match in E.
    rewrite (proj2 (Z.eqb_neq a b) Hab) in E. cbv zeta in E.
    unfold bind at 1 in E.
    pose proof (get_match_between_store (Z.min a b) (Z.max a b) w) as H1.
    destruct (Feed._get_match_between (Z.min a b) (Z.max a b) w) as [[[m|]|] w1];
      cbn [snd] in H1.
    + left. subst w'. rewrite get_match_between_store. now rewrite H1.
    + unfold try_except, bind, execute_write, external in E.
      destruct w1 as [st1 fs1 now1 tr1]; cbn in E, H1.
      destruct fs1 as [|[] fs1]; cbn in E; subst w' st1.
      * right. eexists. split; [reflexivity|]. cbn. repeat split; auto; lia.
      * right. eexists. split; [reflexivity|]. cbn. repeat split; auto; lia.
      * left. rewrite get_match_between_store. reflexivity.
    + left. subst w'. cbn. congruence.
Qed.

Lemma LIKES_liked_back a b st : LIKES (liked_back a b st) = LIKES st.
Proof. unfold liked_back. destruct (existsb _ _); [apply LIKES_match_created|reflexivity]. Qed.

Lemma MATCHES_liked_back a b st :
  MATCHES (liked_back a b st)
  = if existsb (Feed.same_pair b a) (LIKES st) then matches_after a b (MATCHES st)
    else MATCHES st.
Proof. unfold liked_back. destruct (existsb _ _); [apply MATCHES_match_created|reflexivity]. Qed.

(** C3: liking the same target twice leaves one Like row for the
    ordered pair, and that row carries the payload of the second like. *)
Theorem repeat_like_last_write_wins :
  forall st now dbu to tg1 tg2 m1 v1 t1 m2 v2 t2,
    (count (Feed.same_pair (u_id dbu) to) (LIKES st) <= 1)%nat ->
    let r := run (Feed.like dbu to tg1 m1 v1 t1 ;; Feed.like dbu to tg2 m2 v2 t2) st now in
    fst r = Return tt /\
    exists l,
      select (Feed.same_pair (u_id dbu) to) (LIKES (store_of r)) = [l] /\
      l_message l = m2 /\ l_video_url l = v2.
Proof.
  intros st now dbu to tg1 tg2 m1 v1 t1 m2 v2 t2 Hc r. subst r. unfold run, store_of.
  destruct (run_like dbu to tg1 m1 v1 t1 st now []) as [tr1 H1]. run_with H1.
  match goal with |- context [mkWorld ?s [] now ?t] =>
    destruct (run_like dbu to tg2 m2 v2 t2 s now t) as [tr2 H2] end.
  rewrite H2. cbn [fst snd w_store].
  split; [reflexivity|].
  rewrite LIKES_liked_back. cbn [LIKES set_LIKES].
  rewrite LIKES_liked_back. cbn [LIKES set_LIKES].
  destruct (likes_upsert_select (u_id dbu) to m1 v1 (LIKES st) Hc) as [l1 [S1 _]].
  assert (Hc1 : (count (Feed.same_pair (u_id dbu) to)
                   (Feed.likes_upsert (u_id dbu) to m1 v1 (LIKES st)) <= 1)%nat).
  { unfold count. unfold select in S1. rewrite S1. cbn. lia. }
  destruct (likes_upsert_select (u_id dbu) to m2 v2 _ Hc1) as [l2 [S2 [_ [_ [Hm Hv]]]]].
  exists l2. auto.
Qed.

Lemma repeat_like_last_write_wins_witness :
  let dbu := mkUser 1 101 None None None false in
  let r := run (Feed.like dbu 2 (Some 101) (Some "hi") None (Some "hi") ;;
                Feed.like dbu 2 (Some 101) None (Some "https://v/1") (Some "[video]"))
               empty_store 0 in
  fst r = Return tt /\
  exists l,
    select (Feed.same_pair 1 2) (LIKES (store_of r)) = [l] /\
    l_message l = None /\ l_video_url l = Some "https://v/1".
Proof.
  apply (repeat_like_last_write_wins empty_store 0 (mkUser 1 101 None None None false) 2).
  cbn. lia.
Defined.

(** What a Like leaves in [Matches], whether or not it was reciprocal. *)
Lemma liked_back_pair_ok a b x y st :
  a <> b ->
  (count (Feed.between a b) (MATCHES st) <= 1)%nat -> canonical_pair a b (MATCHES st) ->
  (x = a /\ y = b) \/ (x = b /\ y = a) ->
  (count (Feed.between a b) (MATCHES (liked_back x y st)) <= 1)%nat /\
  canonical_pair a b (MATCHES (liked_back x y st)).
Proof.
  intros Hab Hc Hcan Hxy. rewrite MATCHES_liked_back.
  destruct (existsb _ _); [|auto].
  assert (E : matches_after x y (MATCHES st) = matches_after a b (MATCHES st)).
  { destruct Hxy as [[-> ->]|[-> ->]]; [reflexivity|apply matches_after_sym]. }
  rewrite E. destruct (matches_after_one a b _ Hab Hc Hcan) as [H1 [H2 _]]. split; [lia|exact H2].
Qed.

(** C2: once two distinct users have liked each other, the pair has
    exactly one Match row, stored lower id first; detecting the
    reciprocity again, or liking again, inserts nothing. *)
Theorem reciprocal_likes_make_one_match :
  forall st now ua ub tga tgb ma va ta mb vb tb,
    let a := u_id ua in
    let b := u_id ub in
    a <> b ->
    (count (Feed.between a b) (MATCHES st) <= 1)%nat ->
    canonical_pair a b (MATCHES st) ->
    let st1 := store_of (run (Feed.like ua b tga ma va ta) st now) in
    let st2 := store_of (run (Feed.like ub a tgb mb vb tb) st1 now) in
    count (Feed.between a b) (MATCHES st2) = 1%nat /\
    canonical_pair a b (MATCHES st2) /\
    returned (run (Feed._check_reciprocal_like a b) st2 now) = Some true /\
    returned (run (Feed._check_reciprocal_like b a) st2 now) = Some true /\
    store_of (run (Feed._create_match a b) st2 now) = st2 /\
    store_of (run (Feed._create_match b a) st2 now) = st2 /\
    MATCHES (store_of (run (Feed.like ua b tga ma va ta) st2 now)) = MATCHES st2 /\
    MATCHES (store_of (run (Feed.like ub a tgb mb vb tb) st2 now)) = MATCHES st2.
Proof.
  intros st now ua ub tga tgb ma va ta mb vb tb a b Hab Hc Hcan st1 st2.
  assert (E1 : st1 = liked_back a b (set_LIKES st (Feed.likes_upsert a b ma va (LIKES st)))).
  { subst st1. unfold run, store_of.
    destruct (run_like ua b tga ma va ta st now []) as [tr H]. now rewrite H. }
  assert (E2 : st2 = liked_back b a (set_LIKES st1 (Feed.likes_upsert b a mb vb (LIKES st1)))).
  { subst st2. unfold run, store_of.
    destruct (run_like ub a tgb mb vb tb st1 now []) as [tr H]. now rewrite H. }
  clearbody st1 st2.
  (* the table after the first like *)
  assert (P1 : (count (Feed.between a b) (MATCHES st1) <= 1)%nat /\
               canonical_pair a b (MATCHES st1)).
  { rewrite E1. apply liked_back_pair_ok; auto. }
  assert (L1 : existsb (Feed.same_pair a b) (LIKES st1) = true).
  { rewrite E1, LIKES_liked_back. cbn [LIKES set_LIKES]. apply likes_upsert_has. }
  (* the table after the second like *)
  assert (L2a : existsb (Feed.same_pair a b) (LIKES st2) = true).
  { rewrite E2, LIKES_liked_back. cbn [LIKES set_LIKES]. now apply likes_upsert_keeps. }
  assert (L2b : existsb (Feed.same_pair b a) (LIKES st2) = true).
  { rewrite E2, LIKES_liked_back. cbn [LIKES set_LIKES]. apply likes_upsert_has. }
  assert (M2 : MATCHES st2 = matches_after a b (MATCHES st1)).
  { rewrite E2, MATCHES_liked_back. cbn [LIKES MATCHES set_LIKES].
    rewrite likes_upsert_keeps by exact L1. apply matches_after_sym. }
  destruct P1 as [Hc1 Hcan1].
  destruct (matches_after_one a b _ Hab Hc1 Hcan1) as [C2 [Can2 X2]]. rewrite <- M2 in C2, Can2, X2.
  assert (X2' : existsb (Feed.between (Z.min b a) (Z.max b a)) (MATCHES st2) = true).
  { now rewrite Z.min_comm, Z.max_comm. }
  assert (K : forall x y, existsb (Feed.between (Z.min x y) (Z.max x y)) (MATCHES st2) = true ->
                          store_of (run (Feed._create_match x y) st2 now) = st2).
  { intros x y Hx. unfold run, store_of.
    destruct (run_create_match x y st2 now []) as [r [H _]]. rewrite H. cbn.
    unfold match_created. rewrite Hx. now rewrite orb_true_r. }
  assert (Kl : forall u x y tg m v t,
             u_id u = x ->
             existsb (Feed.between (Z.min x y) (Z.max x y)) (MATCHES st2) = true ->
             MATCHES (store_of (run (Feed.like u y tg m v t) st2 now)) = MATCHES st2).
  { intros u x y tg m v t Hu Hx. unfold run, store_of.
    destruct (run_like u y tg m v t st2 now []) as [tr H]. rewrite H. cbn [snd w_store].
    rewrite MATCHES_liked_back. cbn [LIKES MATCHES set_LIKES]. rewrite Hu.
    destruct (existsb _ (Feed.likes_upsert _ _ _ _ _)); [|reflexivity].
    now apply matches_after_idem. }
  split; [exact C2|]. split; [exact Can2|].
  split; [unfold run, returned; rewrite run_check_reciprocal_like; cbn [fst]; now rewrite L2b|].
  split; [unfold run, returned; rewrite run_check_reciprocal_like; cbn [fst]; now rewrite L2a|].
  split; [now apply K|]. split; [now apply K|].
  split; [now apply (Kl ua a b)|now apply (Kl ub b a)].
Qed.

Lemma reciprocal_likes_make_one_match_witness :
  let ua := mkUser 1 101 None None None false in
  let ub := mkUser 2 102 None None None false in
  let st := mkStore [ua; ub] [] [] [] [] [] [] in
  let st1 := store_of (run (Feed.like ua 2 (Some 101) None None None) st 0) in
  let st2 := store_of (run (Feed.like ub 1 (Some 102) None None None) st1 0) in
  MATCHES st2 = [mkMatch 1 1 2 true] /\
  count (Feed.between 1 2) (MATCHES st2) = 1%nat.
Proof.
  split; [reflexivity|].
  refine (proj1 (reciprocal_likes_make_one_match
            (mkStore [mkUser 1 101 None None None false; mkUser 2 102 None None None false]
                     [] [] [] [] [] [])
            0 (mkUser 1 101 None None None false) (mkUser 2 102 None None None false)
            (Some 101) (Some 102) None None None None None None _ _ _)).
  - cbn. lia.
  - cbn. lia.
  - intros m [].
Defined.

Lemma common_filters_exclude me g c ids p :
  Feed._apply_common_filters me g c ids p = true -> ~ In (p_id p) ids.
Proof.
  unfold Feed._apply_common_filters. intros H Hin.
  apply andb_true_iff in H as [_ H]. destruct ids as [|i ids]; [destruct Hin|].
  apply negb_true_iff in H.
  assert (E : existsb (Z.eqb (p_id p)) (i :: ids) = true).
  { apply existsb_exists. exists (p_id p). split; [exact Hin|apply Z.eqb_refl]. }
  congruence.
Qed.

(** C4: the selector returns no profile the viewer was shown in the
    last two days, and when some candidate with a live boost passes the
    common filters it returns such a candidate, one whose boosted_until
    is the largest, before any candidate without a live boost. *)
Theorem feed_selector_skips_viewed_prefers_boosted :
  forall st now dbu,
  exists r,
    run (Feed._fetch_next_profile dbu) st now = (Return r, mkWorld st [] now []) /\
    (forall p, r = Some p ->
       In p (PROFILES st) /\ viewer_filter st now dbu p = true /\
       forall v, In v (VIEWED_PROFILES st) ->
                 v_user_id v = u_id dbu -> now - days 2 <= v_viewed_at v ->
                 v_profile_id v <> p_id p) /\
    (forall q, In q (PROFILES st) ->
       viewer_filter st now dbu q = true -> Feed.boost_live now q = true ->
       exists p t,
         r = Some p /\ p_boosted_until p = Some t /\ now <= t /\
         forall q', In q' (PROFILES st) -> viewer_filter st now dbu q' = true ->
                    match p_boosted_until q' with
                    | Some t' => now <= t' -> t' <= t
                    | None => q' <> p
                    end).
Proof.
  intros st now dbu. eexists. split; [apply run_fetch_next_profile|].
  assert (V : forall p, In p (PROFILES st) -> viewer_filter st now dbu p = true ->
              forall v, In v (VIEWED_PROFILES st) ->
                        v_user_id v = u_id dbu -> now - days 2 <= v_viewed_at v ->
                        v_profile_id v <> p_id p).
  { intros p _ Hf v Hv Hu Ht E. apply common_filters_exclude in Hf. apply Hf.
    unfold recently_viewed. rewrite <- E. apply in_map. unfold select. apply filter_In.
    split; [exact Hv|]. apply andb_true_iff. split; [now apply Z.eqb_eq|now apply Z.leb_le]. }
  destruct (sort_desc Feed.boost_lt (boosted_pool st now dbu)) as [|b l] eqn:S.
  - split.
    + intros p E.
      destruct (sort_desc Feed.created_lt (recency_pool st now dbu)) as [|h l] eqn:S2;
        [discriminate|]. injection E as ->.
      destruct (sort_desc_head _ p_created_at Feed.created_lt (fun _ _ => eq_refl) _ _ _ S2)
        as [Hin _].
      unfold recency_pool, select in Hin. apply filter_In in Hin as [Hin Hf]. auto.
    + intros q Hq Hf Hb. apply sort_desc_nil in S.
      assert (In q (boosted_pool st now dbu)).
      { unfold boosted_pool, select. apply filter_In. now rewrite Hf, Hb. }
      rewrite S in H. destruct H.
  - destruct (sort_desc_head _ Feed.boost_key Feed.boost_lt (fun _ _ => eq_refl) _ _ _ S)
      as [Hin Hmax].
    unfold boosted_pool, select in Hin. apply filter_In in Hin as [Hin Hf].
    apply andb_true_iff in Hf as [Hf Hb].
    split.
    + intros p E. injection E as <-. auto.
    + intros q Hq Hfq Hbq. unfold Feed.boost_live in Hb.
      destruct (p_boosted_until b) as [t|] eqn:Bt; [|discriminate].
      exists b, t. split; [reflexivity|]. split; [exact Bt|].
      split; [now apply Z.leb_le|].
      intros q' Hq' Hf'. destruct (p_boosted_until q') as [t'|] eqn:Bt'.
      * intros Hl. assert (Hin' : In q' (boosted_pool st now dbu)).
        { unfold boosted_pool, select. apply filter_In. split; [exact Hq'|].
          rewrite Hf'. unfold Feed.boost_live. rewrite Bt'. now apply Z.leb_le. }
        specialize (Hmax q' Hin'). unfold Feed.boost_key in Hmax. now rewrite Bt, Bt' in Hmax.
      * intros ->. congruence.
Qed.

(** *** Registration *)

Lemma find_users_upsert tg a b c t :
  exists u, find (fun u => u_tg_id u =? tg) (users_upsert tg a b c t) = Some u /\
            u_id u = uid_of tg t.
Proof.
  unfold users_upsert, uid_of. rewrite find_existsb.
  destruct (find (fun u => u_tg_id u =? tg) t) as [u|] eqn:F.
  - rewrite find_update_same, F; [|intros x _; cbn; apply Z.eqb_refl].
    eexists. split; [reflexivity|reflexivity].
  - rewrite find_app, F. cbn. rewrite Z.eqb_refl. eexists. split; reflexivity.
Qed.

Lemma uid_of_users_upsert tg a b c t :
  uid_of tg (users_upsert tg a b c t) = uid_of tg t.
Proof.
  destruct (find_users_upsert tg a b c t) as [u [F E]].
  unfold uid_of at 1. now rewrite F.
Qed.

Lemma run_create_or_update_profile user text video data st now tr :
  exists st',
    Registration._create_or_update_profile (mkMessage (Some user) text video) data (W st now tr)
    = (Return tt, W st' now tr) /\
    PROFILES st' = profiles_after (uid_of (tg_user_id user) (USERS st)) data now (PROFILES st) /\
    USERS st' = users_upsert (tg_user_id user) (tg_username user) (tg_first_name user)
                             (tg_last_name user) (USERS st).
Proof.
  unfold Registration._create_or_update_profile. cbn [from_user].
  unfold upsert_user_basic. run_with @run_write. cbn [fst snd].
  run_with run_get_user_by_tg_id. cbn [USERS set_USERS].
  destruct (find_users_upsert (tg_user_id user) (tg_username user) (tg_first_name user)
              (tg_last_name user) (USERS st)) as [u [F E]].
  rewrite F. run_with @run_read. rewrite first_limit_select. cbn [PROFILES set_USERS].
  unfold profiles_after. rewrite E. fold (owned_by (uid_of (tg_user_id user) (USERS st))).
  destruct (find _ (PROFILES st)) as [e|].
  - eexists. split; [erewrite run_try; [reflexivity|apply run_write]|]. cbn. auto.
  - eexists. split.
    + erewrite run_try; [reflexivity|]. erewrite run_bind; [|reflexivity]. apply run_write.
    + cbn. auto.
Qed.

Lemma profiles_after_NoDup uid data now t :
  NoDup (map p_id t) -> NoDup (map p_id (profiles_after uid data now t)).
Proof.
  intros N. unfold profiles_after. destruct (find _ t) as [e|].
  - rewrite map_id_update; [exact N|reflexivity].
  - rewrite map_app. cbn. apply NoDup_app; [exact N|constructor; [intros []|constructor]|].
    intros x Hx [<-|[]]. now apply (fresh_id_not_in _ p_id t).
Qed.

Lemma profiles_after_count uid data now t :
  NoDup (map p_id t) -> (count (owned_by uid) t <= 1)%nat ->
  count (owned_by uid) (profiles_after uid data now t) = 1%nat.
Proof.
  intros N Hc. unfold profiles_after. destruct (find _ t) as [e|] eqn:F.
  - apply find_some in F as [He Pe].
    rewrite count_update_stable.
    + destruct (count (owned_by uid) t) as [|[|n]] eqn:C; [|reflexivity|lia].
      apply count_zero_iff in C.
      assert (X : existsb (owned_by uid) t = true).
      { apply existsb_exists. now exists e. }
      congruence.
    + intros x Hx Q. apply Z.eqb_eq in Q.
      rewrite (same_id_same_row _ p_id t x e N Hx He Q), Pe.
      unfold owned_by. cbn. apply Z.eqb_refl.
  - assert (C : count (owned_by uid) t = 0%nat).
    { apply count_zero_iff. rewrite find_existsb. now rewrite F. }
    rewrite count_app, C. unfold count. cbn. unfold owned_by at 1. cbn.
    now rewrite Z.eqb_refl.
Qed.

Lemma profiles_after_keeps uid data now t e :
  NoDup (map p_id t) -> find (owned_by uid) t = Some e ->
  forall p, In p (profiles_after uid data now t) -> p_id p = p_id e ->
            p = Registration.apply_payload uid data e.
Proof.
  intros N F p Hp E. unfold profiles_after in Hp. rewrite F in Hp.
  apply find_some in F as [He _].
  unfold update in Hp. apply in_map_iff in Hp as [x [Hx Hin]].
  destruct (Z.eqb_spec (p_id x) (p_id e)) as [Q|Q].
  - now rewrite (same_id_same_row _ p_id t x e N Hin He Q) in Hx.
  - subst x. congruence.
Qed.

Lemma apply_payload_in uid data now t e :
  find (owned_by uid) t = Some e ->
  In (Registration.apply_payload uid data e) (profiles_after uid data now t).
Proof.
  intros F. unfold profiles_after. rewrite F. apply find_some in F as [He _].
  unfold update. apply in_map_iff. exists e. now rewrite Z.eqb_refl.
Qed.

Lemma run_reg_bio user text data st now :
  completes_bio text = true ->
  exists st',
    run (Registration.reg_bio (mkMessage (Some user) (Some text) None) data) st now
    = (Return tt, W st' now [FsmClear; MessageAnswer Registration.SAVED]) /\
    PROFILES st' = profiles_after (uid_of (tg_user_id user) (USERS st))
                                  (Registration.with_bio data (strip text)) now (PROFILES st) /\
    USERS st' = users_upsert (tg_user_id user) (tg_username user) (tg_first_name user)
                             (tg_last_name user) (USERS st).
Proof.
  intros H. apply andb_true_iff in H as [H1 H2]. apply negb_true_iff in H1, H2.
  unfold run, Registration.reg_bio. cbn [msg_text or_empty]. rewrite H1, H2.
  destruct (run_create_or_update_profile user (Some text) None
              (Registration.with_bio data (strip text)) st now []) as [st' [R [P U]]].
  exists st'. split; [|auto]. run_with R. reflexivity.
Qed.

(** C5: completing the Bio step upserts the sender's profile.  An
    existing row is updated in place and keeps its boosted_until and
    created_at, a missing one is inserted boosted for 24 hours, and
    after any positive number of completed runs the sender has exactly
    one profile row. *)
Theorem registration_persists_by_upsert :
  forall st user,
    let uid := uid_of (tg_user_id user) (USERS st) in
    NoDup (map p_id (PROFILES st)) ->
    (count (owned_by uid) (PROFILES st) <= 1)%nat ->
    (forall text data now,
        completes_bio text = true ->
        let r := run (Registration.reg_bio (mkMessage (Some user) (Some text) None) data)
                     st now in
        fst r = Return tt /\
        match find (owned_by uid) (PROFILES st) with
        | Some existing =>
            List.length (PROFILES (store_of r)) = List.length (PROFILES st) /\
            exists p,
              In p (PROFILES (store_of r)) /\
              p_id p = p_id existing /\ p_user_id p = uid /\
              p_bio p = Some (strip text) /\
              p_boosted_until p = p_boosted_until existing /\
              p_created_at p = p_created_at existing /\
              forall p', In p' (PROFILES (store_of r)) -> p_id p' = p_id existing -> p' = p
        | None =>
            exists p,
              PROFILES (store_of r) = (PROFILES st ++ [p])%list /\
              p_user_id p = uid /\ p_bio p = Some (strip text) /\
              p_boosted_until p = Some (now + 24 * 3600) /\ p_created_at p = now
        end) /\
    (forall runs,
        runs <> [] ->
        Forall (fun r => completes_bio (fst (fst r)) = true) runs ->
        count (owned_by uid) (PROFILES (complete_runs user runs st)) = 1%nat) /\
    (forall now,
        exists dbu,
          returned (run (upsert_user_basic (tg_user_id user) (tg_username user)
                                           (tg_first_name user) (tg_last_name user) ;;
                         get_user_by_tg_id (tg_user_id user)) st now)
          = Some (Some dbu) /\
          u_id dbu = uid).
Proof.
  intros st user uid N C.
  assert (T : forall now,
             exists dbu,
               returned (run (upsert_user_basic (tg_user_id user) (tg_username user)
                                                (tg_first_name user) (tg_last_name user) ;;
                              get_user_by_tg_id (tg_user_id user)) st now)
               = Some (Some dbu) /\
               u_id dbu = uid).
  { intros now. unfold run, returned, upsert_user_basic.
    run_with @run_write. cbn [fst snd]. rewrite run_get_user_by_tg_id.
    cbn [fst USERS set_USERS].
    destruct (find_users_upsert (tg_user_id user) (tg_username user) (tg_first_name user)
                (tg_last_name user) (USERS st)) as [u [F E]].
    exists u. now rewrite F. }
  split; [|split; [|exact T]]; clear T.
  - intros text data now Hb r. subst r.
    destruct (run_reg_bio user text data st now Hb) as [st' [R [P U]]].
    rewrite R. unfold store_of. cbn [fst snd w_store]. split; [reflexivity|].
    fold uid in P. rewrite P.
    destruct (find (owned_by uid) (PROFILES st)) as [e|] eqn:F.
    + split.
      * unfold profiles_after. rewrite F. unfold update. apply length_map.
      * exists (Registration.apply_payload uid (Registration.with_bio data (strip text)) e).
        split; [now apply apply_payload_in|]. cbn.
        repeat (split; [reflexivity|]).
        intros p' Hp' E. now apply (profiles_after_keeps uid _ now (PROFILES st) e N F).
    + unfold profiles_after. rewrite F. eexists. split; [reflexivity|]. cbn. auto.
  - intros runs Hne Hall.
    assert (G : forall runs st0,
               Forall (fun r => completes_bio (fst (fst r)) = true) runs ->
               uid_of (tg_user_id user) (USERS st0) = uid ->
               NoDup (map p_id (PROFILES st0)) ->
               count (owned_by uid) (PROFILES st0) = 1%nat ->
               count (owned_by uid) (PROFILES (complete_runs user runs st0)) = 1%nat).
    { intros rs. induction rs as [|[[text data] now] rest IH];
        intros st0 Hall0 Hu N0 C0; [exact C0|].
      inversion Hall0 as [|? ? Hb Hrest]; subst. cbn [fst] in Hb. cbn [complete_runs].
      destruct (run_reg_bio user text data st0 now Hb) as [st' [R [P U]]].
      rewrite R. unfold store_of. cbn [snd w_store]. rewrite Hu in P.
      apply IH; [exact Hrest| | |].
      - rewrite U. rewrite uid_of_users_upsert. exact Hu.
      - rewrite P. now apply profiles_after_NoDup.
      - rewrite P. apply profiles_after_count; [exact N0|lia]. }
    destruct runs as [|[[text data] now] rest]; [congruence|].
    inversion Hall as [|? ? Hb Hrest]; subst. cbn [fst] in Hb. cbn [complete_runs].
    destruct (run_reg_bio user text data st now Hb) as [st' [R [P U]]].
    rewrite R. unfold store_of. cbn [snd w_store]. fold uid in P.
    apply G; [exact Hrest| | |].
    + rewrite U. apply uid_of_users_upsert.
    + rewrite P. now apply profiles_after_NoDup.
    + rewrite P. now apply profiles_after_count.
Qed.

(** *** chat.py *)

Lemma run_db_user_from_message message st now tr :
  Relay._db_user_from_message message (W st now tr)
  = (Return (match from_user message with
             | Some u => find (fun r => u_tg_id r =? tg_user_id u) (USERS st)
             | None => None
             end), W st now tr).
Proof.
  unfold Relay._db_user_from_message. destruct (from_user message) as [u|]; [|reflexivity].
  apply run_get_user_by_tg_id.
Qed.

Lemma run_get_active_chat_for_user uid st now tr :
  Relay._get_active_chat_for_user uid (W st now tr)
  = (Return (active_chat st uid), W st now tr).
Proof.
  unfold Relay._get_active_chat_for_user, active_chat, Relay._get_matches_for_user.
  run_with @run_read. cbv zeta.
  set (matches := limit 100 _).
  assert (C : Relay._get_active_chats_for_matches (map m_id matches) (W st now tr)
              = (Return (match map m_id matches with
                         | [] => []
                         | mids => select (fun c => c_is_active c
                                              && Relay.in_ids mids (c_match_id c)) (CHATS st)
                         end), W st now tr)).
  { unfold Relay._get_active_chats_for_matches.
    destruct (map m_id matches); [reflexivity|now rewrite run_read]. }
  run_with C.
  destruct (sort_desc Relay.updated_lt _) as [|chat l]; [reflexivity|].
  destruct (find _ matches); reflexivity.
Qed.

Lemma active_chat_sound st uid chat m :
  active_chat st uid = Some (chat, m) ->
  In chat (CHATS st) /\ c_is_active chat = true /\ c_match_id chat = m_id m /\
  In m (MATCHES st) /\ m_is_active m = true /\
  exists other,
    Relay._other_user_id m uid = Some other /\
    ((m_user1_id m = uid /\ other = m_user2_id m) \/
     (m_user2_id m = uid /\ other = m_user1_id m)).
Proof.
  unfold active_chat. cbv zeta. set (matches := limit 100 _).
  destruct (sort_desc Relay.updated_lt _) as [|c l] eqn:S; [discriminate|].
  destruct (find _ matches) as [m'|] eqn:F; [|discriminate].
  intros E. injection E as -> ->.
  assert (Hc : In chat (sort_desc Relay.updated_lt
                 match map m_id matches with
                 | [] => []
                 | mids => select (fun c => c_is_active c
                                      && Relay.in_ids mids (c_match_id c)) (CHATS st)
                 end)) by (rewrite S; now left).
  apply sort_desc_In in Hc.
  destruct (map m_id matches) as [|i mids]; [destruct Hc|].
  unfold select in Hc. apply filter_In in Hc as [Hc Ha].
  apply andb_true_iff in Ha as [Ha _].
  apply find_some in F as [Hm Hid]. apply Z.eqb_eq in Hid.
  subst matches. apply limit_In in Hm. unfold select in Hm.
  apply filter_In in Hm as [Hm Hp]. apply andb_true_iff in Hp as [Hact Hinv].
  repeat (split; [solve [auto]|]).
  unfold Relay.involves in Hinv. unfold Relay._other_user_id.
  destruct (Z.eqb_spec (m_user1_id m) uid) as [E1|E1].
  - eexists. split; [reflexivity|]. left. auto.
  - cbn in Hinv. rewrite Hinv. apply Z.eqb_eq in Hinv.
    eexists. split; [reflexivity|]. right. auto.
Qed.

(** C6: a report whose reason is empty after trimming is rejected and
    leaves the store as it was; a report with a reason appends exactly
    one Complaint row, against the counterpart of the reporter's
    current active chat when there is one and against nobody
    otherwise. *)
Theorem report_requires_reason_and_appends_one :
  forall st now message user dbu,
    from_user message = Some user ->
    find (fun r => u_tg_id r =? tg_user_id user) (USERS st) = Some dbu ->
    let r := run (Relay.cmd_report message) st now in
    (report_reason message = "" ->
       r = (Return tt, mkWorld st [] now
                         [MessageAnswer "Использование: /report <описание жалобы>"])) /\
    (report_reason message <> "" ->
       exists row,
         r = (Return tt,
              mkWorld (set_COMPLAINTS st (COMPLAINTS st ++ [row])) [] now
                      [MessageAnswer "Жалоба отправлена."]) /\
         k_from_user_id row = Some (u_id dbu) /\
         k_reason row = Some (report_reason message) /\
         k_resolved row = false /\
         match active_chat st (u_id dbu) with
         | Some (chat, m) =>
             In chat (CHATS st) /\ c_is_active chat = true /\ c_match_id chat = m_id m /\
             In m (MATCHES st) /\
             exists other,
               k_against_user_id row = Some other /\
               ((m_user1_id m = u_id dbu /\ other = m_user2_id m) \/
                (m_user2_id m = u_id dbu /\ other = m_user1_id m))
         | None => k_against_user_id row = None
         end) /\
    returned (run (Relay._get_active_chat_for_user (u_id dbu)) st now)
    = Some (active_chat st (u_id dbu)).
Proof.
  intros st now message user dbu Hu Hd r. subst r.
  assert (T : returned (run (Relay._get_active_chat_for_user (u_id dbu)) st now)
              = Some (active_chat st (u_id dbu))).
  { unfold run, returned. now rewrite run_get_active_chat_for_user. }
  cut ((report_reason message = "" ->
        run (Relay.cmd_report message) st now
        = (Return tt, mkWorld st [] now
                        [MessageAnswer "Использование: /report <описание жалобы>"])) /\
       (report_reason message <> "" ->
        exists row,
          run (Relay.cmd_report message) st now
          = (Return tt,
             mkWorld (set_COMPLAINTS st (COMPLAINTS st ++ [row])) [] now
                     [MessageAnswer "Жалоба отправлена."]) /\
          k_from_user_id row = Some (u_id dbu) /\
          k_reason row = Some (report_reason message) /\
          k_resolved row = false /\
          match active_chat st (u_id dbu) with
          | Some (chat, m) =>
              In chat (CHATS st) /\ c_is_active chat = true /\ c_match_id chat = m_id m /\
              In m (MATCHES st) /\
              exists other,
                k_against_user_id row = Some other /\
                ((m_user1_id m = u_id dbu /\ other = m_user2_id m) \/
                 (m_user2_id m = u_id dbu /\ other = m_user1_id m))
          | None => k_against_user_id row = None
          end)); [tauto|].
  clear T.
  unfold run, Relay.cmd_report.
  run_with run_db_user_from_message. rewrite Hu, Hd. cbv zeta.
  fold (report_reason message).
  destruct (String.eqb_spec (report_reason message) "") as [E|E].
  - split; [intros _; reflexivity|congruence].
  - split; [congruence|]. intros _.
    run_with run_get_active_chat_for_user.
    eexists. split.
    + erewrite run_try; [reflexivity|]. run_with @run_write. cbn [fst snd]. apply run_send.
    + cbn [k_from_user_id k_reason k_resolved k_against_user_id].
      repeat (split; [reflexivity|]).
      destruct (active_chat st (u_id dbu)) as [[chat m]|] eqn:A; [|reflexivity].
      destruct (active_chat_sound st (u_id dbu) chat m A) as [H1 [H2 [H3 [H4 [_ [other [H6 H7]]]]]]].
      repeat (split; [assumption|]). exists other. auto.
Qed.

Lemma run_get_match_by_id mid st now tr :
  Relay._get_match_by_id mid (W st now tr)
  = (Return (find (fun m => m_id m =? mid) (MATCHES st)), W st now tr).
Proof.
  unfold Relay._get_match_by_id. run_with @run_read. unfold ret.
  now rewrite first_limit_select.
Qed.

Lemma run_tg_id uid st now tr :
  Relay._tg_id uid (W st now tr)
  = (Return (option_map u_tg_id (find (fun u => u_id u =? uid) (USERS st))), W st now tr).
Proof.
  unfold Relay._tg_id. run_with @run_read. unfold ret. now rewrite first_limit_select.
Qed.

(** C10: an approve callback that names a stored match sends each of
    the two users a link to the other's Telegram identity, whatever the
    Chats table holds and whoever pressed the button; a callback that
    names no stored match is answered "Матч не найден" and sends
    nothing. *)
Theorem approve_sends_both_contacts :
  forall st now call mid,
    (forall m ua ub,
        Relay._parse_cb (or_empty (call_data call)) = Some ("approve", mid) ->
        find (fun x => m_id x =? mid) (MATCHES st) = Some m ->
        find (fun u => u_id u =? m_user1_id m) (USERS st) = Some ua ->
        find (fun u => u_id u =? m_user2_id m) (USERS st) = Some ub ->
        u_tg_id ua <> 0 -> u_tg_id ub <> 0 ->
        run (Relay.cb_share_contact call) st now
        = (Return tt,
           mkWorld st [] now
             [SendMessage (u_tg_id ua)
                (Relay.APPROVED ++ "tg://user?id=" ++ str_of_Z (u_tg_id ub));
              SendMessage (u_tg_id ub)
                (Relay.APPROVED ++ "tg://user?id=" ++ str_of_Z (u_tg_id ua));
              CallAnswer "Обмен контактами выполнен"])) /\
    (forall action,
        Relay._parse_cb (or_empty (call_data call)) = Some (action, mid) ->
        find (fun x => m_id x =? mid) (MATCHES st) = None ->
        run (Relay.cb_share_contact call) st now
        = (Return tt, mkWorld st [] now [CallAnswer "Матч не найден"])).
Proof.
  intros st now call mid. split.
  - intros m ua ub P Fm Fa Fb Na Nb.
    unfold run, Relay.cb_share_contact. rewrite P.
    run_with run_get_match_by_id. rewrite Fm.
    run_with run_tg_id. run_with run_tg_id. rewrite Fa, Fb. cbn [option_map].
    cbn [String.eqb Ascii.eqb Bool.eqb].
    unfold Relay._mention, truthy_int.
    rewrite (proj2 (Z.eqb_neq _ _) Na), (proj2 (Z.eqb_neq _ _) Nb). reflexivity.
  - intros action P Fm.
    unfold run, Relay.cb_share_contact. rewrite P.
    run_with run_get_match_by_id. rewrite Fm. reflexivity.
Qed.

(** C8, as the code has it: when the upsert of the Like row fails the
    failure is logged and nothing else changes course.  The Likes table
    is left as it was, and the handler goes on with the notification of
    the target, the reciprocity check with the creation of the match,
    and the answer that the like was sent. *)
Theorem like_upsert_failure_is_only_logged :
  forall st now call message user dbu pid to,
    call_message call = Some message ->
    from_user message = Some user ->
    find (fun r => u_tg_id r =? tg_user_id user) (USERS st) = Some dbu ->
    Feed._parse_cb (or_empty (call_data call)) = Some ("like", pid, to) ->
    (forall fs tr,
        Feed.feed_actions call (mkWorld st (true :: false :: fs) now tr)
        = (Feed.notify_and_match dbu to (option_map tg_user_id (call_from_user call)) None ;;
           send (CallAnswer "Лайк отправлен") ;;
           Feed.show_next dbu)
            (mkWorld st fs now (tr ++ [LogWarning "Like upsert failed"]))) /\
    (exists st' evs1 evs2,
        Feed.feed_actions call (mkWorld st [true; false] now [])
        = (Return tt,
           mkWorld st' [] now
             (LogWarning "Like upsert failed" :: evs1
              ++ CallAnswer "Лайк отправлен" :: evs2)) /\
        LIKES st' = LIKES st).
Proof.
  intros st now call message user dbu pid to Hc Hu Hd Hp.
  assert (E : forall fs tr,
             Feed.feed_actions call (mkWorld st (true :: false :: fs) now tr)
             = (Feed.notify_and_match dbu to (option_map tg_user_id (call_from_user call)) None ;;
                send (CallAnswer "Лайк отправлен") ;;
                Feed.show_next dbu)
                 (mkWorld st fs now (tr ++ [LogWarning "Like upsert failed"]))).
  { intros fs tr. unfold Feed.feed_actions. rewrite Hc.
    assert (G : Feed._get_db_user message (mkWorld st (true :: false :: fs) now tr)
                = (Return (Some dbu), mkWorld st (false :: fs) now tr)).
    { unfold Feed._get_db_user. rewrite Hu. unfold get_user_by_tg_id.
      erewrite run_bind; [|reflexivity]. unfold ret. cbn [w_store].
      rewrite first_limit_select. now rewrite Hd. }
    run_with G. rewrite Hp. cbn [String.eqb Ascii.eqb Bool.eqb].
    unfold Feed.like. reflexivity. }
  split; [exact E|].
  rewrite E. cbn [app].
  destruct (run_notify_and_match dbu to (option_map tg_user_id (call_from_user call)) None
              st now [LogWarning "Like upsert failed"]) as [evs1 N].
  run_with N. run_with run_send.
  match goal with |- context [Feed.show_next dbu (mkWorld ?s [] now ?t)] =>
    destruct (run_show_next dbu s now t) as [st' [evs2 [S [L _]]]] end.
  exists st', evs1, evs2. split.
  - rewrite S. cbn [app]. now rewrite <- app_assoc.
  - rewrite L. apply LIKES_liked_back.
Qed.

(** *** Starting a chat *)

Lemma run_has_active_chat_for_match mid st now tr :
  Relay._has_active_chat_for_match mid (W st now tr)
  = (Return (has_active_chat st mid), W st now tr).
Proof.
  unfold Relay._has_active_chat_for_match. run_with @run_read. unfold ret.
  now rewrite limit_1_nonempty.
Qed.

Lemma run_pick_candidate ms st now tr :
  Relay.pick_candidate ms (W st now tr)
  = (Return (find (fun m => negb (has_active_chat st (m_id m))) ms), W st now tr).
Proof.
  induction ms as [|m ms IH]; [reflexivity|].
  cbn [Relay.pick_candidate find]. run_with run_has_active_chat_for_match.
  destruct (has_active_chat st (m_id m)); [exact IH|reflexivity].
Qed.

Lemma run_profile_name uid st now tr :
  exists name, Relay._profile_name uid (W st now tr) = (Return name, W st now tr).
Proof.
  eexists. unfold Relay._profile_name. erewrite run_try; [reflexivity|].
  run_with @run_read. reflexivity.
Qed.

Lemma run_send_to tg text st now tr :
  exists evs, Relay.send_to tg text (W st now tr) = (Return tt, W st now (tr ++ evs)).
Proof.
  unfold Relay.send_to, Relay.when. destruct tg as [n|]; [|exists []; now rewrite app_nil_r].
  destruct (truthy_int _); [eexists; apply run_send|exists []; now rewrite app_nil_r].
Qed.

Lemma run_cmd_start_chat message user dbu candidate st now :
  from_user message = Some user ->
  find (fun r => u_tg_id r =? tg_user_id user) (USERS st) = Some dbu ->
  find (fun m => negb (has_active_chat st (m_id m))) (limit 50 (active_matches st (u_id dbu)))
  = Some candidate ->
  exists evs,
    run (Relay.cmd_start_chat message) st now
    = (Return tt,
       mkWorld (set_CHATS st (chats_after_start st (u_id dbu) candidate now)) [] now evs).
Proof.
  intros Hu Hd Hc. unfold run, Relay.cmd_start_chat.
  run_with run_db_user_from_message. rewrite Hu, Hd.
  unfold Relay._get_matches_for_user at 1. run_with @run_read.
  fold (active_matches st (u_id dbu)).
  destruct (limit 50 (active_matches st (u_id dbu))) as [|m0 ms] eqn:L; [discriminate|].
  run_with run_pick_candidate. rewrite Hc.
  assert (D : exists st1,
             Relay._deactivate_all_user_chats (u_id dbu) (W st now [])
             = (Return tt, W st1 now []) /\
             set_CHATS st1 (CHATS st1 ++ [mkChat (fresh_id c_id (CHATS st1)) (m_id candidate)
                                                true (Some now)])
             = set_CHATS st (chats_after_start st (u_id dbu) candidate now)).
  { unfold Relay._deactivate_all_user_chats, Relay._get_matches_for_user.
    run_with @run_read. fold (active_matches st (u_id dbu)). unfold chats_after_start.
    destruct (map m_id (limit 200 (active_matches st (u_id dbu)))) as [|i mids].
    - exists st. split; reflexivity.
    - eexists. split; [erewrite run_try; [reflexivity|apply run_write]|reflexivity]. }
  destruct D as [st1 [D E]]. run_with D.
  unfold Relay._create_chat.
  erewrite run_bind;
    [|erewrite run_try; [reflexivity|]; run_with @run_write; reflexivity].
  cbn [fst snd first_row hd_error]. rewrite E.
  run_with run_tg_id.
  set (st2 := set_CHATS st _). set (other := Relay.or_zero _).
  destruct (run_profile_name (u_id dbu) st2 now []) as [n1 P1]. run_with P1.
  destruct (run_profile_name other st2 now []) as [n2 P2]. run_with P2.
  match goal with |- context [bind (Relay.send_to ?g ?x) _ (mkWorld ?s [] now ?t)] =>
    destruct (run_send_to g x s now t) as [e1 S1] end.
  run_with S1.
  match goal with |- context [Relay.send_to ?g ?x (mkWorld ?s [] now ?t)] =>
    destruct (run_send_to g x s now t) as [e2 S2] end.
  rewrite S2. eexists. reflexivity.
Qed.

Lemma in_ids_active_matches st uid x :
  (forall m, In m (MATCHES st) -> Relay.involves uid m = true -> m_is_active m = true) ->
  Relay.in_ids (map m_id (active_matches st uid)) x
  = existsb (fun m => (m_id m =? x) && Relay.involves uid m) (MATCHES st).
Proof.
  intros A. unfold Relay.in_ids, active_matches, select. apply eq_true_iff_eq.
  rewrite !existsb_exists. split.
  - intros [i [Hi E]]. apply Z.eqb_eq in E. subst i.
    apply in_map_iff in Hi as [m [E Hm]]. apply filter_In in Hm as [Hm P].
    apply andb_true_iff in P as [_ P]. exists m. split; [exact Hm|].
    now rewrite E, Z.eqb_refl, P.
  - intros [m [Hm P]]. apply andb_true_iff in P as [E P]. apply Z.eqb_eq in E.
    exists (m_id m). split; [|now rewrite E, Z.eqb_refl].
    apply in_map. apply filter_In. split; [exact Hm|]. now rewrite (A m Hm P), P.
Qed.

Lemma count_deactivated (q : Z -> bool) t :
  count (fun c => c_is_active c && q (c_match_id c))
        (update (fun c => q (c_match_id c) && c_is_active c) Relay.deactivate t) = 0%nat.
Proof.
  unfold count, update. induction t as [|c t IH]; [reflexivity|]. cbn [map filter].
  destruct (q (c_match_id c)) eqn:Q, (c_is_active c) eqn:A; cbn; rewrite ?Q, ?A; cbn; exact IH.
Qed.

(** The part of the invariant that [cmd_start_chat] does secure: the
    user who starts the chat is left with exactly one active chat. *)
Lemma start_chat_bounds_initiator st now message user dbu candidate :
  from_user message = Some user ->
  find (fun r => u_tg_id r =? tg_user_id user) (USERS st) = Some dbu ->
  find (fun m => negb (has_active_chat st (m_id m))) (limit 50 (active_matches st (u_id dbu)))
  = Some candidate ->
  (List.length (active_matches st (u_id dbu)) <= 200)%nat ->
  (forall m, In m (MATCHES st) -> Relay.involves (u_id dbu) m = true -> m_is_active m = true) ->
  active_chats_of (store_of (run (Relay.cmd_start_chat message) st now)) (u_id dbu) = 1%nat.
Proof.
  intros Hu Hd Hc Hlen Hact.
  destruct (@run_cmd_start_chat message user dbu candidate st now Hu Hd Hc) as [evs R].
  rewrite R.
  unfold store_of, active_chats_of. cbn [snd w_store MATCHES CHATS set_CHATS].
  apply find_some in Hc as [Hin _]. apply limit_In in Hin.
  unfold chats_after_start. unfold limit. rewrite firstn_all2 by exact Hlen.
  rewrite (count_ext_eq _ (fun c => c_is_active c
             && Relay.in_ids (map m_id (active_matches st (u_id dbu))) (c_match_id c)));
    [|intros c; now rewrite in_ids_active_matches].
  rewrite count_app.
  assert (N : Relay.in_ids (map m_id (active_matches st (u_id dbu))) (m_id candidate) = true).
  { unfold Relay.in_ids. apply existsb_exists. exists (m_id candidate).
    split; [now apply in_map|apply Z.eqb_refl]. }
  destruct (map m_id (active_matches st (u_id dbu))) as [|i mids] eqn:M; [discriminate|].
  rewrite count_deactivated. unfold count. cbn [filter c_is_active c_match_id andb].
  now rewrite N.
Qed.


(** ** Concrete runs *)

(** C1 does not hold of the code: [cmd_start_chat] cleans up the chats
    of the user who starts the chat only.  User 1 starts a chat (with
    user 2), then user 3 starts a chat (with user 2 as well); both
    calls succeed and user 2 is left with two active chats. *)
Theorem start_chat_leaves_counterpart_two_active_chats :
  let r1 := run (Relay.cmd_start_chat (from_tg 101 (Some "/start_chat"))) two_matches 10 in
  let r2 := run (Relay.cmd_start_chat (from_tg 103 (Some "/start_chat"))) (store_of r1) 20 in
  fst r1 = Return tt /\ fst r2 = Return tt /\
  CHATS (store_of r2) = [mkChat 1 1 true (Some 10); mkChat 2 2 true (Some 20)] /\
  active_chats_of (store_of r2) 1 = 1%nat /\
  active_chats_of (store_of r2) 2 = 2%nat /\
  active_chats_of (store_of r2) 3 = 1%nat.
Proof. vm_compute. repeat split; reflexivity. Qed.

(** On a reject the two notices go by the order of the match row. *)
Lemma reject_wording_fixed_by_match_order :
  forall st now call mid m ua ub,
    Relay._parse_cb (or_empty (call_data call)) = Some ("reject", mid) ->
    find (fun x => m_id x =? mid) (MATCHES st) = Some m ->
    find (fun u => u_id u =? m_user1_id m) (USERS st) = Some ua ->
    find (fun u => u_id u =? m_user2_id m) (USERS st) = Some ub ->
    u_tg_id ua <> 0 -> u_tg_id ub <> 0 ->
    run (Relay.cb_share_contact call) st now
    = (Return tt,
       mkWorld st [] now
         [SendMessage (u_tg_id ua) Relay.DECLINED_BY_PEER;
          SendMessage (u_tg_id ub) Relay.YOU_DECLINED;
          CallAnswer "Отклонено"]).
Proof.
  intros st now call mid m ua ub P Fm Fa Fb Na Nb.
  unfold run, Relay.cb_share_contact. rewrite P.
  run_with run_get_match_by_id. rewrite Fm.
  run_with run_tg_id. run_with run_tg_id. rewrite Fa, Fb. cbn [option_map].
  cbn [String.eqb Ascii.eqb Bool.eqb].
  unfold Relay.send_to, Relay.when, truthy_int.
  rewrite (proj2 (Z.eqb_neq _ _) Na), (proj2 (Z.eqb_neq _ _) Nb). reflexivity.
Qed.

(** C7 does not hold of the code: user 2 asks for the exchange, the
    prompt goes to user 1, and user 1 presses reject.  User 1, who
    rejected, is told that the counterpart declined, and user 2, who
    asked, is told "you declined". *)
Theorem reject_notices_swapped_when_user2_requests :
  events_of (run (Relay.cmd_share_contact (from_tg 102 (Some "/share_contact"))) one_chat 10)
  = [MessageAnswer "Запрос отправлен. Ожидайте подтверждения собеседника.";
     ContactPrompt 101 1] /\
  Relay._cb "reject" 1 = "chat:reject:1" /\
  run (Relay.cb_share_contact
         (mkCallbackQuery None (Some (tg 101)) (Some "chat:reject:1"))) one_chat 11
  = (Return tt,
     mkWorld one_chat [] 11
       [SendMessage 101 "Собеседник отклонил обмен контактами.";
        SendMessage 102 "Вы отклонили обмен контактами.";
        CallAnswer "Отклонено"]).
Proof. vm_compute. repeat split; reflexivity. Qed.

(** The selector on [paris]: the boosted profile comes first although
    the other one is newer; once it is logged as viewed, the other one
    follows, and then nothing is left. *)
Example feed_shows_boosted_then_recent :
  let r1 := run (Feed.cmd_feed (from_tg 101 (Some "/feed"))) paris 1000 in
  let r2 := run (Feed.cmd_feed (from_tg 101 (Some "/feed"))) (store_of r1) 1010 in
  let r3 := run (Feed.cmd_feed (from_tg 101 (Some "/feed"))) (store_of r2) 1020 in
  events_of r1 = [ProfileCard false 3] /\
  VIEWED_PROFILES (store_of r1) = [mkViewedProfile 1 1 3 1000] /\
  events_of r2 = [ProfileCard false 2] /\
  events_of r3 = [MessageAnswer "Подходящих анкет не найдено. Попробуйте позже."].
Proof. vm_compute. repeat split; reflexivity. Qed.

(** The run behind the counterexample to C8: the upsert fails (second
    external call), the Likes table keeps its one row, and still the
    target is notified, the match is created, both are told of it and
    the user is told the like was sent. *)
Lemma like_upsert_failure_trace :
  let r := Feed.feed_actions like_call (mkWorld liked [true; false] 10 []) in
  fst r = Return tt /\
  events_of r
  = [LogWarning "Like upsert failed";
     SendMessage 102 "Вас лайкнул(а) Ann!";
     SendMessage 101 Feed.MATCH_TEXT;
     SendMessage 102 Feed.MATCH_TEXT;
     CallAnswer "Лайк отправлен";
     EditText "Больше анкет нет. Попробуйте позже."] /\
  LIKES (store_of r) = LIKES liked /\
  MATCHES (store_of r) = [mkMatch 1 1 2 true].
Proof. vm_compute. repeat split; reflexivity. Qed.

(** C8 as stated fails at that input. *)
Lemma like_upsert_failure_not_aborted :
  ~ like_aborted liked (Feed.feed_actions like_call (mkWorld liked [true; false] 10 [])).
Proof.
  intros [H _].
  apply (H (CallAnswer "Лайк отправлен")); [|reflexivity].
  destruct like_upsert_failure_trace as [_ [E _]]. rewrite E. cbn. tauto.
Qed.

(** ** Instances *)

Lemma like_upsert_failure_is_only_logged_witness :
  exists st' evs1 evs2,
    Feed.feed_actions like_call (mkWorld liked [true; false] 10 [])
    = (Return tt,
       mkWorld st' [] 10
         (LogWarning "Like upsert failed" :: evs1 ++ CallAnswer "Лайк отправлен" :: evs2)) /\
    LIKES st' = LIKES liked.
Proof.
  exact (proj2 (like_upsert_failure_is_only_logged liked 10 like_call
                  (from_tg 101 None) (tg 101) (mkUser 1 101 None None None false) 7 2
                  eq_refl eq_refl eq_refl eq_refl)).
Defined.

Lemma registration_persists_by_upsert_witness :
  NoDup (map p_id (PROFILES empty_store)) /\
  (count (owned_by 1) (PROFILES empty_store) <= 1)%nat /\
  count (owned_by 1)
        (PROFILES (complete_runs (tg 101)
                     [("tea and hiking",
                       Registration.mkRegData (Some "Ann") (Some "female") (Some 30)
                                              (Some "Paris") (Some ["https://p/1"]) None, 5);
                      ("  tea, hiking and chess ",
                       Registration.mkRegData (Some "Anna") (Some "female") (Some 31)
                                              (Some "Lyon") (Some ["https://p/2"]) None, 9)]
                     empty_store)) = 1%nat.
Proof.
  split; [constructor|]. split; [cbn; lia|].
  refine (proj1 (proj2 (registration_persists_by_upsert empty_store (tg 101) _ _)) _ _ _).
  - constructor.
  - cbn. lia.
  - discriminate.
  - repeat constructor.
Defined.

Lemma report_requires_reason_and_appends_one_witness :
  exists row,
    run (Relay.cmd_report (from_tg 102 (Some "/report spam"))) one_chat 10
    = (Return tt,
       mkWorld (set_COMPLAINTS one_chat (COMPLAINTS one_chat ++ [row])) [] 10
               [MessageAnswer "Жалоба отправлена."]) /\
    k_from_user_id row = Some 2 /\
    k_reason row = Some "spam" /\
    k_against_user_id row = Some 1.
Proof.
  destruct (proj1 (proj2 (report_requires_reason_and_appends_one one_chat 10
                            (from_tg 102 (Some "/report spam")) (tg 102)
                            (mkUser 2 102 None None None false) eq_refl eq_refl)))
    as [row [R [F [Re [_ A]]]]].
  - discriminate.
  - exists row. split; [exact R|]. split; [exact F|]. split; [exact Re|].
    cbn in A. destruct A as [_ [_ [_ [_ [other [E [[X _]|[_ ->]]]]]]]].
    + discriminate X.
    + exact E.
Defined.

Lemma approve_sends_both_contacts_witness :
  CHATS two_matches = [] /\
  run (Relay.cb_share_contact
         (mkCallbackQuery None (Some (tg 103)) (Some "chat:approve:1"))) two_matches 10
  = (Return tt,
     mkWorld two_matches [] 10
       [SendMessage 101 (Relay.APPROVED ++ "tg://user?id=102");
        SendMessage 102 (Relay.APPROVED ++ "tg://user?id=101");
        CallAnswer "Обмен контактами выполнен"]).
Proof.
  split; [reflexivity|].
  refine (proj1 (approve_sends_both_contacts two_matches 10
                   (mkCallbackQuery None (Some (tg 103)) (Some "chat:approve:1")) 1)
                (mkMatch 1 1 2 true) (mkUser 1 101 None None None false)
                (mkUser 2 102 None None None false) eq_refl eq_refl eq_refl eq_refl _ _);
    discriminate.
Defined.

(** * Further properties *)

(** ** Decimal text *)

Lemma py_digits_acc d p :
  py_digits (Z.pos p) false (NilEmpty.string_of_uint d) = Some (Z.pos (Pos.of_uint_acc d p)).
Proof.
  revert p. induction d; intros p; cbn [NilEmpty.string_of_uint Pos.of_uint_acc];
    [reflexivity|..];
    cbn [py_digits];
    match goal with
    | |- context [digit_of ?c] =>
        let v := eval vm_compute in (digit_of c) in
        change (digit_of c) with v; cbv iota beta
    end;
    rewrite <- IHd; f_equal; lia.
Qed.

Lemma py_digits_zero d :
  py_digits 0 false (NilEmpty.string_of_uint d) = Some (Z.of_uint d).
Proof.
  unfold Z.of_uint.
  induction d; cbn [NilEmpty.string_of_uint Pos.of_uint]; [reflexivity|..];
    cbn [py_digits];
    match goal with
    | |- context [digit_of ?c] =>
        let v := eval vm_compute in (digit_of c) in
        change (digit_of c) with v; cbv iota beta
    end;
    [exact IHd|..]; cbn [Z.mul Z.add Z.of_N]; apply py_digits_acc.
Qed.

Lemma py_nat_of_uint d : py_nat (NilZero.string_of_uint d) = Some (Z.of_uint d).
Proof.
  destruct d; [reflexivity|..];
    change (NilZero.string_of_uint ?x) with (NilEmpty.string_of_uint x);
    cbn [NilEmpty.string_of_uint py_nat];
    match goal with
    | |- context [digit_of ?c] =>
        let v := eval vm_compute in (digit_of c) in
        change (digit_of c) with v; cbv iota beta
    end;
    [apply (py_digits_zero d)|..]; unfold Z.of_uint; cbn [Pos.of_uint Z.of_N];
    apply py_digits_acc.
Qed.

Lemma uint_plain d : all_chars plain_char (NilEmpty.string_of_uint d) = true.
Proof. induction d; cbn [NilEmpty.string_of_uint all_chars]; [reflexivity|..]; exact IHd. Qed.

Lemma str_of_Z_plain z : all_chars plain_char (str_of_Z z) = true.
Proof.
  unfold str_of_Z. destruct (Z.to_int z) as [d|d]; cbn [NilZero.string_of_int].
  - destruct d; [reflexivity|..]; apply (uint_plain (_ d)) || apply uint_plain.
  - cbn [all_chars]. destruct d; [reflexivity|..]; apply uint_plain.
Qed.

Lemma all_chars_app p s1 s2 :
  all_chars p (s1 ++ s2) = all_chars p s1 && all_chars p s2.
Proof.
  induction s1 as [|c s1 IH]; cbn; [reflexivity|]. now rewrite IH, andb_assoc.
Qed.

Lemma plain_no_space c : plain_char c = true -> is_space c = false.
Proof. unfold plain_char. intros H. apply andb_true_iff in H as [H _]. now apply negb_true_iff. Qed.

Lemma plain_no_colon c : plain_char c = true -> Ascii.eqb c ":" = false.
Proof. unfold plain_char. intros H. apply andb_true_iff in H as [_ H]. now apply negb_true_iff. Qed.

Lemma rstrip_plain s : all_chars plain_char s = true -> rstrip s = s.
Proof.
  induction s as [|c s IH]; [reflexivity|]. cbn [all_chars rstrip]. intros H.
  apply andb_true_iff in H as [Hc Hs]. rewrite (IH Hs).
  destruct s; [now rewrite (plain_no_space _ Hc)|reflexivity].
Qed.

Lemma strip_plain s : all_chars plain_char s = true -> strip s = s.
Proof.
  intros H. unfold strip.
  assert (L : lstrip s = s).
  { destruct s as [|c s]; [reflexivity|]. cbn [all_chars] in H.
    apply andb_true_iff in H as [Hc _]. cbn [lstrip]. now rewrite (plain_no_space _ Hc). }
  rewrite L. now apply rstrip_plain.
Qed.

Lemma find_sep_plain s : all_chars plain_char s = true -> find_sep ":" s = None.
Proof.
  induction s as [|c s IH]; [reflexivity|]. cbn [all_chars find_sep]. intros H.
  apply andb_true_iff in H as [Hc Hs]. now rewrite (plain_no_colon _ Hc), (IH Hs).
Qed.

Lemma find_sep_app sep a b :
  find_sep sep a = None -> find_sep sep (a ++ String sep b) = Some (a, b).
Proof.
  induction a as [|c a IH]; cbn [append find_sep].
  - intros _. now rewrite Ascii.eqb_refl.
  - destruct (Ascii.eqb c sep); [discriminate|].
    destruct (find_sep sep a) as [[x y]|]; [discriminate|]. intros _. now rewrite IH.
Qed.

(** [int(str(z)) == z] *)
Lemma py_int_str_of_Z z : py_int (str_of_Z z) = Some z.
Proof.
  unfold py_int. rewrite (strip_plain _ (str_of_Z_plain z)).
  unfold str_of_Z. rewrite <- (DecimalZ.of_to z) at 2.
  destruct (Z.to_int z) as [d|d]; cbn [NilZero.string_of_int Z.of_int].
  - rewrite <- py_nat_of_uint. destruct d; reflexivity.
  - now rewrite py_nat_of_uint.
Qed.

(** ** Callback data *)

(** X1: The callback data of a contact prompt parses back to the action
    and the match id it was built from. *)
Theorem chat_callback_round_trip :
  forall action match_id,
    find_sep ":" action = None ->
    Relay._parse_cb (Relay._cb action match_id) = Some (action, match_id).
Proof.
  intros action mid Ha. unfold Relay._parse_cb, Relay._cb, Relay.CB_PREFIX.
  cbn [split append find_sep Ascii.eqb Bool.eqb].
  change (String ":" (action ++ ":" ++ str_of_Z mid))
    with (String ":" (action ++ String ":" (str_of_Z mid))).
  cbn [find_sep Ascii.eqb Bool.eqb].
  rewrite (find_sep_app ":" action (str_of_Z mid) Ha).
  rewrite (find_sep_plain _ (str_of_Z_plain mid)).
  cbn [String.eqb Ascii.eqb Bool.eqb negb]. now rewrite py_int_str_of_Z.
Qed.

Lemma chat_callback_round_trip_witness :
  find_sep ":" "approve" = None /\
  Relay._parse_cb (Relay._cb "approve" 42) = Some ("approve", 42).
Proof. split; [reflexivity|]. apply chat_callback_round_trip. reflexivity. Defined.

(** X2: The callback data under a profile card parses back to the action,
    the profile id and the user id it was built from. *)
Theorem feed_callback_round_trip :
  forall action profile_id to_user_id,
    find_sep ":" action = None ->
    Feed._parse_cb (Feed._action_cb action profile_id to_user_id)
    = Some (action, profile_id, to_user_id).
Proof.
  intros action pid uid Ha. unfold Feed._parse_cb, Feed._action_cb, Feed.FEED_PREFIX.
  cbn [split append find_sep Ascii.eqb Bool.eqb].
  change (String ":" (action ++ ":" ++ str_of_Z pid ++ ":" ++ str_of_Z uid))
    with (String ":" (action ++ String ":" (str_of_Z pid ++ String ":" (str_of_Z uid)))).
  cbn [find_sep Ascii.eqb Bool.eqb].
  rewrite (find_sep_app ":" action _ Ha).
  rewrite (find_sep_app ":" (str_of_Z pid) _ (find_sep_plain _ (str_of_Z_plain pid))).
  cbn [String.eqb Ascii.eqb Bool.eqb negb]. now rewrite !py_int_str_of_Z.
Qed.

Lemma feed_callback_round_trip_witness :
  find_sep ":" "like_msg" = None /\
  Feed._parse_cb (Feed._action_cb "like_msg" 7 (-3)) = Some ("like_msg", 7, -3).
Proof. split; [reflexivity|]. apply feed_callback_round_trip. reflexivity. Defined.

(** X3: The two callback namespaces never cross: no data built for a
    profile card is accepted by the chat parser, and no data built for
    a contact prompt is accepted by the feed parser, whatever the
    action text. *)
Theorem callback_namespaces_disjoint :
  forall action profile_id to_user_id match_id,
    Relay._parse_cb (Feed._action_cb action profile_id to_user_id) = None /\
    Feed._parse_cb (Relay._cb action match_id) = None.
Proof.
  intros action pid uid mid. split.
  - unfold Relay._parse_cb, Feed._action_cb, Feed.FEED_PREFIX.
    cbn [split append find_sep Ascii.eqb Bool.eqb].
    destruct (find_sep ":" _) as [[a r]|]; [|reflexivity].
    destruct (find_sep ":" r) as [[b r']|]; reflexivity.
  - unfold Feed._parse_cb, Relay._cb, Relay.CB_PREFIX.
    cbn [split append find_sep Ascii.eqb Bool.eqb].
    destruct (find_sep ":" _) as [[a r]|]; [|reflexivity].
    destruct (find_sep ":" r) as [[b r']|]; reflexivity.
Qed.

(** ** What a handler leaves untouched, whatever fails *)

Section Keeps.
Variable T : Type.
Variable f : Store -> T.

Lemma keeps_ret {A} (a : A) : keeps f (ret a).
Proof. intros w. reflexivity. Qed.

Lemma keeps_bind {A B} (m : M A) (k : A -> M B) :
  keeps f m -> (forall a, keeps f (k a)) -> keeps f (bind m k).
Proof.
  intros Hm Hk w. unfold bind. specialize (Hm w).
  destruct (m w) as [[a|] w1]; cbn [snd] in *; [|exact Hm].
  now rewrite (Hk a w1).
Qed.

Lemma keeps_try {A} (m h : M A) : keeps f m -> keeps f h -> keeps f (try_except m h).
Proof.
  intros Hm Hh w. unfold try_except. specialize (Hm w).
  destruct (m w) as [[a|] w1]; cbn [snd] in *; [exact Hm|].
  now rewrite (Hh w1).
Qed.

Lemma keeps_external : keeps f external.
Proof. intros [st [|[] fs] now tr]; reflexivity. Qed.

Lemma keeps_emit e : keeps f (emit e).
Proof. intros w. reflexivity. Qed.

Lemma keeps_send e : keeps f (send e).
Proof. apply keeps_bind; [apply keeps_external|intros; apply keeps_emit]. Qed.

Lemma keeps_log t : keeps f (log_warning t).
Proof. apply keeps_emit. Qed.

Lemma keeps_now : keeps f datetime_now.
Proof. intros w. reflexivity. Qed.

Lemma keeps_read {A} (q : Store -> A) : keeps f (execute_read q).
Proof. apply keeps_bind; [apply keeps_external|]. intros _ w. reflexivity. Qed.

Lemma keeps_write {A} (q : timestamp -> Store -> A * Store) :
  (forall now st, f (snd (q now st)) = f st) -> keeps f (execute_write q).
Proof.
  intros H. apply keeps_bind; [apply keeps_external|]. intros _ w.
  specialize (H (w_clock w) (w_store w)). destruct (q (w_clock w) (w_store w)). exact H.
Qed.
End Keeps.

(** One step of a proof that a handler keeps [f]. *)
Ltac keeps_step :=
  match goal with
  | |- keeps _ (bind _ _) => apply keeps_bind; [|intros]
  | |- keeps _ (try_except _ _) => apply keeps_try
  | |- keeps _ (ret _) => apply keeps_ret
  | |- keeps _ (send _) => apply keeps_send
  | |- keeps _ (emit _) => apply keeps_emit
  | |- keeps _ (log_warning _) => apply keeps_log
  | |- keeps _ datetime_now => apply keeps_now
  | |- keeps _ external => apply keeps_external
  | |- keeps _ (execute_read _) => apply keeps_read
  | |- keeps _ (execute_write _) => apply keeps_write; intros; reflexivity
  | |- keeps _ (Relay.when ?b _) => unfold Relay.when; destruct b
  | |- keeps _ (match ?x with _ => _ end) => destruct x
  | |- keeps _ (if ?x then _ else _) => destruct x
  | |- keeps _ (let _ := _ in _) => cbv zeta
  end.

Ltac keeps_auto := repeat keeps_step.

Section KeepsHelpers.
Variable T : Type.
Variable f : Store -> T.

Lemma keeps_get_user_by_tg_id tg : keeps f (get_user_by_tg_id tg).
Proof. unfold get_user_by_tg_id. keeps_auto. Qed.

Lemma keeps_db_user_from_message message : keeps f (Relay._db_user_from_message message).
Proof. unfold Relay._db_user_from_message. keeps_auto. apply keeps_get_user_by_tg_id. Qed.

Lemma keeps_get_db_user message : keeps f (Feed._get_db_user message).
Proof. unfold Feed._get_db_user. keeps_auto. apply keeps_get_user_by_tg_id. Qed.

Lemma keeps_get_matches_for_user uid a n : keeps f (Relay._get_matches_for_user uid a n).
Proof. unfold Relay._get_matches_for_user. keeps_auto. Qed.

Lemma keeps_get_active_chat_for_user uid : keeps f (Relay._get_active_chat_for_user uid).
Proof.
  unfold Relay._get_active_chat_for_user, Relay._get_active_chats_for_matches.
  keeps_auto; apply keeps_get_matches_for_user.
Qed.

Lemma keeps_tg_id uid : keeps f (Relay._tg_id uid).
Proof. unfold Relay._tg_id. keeps_auto. Qed.

Lemma keeps_profile_name uid : keeps f (Relay._profile_name uid).
Proof. unfold Relay._profile_name. keeps_auto. Qed.

Lemma keeps_has_active_chat_for_match mid : keeps f (Relay._has_active_chat_for_match mid).
Proof. unfold Relay._has_active_chat_for_match. keeps_auto. Qed.

Lemma keeps_send_to tg text : keeps f (Relay.send_to tg text).
Proof. unfold Relay.send_to. keeps_auto. Qed.

Lemma keeps_pick_candidate ms : keeps f (Relay.pick_candidate ms).
Proof.
  induction ms as [|m ms IH]; cbn [Relay.pick_candidate]; keeps_auto;
    try apply keeps_has_active_chat_for_match; exact IH.
Qed.

Lemma keeps_match_lines me ms : keeps f (Listing.match_lines me ms).
Proof.
  induction ms as [|m ms IH]; cbn [Listing.match_lines]; keeps_auto;
    [apply keeps_profile_name|apply keeps_has_active_chat_for_match|exact IH].
Qed.

Lemma keeps_fetch_next_profile dbu : keeps f (Feed._fetch_next_profile dbu).
Proof. unfold Feed._fetch_next_profile, Feed._get_recently_viewed_ids. keeps_auto. Qed.

Lemma keeps_resolve_tg_id uid : keeps f (Feed._resolve_tg_id uid).
Proof. unfold Feed._resolve_tg_id. keeps_auto. Qed.

Lemma keeps_notify_like tg p txt : keeps f (Feed._notify_like tg p txt).
Proof. unfold Feed._notify_like. keeps_auto. Qed.

Lemma keeps_notify_match a b : keeps f (Feed._notify_match a b).
Proof. unfold Feed._notify_match. keeps_auto. Qed.

Lemma keeps_check_reciprocal_like a b : keeps f (Feed._check_reciprocal_like a b).
Proof. unfold Feed._check_reciprocal_like. keeps_auto. Qed.

Lemma keeps_get_match_between a b : keeps f (Feed._get_match_between a b).
Proof. unfold Feed._get_match_between. keeps_auto. Qed.

Lemma keeps_download_video_bytes message : keeps f (Feed._download_video_bytes message).
Proof. unfold Feed._download_video_bytes. keeps_auto. Qed.
End KeepsHelpers.

(** X4: The handlers of chat.py that only read: forwarding a message, asking
    for the contact exchange, answering the prompt and listing the
    matches never change the store, whichever of their calls fail. *)
Theorem relay_readers_never_write :
  forall message call,
    keeps (fun st => st) (Relay.proxy_messages message) /\
    keeps (fun st => st) (Relay.cmd_share_contact message) /\
    keeps (fun st => st) (Relay.cb_share_contact call) /\
    keeps (fun st => st) (Listing.cmd_my_matches message).
Proof.
  intros message call. repeat split.
  - unfold Relay.proxy_messages. keeps_auto;
      first [apply keeps_db_user_from_message|apply keeps_get_active_chat_for_user
            |apply keeps_tg_id].
  - unfold Relay.cmd_share_contact. keeps_auto;
      first [apply keeps_db_user_from_message|apply keeps_get_active_chat_for_user
            |apply keeps_tg_id].
  - unfold Relay.cb_share_contact, Relay._get_match_by_id. keeps_auto;
      first [apply keeps_tg_id|apply keeps_send_to].
  - unfold Listing.cmd_my_matches. keeps_auto;
      first [apply keeps_db_user_from_message|apply keeps_get_matches_for_user
            |apply keeps_match_lines].
Qed.

(** X5: The handlers of chat.py that write: starting and ending a chat
    touch the Chats table only, blocking touches Users and Chats only,
    and a report touches Complaints only, whichever of their calls
    fail. *)
Theorem relay_writers_footprint :
  forall message,
    keeps but_CHATS (Relay.cmd_start_chat message) /\
    keeps but_CHATS (Relay.cmd_end_chat message) /\
    keeps but_USERS_CHATS (Relay.cmd_block_user message) /\
    keeps but_COMPLAINTS (Relay.cmd_report message).
Proof.
  intros message. repeat split.
  - unfold Relay.cmd_start_chat, Relay._deactivate_all_user_chats, Relay._create_chat.
    keeps_auto;
      first [apply keeps_db_user_from_message|apply keeps_get_matches_for_user
            |apply keeps_pick_candidate|apply keeps_tg_id|apply keeps_profile_name
            |apply keeps_send_to].
  - unfold Relay.cmd_end_chat. keeps_auto;
      first [apply keeps_db_user_from_message|apply keeps_get_active_chat_for_user
            |apply keeps_tg_id|apply keeps_send_to].
  - unfold Relay.cmd_block_user. keeps_auto;
      first [apply keeps_db_user_from_message|apply keeps_get_active_chat_for_user].
  - unfold Relay.cmd_report. keeps_auto;
      first [apply keeps_db_user_from_message|apply keeps_get_active_chat_for_user].
Qed.

Lemma keeps_create_match a b : keeps but_LIKES_MATCHES (Feed._create_match a b).
Proof. unfold Feed._create_match. keeps_auto; apply keeps_get_match_between. Qed.

Lemma keeps_like dbu to tg m v t : keeps but_LIKES_MATCHES (Feed.like dbu to tg m v t).
Proof.
  unfold Feed.like, Feed._insert_like, Feed.notify_and_match. keeps_auto;
    first [apply keeps_resolve_tg_id|apply keeps_notify_like
          |apply keeps_check_reciprocal_like|apply keeps_create_match
          |apply keeps_notify_match].
Qed.

Lemma keeps_show_profile dbu p : keeps but_VIEWED (Feed._show_profile dbu p).
Proof. unfold Feed._show_profile, mark_profile_viewed. keeps_auto. Qed.

Lemma keeps_show_next dbu : keeps but_VIEWED (Feed.show_next dbu).
Proof.
  unfold Feed.show_next. keeps_auto;
    first [apply keeps_fetch_next_profile|apply keeps_show_profile].
Qed.

Lemma keeps_coarser {A T U} (f : Store -> T) (g : T -> U) (m : M A) :
  keeps f m -> keeps (fun st => g (f st)) m.
Proof. intros H w. now rewrite H. Qed.

(** X6: The handlers of feed.py: browsing writes to ViewedProfiles only; a
    like with a message or a video writes to Likes and Matches only;
    the buttons under a card write to Likes, Matches and ViewedProfiles
    only.  Users, Profiles, Chats and Complaints are never touched,
    whichever calls fail. *)
Theorem feed_handlers_footprint :
  forall message call target (upload_video : string -> option string),
    keeps but_VIEWED (Feed.cmd_feed message) /\
    keeps but_LIKES_MATCHES (Feed.like_with_message message target) /\
    keeps but_LIKES_MATCHES (Feed.like_with_video upload_video message target) /\
    keeps but_LIKES_MATCHES_VIEWED (Feed.feed_actions call).
Proof.
  intros message call target upload_video. repeat split.
  - unfold Feed.cmd_feed. keeps_auto;
      first [apply keeps_get_db_user|apply keeps_fetch_next_profile
            |apply keeps_show_profile].
  - unfold Feed.like_with_message. keeps_auto;
      first [apply keeps_get_db_user|apply keeps_like].
  - unfold Feed.like_with_video. keeps_auto;
      first [apply keeps_get_db_user|apply keeps_like|apply keeps_download_video_bytes].
  - unfold Feed.feed_actions. keeps_auto;
      first [apply keeps_get_db_user
            |apply (keeps_coarser but_VIEWED (fun st => set_LIKES (set_MATCHES st []) []));
             apply keeps_show_next
            |apply (keeps_coarser but_LIKES_MATCHES (fun st => set_VIEWED_PROFILES st []));
             apply keeps_like].
Qed.

(** Completing the Bio step writes to Users and Profiles only. *)
Lemma keeps_reg_bio message data :
  keeps but_USERS_PROFILES (Registration.reg_bio message data).
Proof.
  unfold Registration.reg_bio, Registration._create_or_update_profile, upsert_user_basic.
  keeps_auto; apply keeps_get_user_by_tg_id.
Qed.

(** ** Ending a chat, blocking, forwarding *)

Lemma update_none {R} (q : R -> bool) (g : R -> R) t :
  (forall x, In x t -> q x = false) -> update q g t = t.
Proof.
  unfold update. induction t as [|x t IH]; cbn [map]; intros H; [reflexivity|].
  rewrite (H x (or_introl eq_refl)), IH; [reflexivity|]. intros y Hy. apply H. now right.
Qed.

Lemma count_deactivate_one (pred : Chat -> bool) t chat :
  NoDup (map c_id t) -> In chat t -> pred chat = true ->
  (forall c, pred (Relay.deactivate c) = false) ->
  S (count pred (update (fun c => c_id c =? c_id chat) Relay.deactivate t)) = count pred t.
Proof.
  intros N Hin Hp Hd. induction t as [|x t IH]; [destruct Hin|].
  cbn [map] in N. inversion N as [|? ? Hx N']; subst.
  unfold count, update in *. cbn [map filter].
  destruct Hin as [->|Hin].
  - rewrite Z.eqb_refl, Hd, Hp. cbn [List.length].
    fold (update (fun c => c_id c =? c_id chat) Relay.deactivate t).
    rewrite update_none; [lia|].
    intros y Hy. apply Z.eqb_neq. intros E. apply Hx. rewrite <- E. now apply in_map.
  - assert (E : (c_id x =? c_id chat) = false).
    { apply Z.eqb_neq. intros E. apply Hx. rewrite E. now apply in_map. }
    rewrite E. specialize (IH N' Hin). destruct (pred x); cbn [List.length]; lia.
Qed.

Lemma run_send_to_some tg text st now tr :
  tg <> 0 ->
  Relay.send_to (Some tg) text (W st now tr)
  = (Return tt, W st now (tr ++ [SendMessage tg text])).
Proof.
  intros H. unfold Relay.send_to, Relay.when, truthy_int.
  rewrite (proj2 (Z.eqb_neq _ _) H). reflexivity.
Qed.

Lemma or_zero_some z : Relay.or_zero (Some z) = z.
Proof. unfold Relay.or_zero. destruct (Z.eqb_spec z 0); congruence. Qed.

(** X7: Ending a chat.  Without an active chat the user is told so and
    nothing changes.  With one, the chat found (the latest by
    updated_at) is made inactive and the user has one active chat less;
    the user is told the chat has ended and the counterpart that the
    other party ended it. *)
Theorem end_chat_deactivates_current :
  forall st now message user dbu,
    from_user message = Some user ->
    find (fun r => u_tg_id r =? tg_user_id user) (USERS st) = Some dbu ->
    (active_chat st (u_id dbu) = None ->
       run (Relay.cmd_end_chat message) st now
       = (Return tt, mkWorld st [] now [MessageAnswer "У вас нет активного чата."])) /\
    (forall chat m other uo,
       active_chat st (u_id dbu) = Some (chat, m) ->
       NoDup (map c_id (CHATS st)) ->
       Relay._other_user_id m (u_id dbu) = Some other ->
       find (fun u => u_id u =? other) (USERS st) = Some uo ->
       tg_user_id user <> 0 -> u_tg_id uo <> 0 ->
       let st' := set_CHATS st (update (fun c => c_id c =? c_id chat) Relay.deactivate
                                       (CHATS st)) in
       run (Relay.cmd_end_chat message) st now
       = (Return tt,
          mkWorld st' [] now
            [SendMessage (tg_user_id user) "Чат завершён.";
             SendMessage (u_tg_id uo) "Собеседник завершил чат."]) /\
       In (Relay.deactivate chat) (CHATS st') /\
       S (active_chats_of st' (u_id dbu)) = active_chats_of st (u_id dbu)).
Proof.
  intros st now message user dbu Hu Hd. split.
  - intros A. unfold run, Relay.cmd_end_chat.
    run_with run_db_user_from_message. rewrite Hu, Hd.
    run_with run_get_active_chat_for_user. now rewrite A.
  - intros chat m other uo A N Ho Fo Nme Not st'.
    destruct (active_chat_sound st (u_id dbu) chat m A)
      as [Hin [Hact [Hmid [Hm [_ [other' [Ho' Hside]]]]]]].
    split; [|split].
    + unfold run, Relay.cmd_end_chat.
      run_with run_db_user_from_message. rewrite Hu, Hd.
      run_with run_get_active_chat_for_user. rewrite A.
      erewrite run_bind; [|erewrite run_try; [reflexivity|apply run_write]].
      cbn [fst snd]. fold st'. rewrite Ho, or_zero_some.
      run_with run_tg_id. cbn [USERS set_CHATS st']. rewrite Fo. cbn [option_map].
      unfold from_id. rewrite Hu. cbn [option_map].
      erewrite run_bind; [|apply (run_send_to_some _ _ _ _ _ Nme)].
      now rewrite (run_send_to_some _ _ _ _ _ Not).
    + subst st'. cbn [CHATS set_CHATS]. unfold update. apply in_map_iff.
      exists chat. now rewrite Z.eqb_refl.
    + subst st'. unfold active_chats_of. cbn [CHATS MATCHES set_CHATS].
      apply count_deactivate_one; [exact N|exact Hin| |reflexivity].
      rewrite Hact. cbn [andb]. apply existsb_exists. exists m. split; [exact Hm|].
      rewrite Hmid, Z.eqb_refl. cbn [andb]. unfold Relay.involves.
      destruct Hside as [[E _]|[E _]]; rewrite E, Z.eqb_refl; [reflexivity|apply orb_true_r].
Qed.

Lemma end_chat_deactivates_current_witness :
  run (Relay.cmd_end_chat (from_tg 102 (Some "/end_chat"))) one_chat 10
  = (Return tt,
     mkWorld (set_CHATS one_chat [mkChat 1 1 false (Some 5)]) [] 10
       [SendMessage 102 "Чат завершён."; SendMessage 101 "Собеседник завершил чат."]) /\
  active_chats_of (set_CHATS one_chat [mkChat 1 1 false (Some 5)]) 2 = 0%nat.
Proof.
  split; [|reflexivity].
  refine (proj1 (proj2 (end_chat_deactivates_current one_chat 10
                          (from_tg 102 (Some "/end_chat")) (tg 102)
                          (mkUser 2 102 None None None false) eq_refl eq_refl)
                       (mkChat 1 1 true (Some 5)) (mkMatch 1 1 2 true) 1
                       (mkUser 1 101 None None None false) eq_refl _ eq_refl eq_refl _ _)).
  - repeat constructor. intros [].
  - discriminate.
  - discriminate.
Defined.

(** *** Runs whose first external calls succeed *)

Lemma read_true {A} (q : Store -> A) st fs now tr :
  execute_read q (mkWorld st (true :: fs) now tr) = (Return (q st), mkWorld st fs now tr).
Proof. reflexivity. Qed.

Lemma db_user_true message st fs now tr :
  from_user message <> None ->
  Relay._db_user_from_message message (mkWorld st (true :: fs) now tr)
  = (Return (match from_user message with
             | Some u => find (fun r => u_tg_id r =? tg_user_id u) (USERS st)
             | None => None
             end), mkWorld st fs now tr).
Proof.
  intros H. unfold Relay._db_user_from_message.
  destruct (from_user message) as [u|]; [|congruence].
  unfold get_user_by_tg_id. erewrite run_bind; [|apply read_true].
  unfold ret. now rewrite first_limit_select.
Qed.

Lemma active_chat_true uid x st fs now tr :
  active_chat st uid = Some x ->
  Relay._get_active_chat_for_user uid (mkWorld st (true :: true :: fs) now tr)
  = (Return (Some x), mkWorld st fs now tr).
Proof.
  unfold Relay._get_active_chat_for_user, active_chat, Relay._get_matches_for_user.
  erewrite run_bind; [|apply read_true]. cbv zeta.
  set (matches := limit 100 _).
  unfold Relay._get_active_chats_for_matches.
  destruct (map m_id matches) as [|i mids]; [discriminate|].
  erewrite run_bind; [|apply read_true].
  destruct (sort_desc Relay.updated_lt _) as [|chat l]; [discriminate|].
  destruct (find _ matches); [|discriminate]. intros E. now rewrite E.
Qed.

(** X8: Blocking.  Without an active chat the user is told so and nothing
    changes.  With one, every Users row of the counterpart gets the
    blocked flag and the chat is made inactive.  The two writes are
    separate calls: when the first succeeds and the second fails, the
    counterpart stays blocked, the chat stays active, and the user is
    told that blocking failed. *)
Theorem block_user_blocks_then_ends_chat :
  forall st now message user dbu,
    from_user message = Some user ->
    find (fun r => u_tg_id r =? tg_user_id user) (USERS st) = Some dbu ->
    (active_chat st (u_id dbu) = None ->
       run (Relay.cmd_block_user message) st now
       = (Return tt, mkWorld st [] now [MessageAnswer "Нет активного чата для блокировки."])) /\
    (forall chat m other,
       active_chat st (u_id dbu) = Some (chat, m) ->
       Relay._other_user_id m (u_id dbu) = Some other ->
       let blocked := set_USERS st (update (fun u => u_id u =? other) Relay.block (USERS st)) in
       let ended := set_CHATS blocked
                      (update (fun c => c_id c =? c_id chat) Relay.deactivate (CHATS st)) in
       run (Relay.cmd_block_user message) st now
       = (Return tt,
          mkWorld ended [] now [MessageAnswer "Пользователь заблокирован, чат завершён."]) /\
       Relay.cmd_block_user message (mkWorld st [true; true; true; true; false] now [])
       = (Return tt,
          mkWorld blocked [] now
            [LogWarning "Block user failed";
             MessageAnswer "Ошибка блокировки пользователя."]) /\
       (forall u, In u (USERS blocked) -> u_id u = other -> u_is_blocked u = true) /\
       (forall u, In u (USERS st) -> u_id u <> other -> In u (USERS blocked)) /\
       In chat (CHATS blocked)).
Proof.
  intros st now message user dbu Hu Hd. split.
  - intros A. unfold run, Relay.cmd_block_user.
    run_with run_db_user_from_message. rewrite Hu, Hd.
    run_with run_get_active_chat_for_user. now rewrite A.
  - intros chat m other A Ho blocked ended.
    destruct (active_chat_sound st (u_id dbu) chat m A) as [Hin _].
    split; [|split; [|split; [|split]]].
    + unfold run, Relay.cmd_block_user.
      run_with run_db_user_from_message. rewrite Hu, Hd.
      run_with run_get_active_chat_for_user. rewrite A. rewrite Ho, or_zero_some.
      erewrite run_try; [reflexivity|].
      run_with @run_write. run_with @run_write. apply run_send.
    + unfold Relay.cmd_block_user.
      erewrite run_bind; [|apply db_user_true; congruence]. rewrite Hu, Hd.
      erewrite run_bind; [|apply active_chat_true; exact A]. cbv iota beta.
      rewrite Ho, or_zero_some. reflexivity.
    + intros u Hu' E. subst blocked. cbn [USERS set_USERS] in Hu'. unfold update in Hu'.
      apply in_map_iff in Hu' as [x [Hx _]].
      destruct (Z.eqb_spec (u_id x) other) as [Ex|Ex]; subst u; [reflexivity|].
      congruence.
    + intros u Hu' E. subst blocked. cbn [USERS set_USERS]. unfold update.
      apply in_map_iff. exists u. now rewrite (proj2 (Z.eqb_neq _ _) E).
    + exact Hin.
Qed.

Lemma block_user_blocks_then_ends_chat_witness :
  run (Relay.cmd_block_user (from_tg 102 (Some "/block_user"))) one_chat 10
  = (Return tt,
     mkWorld (mkStore [mkUser 1 101 None None None true;
                       mkUser 2 102 None None None false;
                       mkUser 3 103 None None None false]
                      [] [] [mkMatch 1 1 2 true] [mkChat 1 1 false (Some 5)] [] [])
             [] 10 [MessageAnswer "Пользователь заблокирован, чат завершён."]).
Proof.
  exact (proj1 (proj2 (block_user_blocks_then_ends_chat one_chat 10
                         (from_tg 102 (Some "/block_user")) (tg 102)
                         (mkUser 2 102 None None None false) eq_refl eq_refl)
                      (mkChat 1 1 true (Some 5)) (mkMatch 1 1 2 true) 1 eq_refl eq_refl)).
Defined.

(** X9: Forwarding.  A message of a user without active chat is left to the
    other handlers: nothing is sent.  A message of a user in an active
    chat is copied to the Telegram id of the counterpart of that chat,
    and to nobody else. *)
Theorem proxy_copies_to_counterpart_only :
  forall st now message user dbu,
    from_user message = Some user ->
    find (fun r => u_tg_id r =? tg_user_id user) (USERS st) = Some dbu ->
    (active_chat st (u_id dbu) = None ->
       run (Relay.proxy_messages message) st now = (Return tt, mkWorld st [] now [])) /\
    (forall chat m other uo,
       active_chat st (u_id dbu) = Some (chat, m) ->
       Relay._other_user_id m (u_id dbu) = Some other ->
       find (fun u => u_id u =? other) (USERS st) = Some uo ->
       u_tg_id uo <> 0 ->
       run (Relay.proxy_messages message) st now
       = (Return tt, mkWorld st [] now [CopyMessage (u_tg_id uo)])).
Proof.
  intros st now message user dbu Hu Hd. split.
  - intros A. unfold run, Relay.proxy_messages.
    run_with run_db_user_from_message. rewrite Hu, Hd.
    run_with run_get_active_chat_for_user. now rewrite A.
  - intros chat m other uo A Ho Fo Nz. unfold run, Relay.proxy_messages.
    run_with run_db_user_from_message. rewrite Hu, Hd.
    run_with run_get_active_chat_for_user. rewrite A. rewrite Ho, or_zero_some.
    run_with run_tg_id. rewrite Fo. cbn [option_map].
    unfold Relay.when, truthy_int. rewrite (proj2 (Z.eqb_neq _ _) Nz). reflexivity.
Qed.

Lemma proxy_copies_to_counterpart_only_witness :
  run (Relay.proxy_messages (from_tg 102 (Some "hello"))) one_chat 10
  = (Return tt, mkWorld one_chat [] 10 [CopyMessage 101]).
Proof.
  exact (proj2 (proxy_copies_to_counterpart_only one_chat 10 (from_tg 102 (Some "hello"))
                  (tg 102) (mkUser 2 102 None None None false) eq_refl eq_refl)
               (mkChat 1 1 true (Some 5)) (mkMatch 1 1 2 true) 1
               (mkUser 1 101 None None None false) eq_refl eq_refl eq_refl
               ltac:(discriminate)).
Defined.

(** X10: Asking for the contact exchange.  Without an active chat the user
    is told so.  With one, the requester gets an acknowledgement and
    the approve/reject prompt for that match goes to the counterpart,
    not to the requester. *)
Theorem share_contact_prompts_counterpart :
  forall st now message user dbu,
    from_user message = Some user ->
    find (fun r => u_tg_id r =? tg_user_id user) (USERS st) = Some dbu ->
    (active_chat st (u_id dbu) = None ->
       run (Relay.cmd_share_contact message) st now
       = (Return tt,
          mkWorld st [] now [MessageAnswer "Нет активного чата для обмена контактами."])) /\
    (forall chat m other uo,
       active_chat st (u_id dbu) = Some (chat, m) ->
       Relay._other_user_id m (u_id dbu) = Some other ->
       find (fun u => u_id u =? other) (USERS st) = Some uo ->
       u_tg_id uo <> 0 ->
       run (Relay.cmd_share_contact message) st now
       = (Return tt,
          mkWorld st [] now
            [MessageAnswer "Запрос отправлен. Ожидайте подтверждения собеседника.";
             ContactPrompt (u_tg_id uo) (m_id m)])) /\
    (forall chat m other,
       active_chat st (u_id dbu) = Some (chat, m) ->
       Relay._other_user_id m (u_id dbu) = Some other ->
       find (fun u => u_id u =? other) (USERS st) = None ->
       run (Relay.cmd_share_contact message) st now
       = (Return tt,
          mkWorld st [] now [MessageAnswer "Не удалось связаться с собеседником."])).
Proof.
  intros st now message user dbu Hu Hd. split; [|split].
  - intros A. unfold run, Relay.cmd_share_contact.
    run_with run_db_user_from_message. rewrite Hu, Hd.
    run_with run_get_active_chat_for_user. now rewrite A.
  - intros chat m other uo A Ho Fo Nz. unfold run, Relay.cmd_share_contact.
    run_with run_db_user_from_message. rewrite Hu, Hd.
    run_with run_get_active_chat_for_user. rewrite A. cbv zeta. rewrite Ho, or_zero_some.
    run_with run_tg_id. rewrite Fo. cbn [option_map].
    unfold truthy_int. rewrite (proj2 (Z.eqb_neq _ _) Nz). reflexivity.
  - intros chat m other A Ho Fo. unfold run, Relay.cmd_share_contact.
    run_with run_db_user_from_message. rewrite Hu, Hd.
    run_with run_get_active_chat_for_user. rewrite A. cbv zeta. rewrite Ho, or_zero_some.
    run_with run_tg_id. rewrite Fo. reflexivity.
Qed.

Lemma share_contact_prompts_counterpart_witness :
  run (Relay.cmd_share_contact (from_tg 101 (Some "/share_contact"))) one_chat 10
  = (Return tt,
     mkWorld one_chat [] 10
       [MessageAnswer "Запрос отправлен. Ожидайте подтверждения собеседника.";
        ContactPrompt 102 1]).
Proof.
  exact (proj1 (proj2 (share_contact_prompts_counterpart one_chat 10
                         (from_tg 101 (Some "/share_contact")) (tg 101)
                         (mkUser 1 101 None None None false) eq_refl eq_refl))
               (mkChat 1 1 true (Some 5)) (mkMatch 1 1 2 true) 2
               (mkUser 2 102 None None None false) eq_refl eq_refl eq_refl
               ltac:(discriminate)).
Defined.

(** ** Starting a chat *)

(** X11: Starting a chat when it cannot be done.  A user without active
    match, and a user whose (first fifty) active matches all have an
    active chat already, are told so, and nothing is written: in
    particular no chat is deactivated. *)
Theorem start_chat_refusals_change_nothing :
  forall st now message user dbu,
    from_user message = Some user ->
    find (fun r => u_tg_id r =? tg_user_id user) (USERS st) = Some dbu ->
    (active_matches st (u_id dbu) = [] ->
       run (Relay.cmd_start_chat message) st now
       = (Return tt, mkWorld st [] now [MessageAnswer "Нет активных матчей для начала чата."])) /\
    (active_matches st (u_id dbu) <> [] ->
     (forall m, In m (limit 50 (active_matches st (u_id dbu))) ->
                has_active_chat st (m_id m) = true) ->
       run (Relay.cmd_start_chat message) st now
       = (Return tt,
          mkWorld st [] now
            [MessageAnswer "По всем матчам уже есть активные чаты. Используйте /end_chat, чтобы завершить текущий, и затем /start_chat."])).
Proof.
  intros st now message user dbu Hu Hd. split.
  - intros E. unfold run, Relay.cmd_start_chat.
    run_with run_db_user_from_message. rewrite Hu, Hd.
    unfold Relay._get_matches_for_user. run_with @run_read.
    fold (active_matches st (u_id dbu)). rewrite E. reflexivity.
  - intros Ne Busy. unfold run, Relay.cmd_start_chat.
    run_with run_db_user_from_message. rewrite Hu, Hd.
    unfold Relay._get_matches_for_user. run_with @run_read.
    fold (active_matches st (u_id dbu)).
    destruct (limit 50 (active_matches st (u_id dbu))) as [|m0 ms] eqn:L.
    { destruct (active_matches st (u_id dbu)); [congruence|discriminate]. }
    run_with run_pick_candidate.
    destruct (find _ (m0 :: ms)) as [c|] eqn:F; [|reflexivity].
    apply find_some in F as [Hin Hc]. rewrite (Busy c Hin) in Hc. discriminate.
Qed.

Lemma start_chat_refusals_change_nothing_witness :
  run (Relay.cmd_start_chat (from_tg 101 (Some "/start_chat"))) one_chat 10
  = (Return tt,
     mkWorld one_chat [] 10
       [MessageAnswer "По всем матчам уже есть активные чаты. Используйте /end_chat, чтобы завершить текущий, и затем /start_chat."]).
Proof.
  refine (proj2 (start_chat_refusals_change_nothing one_chat 10
                   (from_tg 101 (Some "/start_chat")) (tg 101)
                   (mkUser 1 101 None None None false) eq_refl eq_refl) _ _).
  - discriminate.
  - intros m [<-|[]]. reflexivity.
Defined.

Lemma limit_le_In {R} (n k : nat) (t : list R) x :
  (n <= k)%nat -> In x (limit n t) -> In x (limit k t).
Proof.
  unfold limit. revert k t. induction n as [|n IH]; intros k t Hle; [intros []|].
  destruct k as [|k]; [lia|]. destruct t as [|y t]; [intros []|]. cbn [firstn].
  intros [->|H]; [now left|right]. apply (IH k t); [lia|exact H].
Qed.

Lemma find_in {R} (p : R -> bool) t x :
  In x t -> p x = true -> exists y, find p t = Some y.
Proof.
  induction t as [|z t IH]; [intros []|]. cbn [find]. intros [->|H] P.
  - rewrite P. eauto.
  - destruct (p z); eauto.
Qed.

Lemma select_deactivated (q1 q2 : Z -> bool) t :
  (forall x, q1 x = true -> q2 x = true) ->
  select (fun c => c_is_active c && q1 (c_match_id c))
         (update (fun c => q2 (c_match_id c) && c_is_active c) Relay.deactivate t) = [].
Proof.
  intros H. unfold select, update. induction t as [|c t IH]; [reflexivity|]. cbn [map filter].
  destruct (q2 (c_match_id c)) eqn:Q2, (c_is_active c) eqn:A; cbn [andb Relay.deactivate];
    cbn [c_is_active c_match_id andb]; rewrite ?A; cbn [andb]; try exact IH.
  destruct (q1 (c_match_id c)) eqn:Q1; [|exact IH]. rewrite (H _ Q1) in Q2. discriminate.
Qed.

(** The chat a successful [cmd_start_chat] opens is the user's current
    active chat afterwards. *)
Lemma active_chat_after_start st now uid candidate :
  In candidate (limit 50 (active_matches st uid)) ->
  NoDup (map m_id (MATCHES st)) ->
  exists chat,
    active_chat (set_CHATS st (chats_after_start st uid candidate now)) uid
    = Some (chat, candidate) /\
    In chat (chats_after_start st uid candidate now) /\
    c_match_id chat = m_id candidate /\ c_is_active chat = true.
Proof.
  intros Hc N. unfold active_chat. cbn [MATCHES CHATS set_CHATS]. cbv zeta.
  fold (active_matches st uid).
  assert (H100 : In candidate (limit 100 (active_matches st uid))).
  { apply (limit_le_In 50 100); [lia|exact Hc]. }
  assert (H200 : In candidate (limit 200 (active_matches st uid))).
  { apply (limit_le_In 50 200); [lia|exact Hc]. }
  set (matches := limit 100 (active_matches st uid)) in *.
  assert (Hmids : In (m_id candidate) (map m_id matches)) by now apply in_map.
  destruct (map m_id matches) as [|i mids] eqn:M; [destruct Hmids|].
  unfold chats_after_start. cbv zeta.
  assert (Sub : forall x, Relay.in_ids (i :: mids) x = true ->
                Relay.in_ids (map m_id (limit 200 (active_matches st uid))) x = true).
  { intros x Hx. unfold Relay.in_ids in *. apply existsb_exists in Hx as [y [Hy E]].
    apply existsb_exists. exists y. split; [|exact E].
    rewrite <- M in Hy. apply in_map_iff in Hy as [m [Em Hm]].
    apply in_map_iff. exists m. split; [exact Em|].
    apply (limit_le_In 100 200); [lia|exact Hm]. }
  apply (in_map m_id) in H200.
  destruct (map m_id (limit 200 (active_matches st uid))) as [|j all] eqn:Mall;
    [destruct H200|].
  set (t := update _ Relay.deactivate (CHATS st)).
  set (new := mkChat (fresh_id c_id t) (m_id candidate) true (Some now)).
  assert (S : select (fun c => c_is_active c && Relay.in_ids (i :: mids) (c_match_id c))
                     (t ++ [new]) = [new]).
  { unfold select. rewrite filter_app.
    fold (select (fun c => c_is_active c && Relay.in_ids (i :: mids) (c_match_id c)) t).
    subst t.
    rewrite (select_deactivated (Relay.in_ids (i :: mids)) (Relay.in_ids (j :: all)) _ Sub).
    cbn [filter app new c_is_active c_match_id andb].
    assert (X : Relay.in_ids (i :: mids) (m_id candidate) = true).
    { unfold Relay.in_ids. apply existsb_exists. exists (m_id candidate).
      split; [exact Hmids|apply Z.eqb_refl]. }
    now rewrite X. }
  rewrite S. cbn [sort_desc insert_desc new c_match_id].
  destruct (find_in (fun m => m_id m =? m_id candidate) matches candidate H100 (Z.eqb_refl _))
    as [y F].
  rewrite F. apply find_some in F as [Hy Ey]. apply Z.eqb_eq in Ey.
  assert (y = candidate).
  { apply (same_id_same_row _ m_id (MATCHES st)); [exact N| | |exact Ey].
    - apply (limit_In _ 100) in Hy. unfold active_matches, select in Hy.
      now apply filter_In in Hy.
    - apply (limit_In _ 50) in Hc. unfold active_matches, select in Hc.
      now apply filter_In in Hc. }
  subst y. exists new. repeat split. apply in_or_app. right. now left.
Qed.

Lemma run_proxy_active st now message user dbu chat m other uo :
  from_user message = Some user ->
  find (fun r => u_tg_id r =? tg_user_id user) (USERS st) = Some dbu ->
  active_chat st (u_id dbu) = Some (chat, m) ->
  Relay._other_user_id m (u_id dbu) = Some other ->
  find (fun u => u_id u =? other) (USERS st) = Some uo ->
  u_tg_id uo <> 0 ->
  run (Relay.proxy_messages message) st now
  = (Return tt, mkWorld st [] now [CopyMessage (u_tg_id uo)]).
Proof.
  intros Hu Hd A Ho Fo Nz. unfold run, Relay.proxy_messages.
  run_with run_db_user_from_message. rewrite Hu, Hd.
  run_with run_get_active_chat_for_user. rewrite A. rewrite Ho, or_zero_some.
  run_with run_tg_id. rewrite Fo. cbn [option_map].
  unfold Relay.when, truthy_int. rewrite (proj2 (Z.eqb_neq _ _) Nz). reflexivity.
Qed.

Lemma run_cmd_end_chat_store st now message user dbu chat m :
  from_user message = Some user ->
  find (fun r => u_tg_id r =? tg_user_id user) (USERS st) = Some dbu ->
  active_chat st (u_id dbu) = Some (chat, m) ->
  store_of (run (Relay.cmd_end_chat message) st now)
  = set_CHATS st (update (fun c => c_id c =? c_id chat) Relay.deactivate (CHATS st)).
Proof.
  intros Hu Hd A. unfold run, store_of, Relay.cmd_end_chat.
  run_with run_db_user_from_message. rewrite Hu, Hd.
  run_with run_get_active_chat_for_user. rewrite A.
  erewrite run_bind; [|erewrite run_try; [reflexivity|apply run_write]].
  cbn [fst snd]. run_with run_tg_id.
  match goal with |- context [bind (Relay.send_to ?g ?x) _ (mkWorld ?s [] now ?t)] =>
    destruct (run_send_to g x s now t) as [e1 S1] end.
  run_with S1.
  match goal with |- context [Relay.send_to ?g ?x (mkWorld ?s [] now ?t)] =>
    destruct (run_send_to g x s now t) as [e2 S2] end.
  now rewrite S2.
Qed.

Lemma chats_after_start_NoDup st uid candidate now :
  NoDup (map c_id (CHATS st)) ->
  NoDup (map c_id (chats_after_start st uid candidate now)).
Proof.
  intros N. unfold chats_after_start. cbv zeta.
  set (t := match map m_id (limit 200 (active_matches st uid)) with
            | [] => CHATS st
            | _ :: _ => update _ Relay.deactivate (CHATS st)
            end).
  assert (Nt : NoDup (map c_id t)).
  { subst t. destruct (map m_id _); [exact N|].
    rewrite map_id_update; [exact N|reflexivity]. }
  rewrite map_app. cbn [map c_id]. apply NoDup_app; [exact Nt|repeat constructor; intros []|].
  intros x Hx [<-|[]]. now apply (fresh_id_not_in _ c_id t).
Qed.

(** X12: After a successful [cmd_start_chat] the relay is open for the user
    who started it: the next message of that user is copied to the
    other user of the chosen match. *)
Theorem start_chat_then_messages_reach_counterpart :
  forall st now now' message message' user dbu candidate other uo,
    from_user message = Some user ->
    from_user message' = Some user ->
    find (fun r => u_tg_id r =? tg_user_id user) (USERS st) = Some dbu ->
    find (fun m => negb (has_active_chat st (m_id m))) (limit 50 (active_matches st (u_id dbu)))
    = Some candidate ->
    NoDup (map m_id (MATCHES st)) ->
    Relay._other_user_id candidate (u_id dbu) = Some other ->
    find (fun u => u_id u =? other) (USERS st) = Some uo ->
    u_tg_id uo <> 0 ->
    let st' := store_of (run (Relay.cmd_start_chat message) st now) in
    run (Relay.proxy_messages message') st' now'
    = (Return tt, mkWorld st' [] now' [CopyMessage (u_tg_id uo)]).
Proof.
  intros st now now' message message' user dbu candidate other uo
         Hu Hu' Hd Hc N Ho Fo Nz st'.
  destruct (run_cmd_start_chat message user dbu candidate st now Hu Hd Hc) as [evs R].
  subst st'. rewrite R. unfold store_of. cbn [snd w_store].
  apply find_some in Hc as [Hin _].
  destruct (active_chat_after_start st now (u_id dbu) candidate Hin N) as [chat [A _]].
  now apply (run_proxy_active _ now' message' user dbu chat candidate other uo).
Qed.

Lemma start_chat_then_messages_reach_counterpart_witness :
  let st' := store_of (run (Relay.cmd_start_chat (from_tg 103 (Some "/start_chat")))
                           two_matches 10) in
  run (Relay.proxy_messages (from_tg 103 (Some "hi"))) st' 11
  = (Return tt, mkWorld st' [] 11 [CopyMessage 102]).
Proof.
  refine (start_chat_then_messages_reach_counterpart two_matches 10 11
            (from_tg 103 (Some "/start_chat")) (from_tg 103 (Some "hi")) (tg 103)
            (mkUser 3 103 None None None false) (mkMatch 2 2 3 true) 2
            (mkUser 2 102 None None None false)
            eq_refl eq_refl eq_refl eq_refl _ eq_refl eq_refl _).
  - repeat constructor; cbn; intuition discriminate.
  - discriminate.
Defined.

(** X13: Starting a chat and then ending it leaves the user who did both
    without any active chat. *)
Theorem start_then_end_leaves_no_active_chat :
  forall st now now' message message' user dbu candidate,
    from_user message = Some user ->
    from_user message' = Some user ->
    find (fun r => u_tg_id r =? tg_user_id user) (USERS st) = Some dbu ->
    find (fun m => negb (has_active_chat st (m_id m))) (limit 50 (active_matches st (u_id dbu)))
    = Some candidate ->
    NoDup (map m_id (MATCHES st)) ->
    NoDup (map c_id (CHATS st)) ->
    (List.length (active_matches st (u_id dbu)) <= 200)%nat ->
    (forall m, In m (MATCHES st) -> Relay.involves (u_id dbu) m = true -> m_is_active m = true) ->
    let st1 := store_of (run (Relay.cmd_start_chat message) st now) in
    let st2 := store_of (run (Relay.cmd_end_chat message') st1 now') in
    active_chats_of st1 (u_id dbu) = 1%nat /\ active_chats_of st2 (u_id dbu) = 0%nat.
Proof.
  intros st now now' message message' user dbu candidate
         Hu Hu' Hd Hc N Nc Hlen Hact st1 st2.
  assert (One : active_chats_of st1 (u_id dbu) = 1%nat).
  { subst st1. now apply (start_chat_bounds_initiator st now message user dbu candidate). }
  split; [exact One|].
  destruct (run_cmd_start_chat message user dbu candidate st now Hu Hd Hc) as [evs R].
  assert (E1 : st1 = set_CHATS st (chats_after_start st (u_id dbu) candidate now)).
  { subst st1. now rewrite R. }
  pose proof Hc as Hc'. apply find_some in Hc' as [Hin _].
  destruct (active_chat_after_start st now (u_id dbu) candidate Hin N)
    as [chat [A [Hchat [Hmid Hactive]]]].
  rewrite <- E1 in A.
  assert (Hd1 : find (fun r => u_tg_id r =? tg_user_id user) (USERS st1) = Some dbu).
  { rewrite E1. exact Hd. }
  assert (E2 : st2 = set_CHATS st1 (update (fun c => c_id c =? c_id chat) Relay.deactivate
                                           (CHATS st1))).
  { subst st2. now apply (run_cmd_end_chat_store st1 now' message' user dbu chat candidate). }
  clearbody st1 st2.
  assert (Hs : S (active_chats_of st2 (u_id dbu)) = active_chats_of st1 (u_id dbu)).
  { rewrite E2. unfold active_chats_of. cbn [CHATS MATCHES set_CHATS].
    apply count_deactivate_one.
    - rewrite E1. cbn [CHATS set_CHATS]. now apply chats_after_start_NoDup.
    - rewrite E1. exact Hchat.
    - rewrite Hactive. cbn [andb]. apply existsb_exists. exists candidate. split.
      + rewrite E1. cbn [MATCHES set_CHATS]. apply limit_In in Hin.
        unfold active_matches, select in Hin. now apply filter_In in Hin.
      + rewrite Hmid, Z.eqb_refl. cbn [andb]. apply limit_In in Hin.
        unfold active_matches, select in Hin. apply filter_In in Hin as [_ P].
        now apply andb_true_iff in P.
    - reflexivity. }
  lia.
Qed.

Lemma start_then_end_leaves_no_active_chat_witness :
  let st1 := store_of (run (Relay.cmd_start_chat (from_tg 103 (Some "/start_chat")))
                           two_matches 10) in
  let st2 := store_of (run (Relay.cmd_end_chat (from_tg 103 (Some "/end_chat"))) st1 20) in
  active_chats_of st1 3 = 1%nat /\ active_chats_of st2 3 = 0%nat.
Proof.
  refine (start_then_end_leaves_no_active_chat two_matches 10 20
            (from_tg 103 (Some "/start_chat")) (from_tg 103 (Some "/end_chat")) (tg 103)
            (mkUser 3 103 None None None false) (mkMatch 2 2 3 true)
            eq_refl eq_refl eq_refl eq_refl _ _ _ _).
  - repeat constructor; cbn; intuition discriminate.
  - constructor.
  - cbn. lia.
  - intros m [<-|[<-|[]]]; reflexivity.
Defined.

(** ** Browsing *)

Lemma run_show_profile dbu p st now tr :
  Feed._show_profile dbu p (W st now tr)
  = (Return tt,
     W (set_VIEWED_PROFILES st
          (VIEWED_PROFILES st
           ++ [mkViewedProfile (fresh_id v_id (VIEWED_PROFILES st)) (u_id dbu) (p_id p) now]))
       now
       (tr ++ [ProfileCard (with_photo p) (p_id p)])).
Proof.
  unfold Feed._show_profile.
  erewrite run_bind.
  2:{ instantiate (1 := W st now (tr ++ [ProfileCard (with_photo p) (p_id p)])).
      instantiate (1 := tt). unfold with_photo.
      destruct (p_photos p); [apply run_send|].
      erewrite run_try; [reflexivity|apply run_send]. }
  erewrite run_try; [reflexivity|]. unfold mark_profile_viewed.
  erewrite run_try; [reflexivity|]. apply run_write.
Qed.

(** The profile the selector returns when the store answers. *)
Lemma selected_passes st now dbu q :
  match sort_desc Feed.boost_lt (boosted_pool st now dbu) with
  | b :: _ => Some b
  | [] => first_row (sort_desc Feed.created_lt (recency_pool st now dbu))
  end = Some q ->
  In q (PROFILES st) /\ viewer_filter st now dbu q = true.
Proof.
  destruct (sort_desc Feed.boost_lt (boosted_pool st now dbu)) as [|b l] eqn:S.
  - destruct (sort_desc Feed.created_lt (recency_pool st now dbu)) as [|h l] eqn:S2;
      [discriminate|]. intros E. injection E as ->.
    assert (H : In q (sort_desc Feed.created_lt (recency_pool st now dbu)))
      by (rewrite S2; now left).
    apply sort_desc_In in H. unfold recency_pool, select in H. now apply filter_In in H.
  - intros E. injection E as ->.
    assert (H : In q (sort_desc Feed.boost_lt (boosted_pool st now dbu)))
      by (rewrite S; now left).
    apply sort_desc_In in H. unfold boosted_pool, select in H.
    apply filter_In in H as [H P]. apply andb_true_iff in P as [P _]. auto.
Qed.

Lemma run_cmd_feed st now message user dbu :
  from_user message = Some user ->
  find (fun r => u_tg_id r =? tg_user_id user) (USERS st) = Some dbu ->
  run (Feed.cmd_feed message) st now
  = match returned (run (Feed._fetch_next_profile dbu) st now) with
    | Some (Some p) => Feed._show_profile dbu p (W st now [])
    | _ => (Return tt,
            W st now [MessageAnswer "Подходящих анкет не найдено. Попробуйте позже."])
    end.
Proof.
  intros Hu Hd. unfold run, Feed.cmd_feed, Feed._get_db_user. rewrite Hu.
  run_with run_get_user_by_tg_id. rewrite Hd.
  run_with run_fetch_next_profile. unfold returned. rewrite run_fetch_next_profile.
  cbn [fst]. destruct (match sort_desc Feed.boost_lt _ with [] => _ | _ :: _ => _ end);
    reflexivity.
Qed.

(** X14: A profile that was shown is not shown again to the same viewer
    within two days. *)
Theorem shown_profile_not_reshown_within_two_days :
  forall st t1 t2 message user dbu i b,
    from_user message = Some user ->
    find (fun r => u_tg_id r =? tg_user_id user) (USERS st) = Some dbu ->
    In (ProfileCard b i) (events_of (run (Feed.cmd_feed message) st t1)) ->
    t2 - days 2 <= t1 ->
    forall b',
      ~ In (ProfileCard b' i)
           (events_of (run (Feed.cmd_feed message)
                           (store_of (run (Feed.cmd_feed message) st t1)) t2)).
Proof.
  intros st t1 t2 message user dbu i b Hu Hd Hshown Hwin b'.
  rewrite (run_cmd_feed st t1 message user dbu Hu Hd) in *.
  unfold returned, run in *. rewrite run_fetch_next_profile in *. cbn [fst] in *.
  destruct (match sort_desc Feed.boost_lt (boosted_pool st t1 dbu) with
            | [] => _ | _ :: _ => _ end) as [p|] eqn:Sel.
  2:{ cbn in Hshown. destruct Hshown as [H|[]]. discriminate H. }
  rewrite run_show_profile in *. unfold events_of, store_of in *. cbn [snd w_trace w_store] in *.
  cbn [app] in Hshown. destruct Hshown as [H|[]]. injection H as _ Hi.
  set (st1 := set_VIEWED_PROFILES st _).
  assert (Hd1 : find (fun r => u_tg_id r =? tg_user_id user) (USERS st1) = Some dbu)
    by exact Hd.
  pose proof (run_cmd_feed st1 t2 message user dbu Hu Hd1) as R2. unfold run in R2.
  rewrite R2. unfold returned. rewrite run_fetch_next_profile. cbn [fst].
  destruct (match sort_desc Feed.boost_lt (boosted_pool st1 t2 dbu) with
            | [] => _ | _ :: _ => _ end) as [q|] eqn:Sel2.
  2:{ cbn. intros [H|[]]. discriminate H. }
  rewrite run_show_profile. cbn [snd w_trace app]. intros [H|[]]. injection H as _ Hq.
  apply selected_passes in Sel2 as [_ Pq]. apply common_filters_exclude in Pq. apply Pq.
  unfold recently_viewed. rewrite Hq, <- Hi.
  change (p_id p) with (v_profile_id (mkViewedProfile (fresh_id v_id (VIEWED_PROFILES st))
                                                      (u_id dbu) (p_id p) t1)).
  apply in_map. unfold select. apply filter_In. split.
  - subst st1. cbn [VIEWED_PROFILES set_VIEWED_PROFILES]. apply in_or_app. right. now left.
  - cbn [v_user_id v_viewed_at]. rewrite Z.eqb_refl. cbn [andb]. now apply Z.leb_le.
Qed.

Lemma shown_profile_not_reshown_within_two_days_witness :
  In (ProfileCard false 3) (events_of (run (Feed.cmd_feed (from_tg 101 (Some "/feed"))) paris 1000)) /\
  ~ In (ProfileCard false 3)
       (events_of (run (Feed.cmd_feed (from_tg 101 (Some "/feed")))
                       (store_of (run (Feed.cmd_feed (from_tg 101 (Some "/feed"))) paris 1000))
                       1010)).
Proof.
  split; [now left|].
  refine (shown_profile_not_reshown_within_two_days paris 1000 1010
            (from_tg 101 (Some "/feed")) (tg 101) (mkUser 1 101 None None None false)
            3 false eq_refl eq_refl _ _ false).
  - now left.
  - cbn. lia.
Defined.

Lemma opt_str_eqb_eq a b : opt_str_eqb a (Some b) = true -> a = Some b.
Proof.
  destruct a as [x|]; cbn; [|discriminate]. intros H. apply String.eqb_eq in H. now subst.
Qed.

(** X15: What the selector never returns: the viewer's own profile, a
    profile that is not active, a profile of the viewer's own gender
    when the viewer is male or female, and a profile of another city
    when the viewer's city is known. *)
Theorem feed_selector_respects_common_filters :
  forall st now dbu p,
    returned (run (Feed._fetch_next_profile dbu) st now) = Some (Some p) ->
    In p (PROFILES st) /\
    p_is_active p = true /\
    p_user_id p <> u_id dbu /\
    (forall mine,
        find (fun q => p_user_id q =? u_id dbu) (PROFILES st) = Some mine ->
        (p_gender mine = Some "male" -> p_gender p = Some "female") /\
        (p_gender mine = Some "female" -> p_gender p = Some "male") /\
        (forall c, p_city mine = Some c -> c <> "" -> p_city p = Some c)).
Proof.
  intros st now dbu p H. unfold returned, run in H. rewrite run_fetch_next_profile in H.
  cbn [fst] in H. injection H as H. apply selected_passes in H as [Hin P].
  unfold viewer_filter, Feed._apply_common_filters in P.
  repeat (apply andb_true_iff in P as [P ?]).
  split; [exact Hin|]. split; [exact P|]. split.
  { intros E. rewrite E, Z.eqb_refl in *. discriminate. }
  intros mine F. rewrite F in *. split; [|split].
  - intros G. rewrite G in *. cbn in *. now apply opt_str_eqb_eq.
  - intros G. rewrite G in *. cbn in *. now apply opt_str_eqb_eq.
  - intros c C Ne. rewrite C in *. cbn [truthy_str] in *.
    rewrite (proj2 (String.eqb_neq c "") Ne) in *. cbn [negb] in *.
    now apply opt_str_eqb_eq.
Qed.

Lemma feed_selector_respects_common_filters_witness :
  p_gender (mkProfile 3 3 (Some "Eve") (Some "female") (Some 26) (Some "Paris") []
                      (Some "c") true (Some 4600) 200) = Some "female".
Proof.
  refine (proj1 (proj2 (proj2 (proj2
            (feed_selector_respects_common_filters paris 1000
               (mkUser 1 101 None None None false) _ eq_refl)))
            (mkProfile 1 1 (Some "Max") (Some "male") (Some 25) (Some "Paris") [] (Some "a")
                       true None 100) eq_refl) eq_refl).
Defined.

(** X16: The recency pool.  The selector reports that nothing is available
    exactly when no profile passes the viewer's common filters; and
    when no passing profile has a live boost, the profile it returns
    is a passing one with the latest created_at. *)
Theorem feed_selector_falls_back_to_recency :
  forall st now dbu,
    (returned (run (Feed._fetch_next_profile dbu) st now) = Some None <->
     forall q, In q (PROFILES st) -> viewer_filter st now dbu q = false) /\
    ((forall q, In q (PROFILES st) -> viewer_filter st now dbu q = true ->
                Feed.boost_live now q = false) ->
     forall p,
       returned (run (Feed._fetch_next_profile dbu) st now) = Some (Some p) ->
       forall q, In q (PROFILES st) -> viewer_filter st now dbu q = true ->
                 p_created_at q <= p_created_at p).
Proof.
  intros st now dbu. unfold returned, run. rewrite run_fetch_next_profile. cbn [fst].
  split.
  - split.
    + intros H q Hq. destruct (viewer_filter st now dbu q) eqn:P; [|reflexivity].
      exfalso.
      destruct (sort_desc Feed.boost_lt (boosted_pool st now dbu)) as [|b l]; [|discriminate].
      destruct (sort_desc Feed.created_lt (recency_pool st now dbu)) as [|h l] eqn:S2;
        [|discriminate].
      apply sort_desc_nil in S2.
      assert (X : In q (recency_pool st now dbu)).
      { unfold recency_pool, select. apply filter_In. auto. }
      rewrite S2 in X. destruct X.
    + intros H.
      destruct (sort_desc Feed.boost_lt (boosted_pool st now dbu)) as [|b l] eqn:S.
      * destruct (sort_desc Feed.created_lt (recency_pool st now dbu)) as [|h l] eqn:S2;
          [reflexivity|].
        assert (X : In h (sort_desc Feed.created_lt (recency_pool st now dbu)))
          by (rewrite S2; now left).
        apply sort_desc_In in X. unfold recency_pool, select in X.
        apply filter_In in X as [X P]. rewrite (H h X) in P. discriminate.
      * assert (X : In b (sort_desc Feed.boost_lt (boosted_pool st now dbu)))
          by (rewrite S; now left).
        apply sort_desc_In in X. unfold boosted_pool, select in X.
        apply filter_In in X as [X P]. rewrite (H b X) in P. discriminate.
  - intros NoBoost p H q Hq Pq.
    destruct (sort_desc Feed.boost_lt (boosted_pool st now dbu)) as [|b l] eqn:S.
    + destruct (sort_desc Feed.created_lt (recency_pool st now dbu)) as [|h l] eqn:S2;
        [discriminate|]. injection H as ->.
      destruct (sort_desc_head _ p_created_at Feed.created_lt (fun _ _ => eq_refl) _ _ _ S2)
        as [_ Hmax].
      apply Hmax. unfold recency_pool, select. apply filter_In. auto.
    + exfalso.
      assert (X : In b (sort_desc Feed.boost_lt (boosted_pool st now dbu)))
        by (rewrite S; now left).
      apply sort_desc_In in X. unfold boosted_pool, select in X.
      apply filter_In in X as [X P]. apply andb_true_iff in P as [P B].
      rewrite (NoBoost b X P) in B. discriminate.
Qed.

(** X17: Showing a card.  The view is recorded although the photo could not
    be sent (the card then goes out as text); and when the view cannot
    be recorded the card has still been shown, the failure is logged,
    and the handler ends normally with the store unchanged. *)
Theorem show_profile_records_view_best_effort :
  forall st now dbu p,
    let viewed := set_VIEWED_PROFILES st
                    (VIEWED_PROFILES st
                     ++ [mkViewedProfile (fresh_id v_id (VIEWED_PROFILES st))
                                         (u_id dbu) (p_id p) now]) in
    run (Feed._show_profile dbu p) st now
    = (Return tt, mkWorld viewed [] now [ProfileCard (with_photo p) (p_id p)]) /\
    (with_photo p = true ->
     Feed._show_profile dbu p (mkWorld st [false] now [])
     = (Return tt, mkWorld viewed [] now [ProfileCard false (p_id p)])) /\
    Feed._show_profile dbu p (mkWorld st [true; false] now [])
    = (Return tt,
       mkWorld st [] now
         [ProfileCard (with_photo p) (p_id p);
          LogWarning "Failed to insert ViewedProfiles record"]).
Proof.
  intros st now dbu p viewed. split; [|split].
  - apply (run_show_profile dbu p st now []).
  - unfold with_photo, Feed._show_profile. destruct (p_photos p) as [|x l]; [discriminate|].
    intros _. reflexivity.
  - unfold with_photo, Feed._show_profile. destruct (p_photos p) as [|x l]; reflexivity.
Qed.

(** ** Likes *)

Lemma existsb_update_stable {R} (p q : R -> bool) (g : R -> R) t :
  (forall x, q x = true -> p (g x) = p x) ->
  existsb p (update q g t) = existsb p t.
Proof.
  intros H. unfold update. induction t as [|x t IH]; [reflexivity|]. cbn [map existsb].
  rewrite IH. destruct (q x) eqn:Q; [now rewrite (H x Q)|reflexivity].
Qed.

Lemma likes_upsert_other_pair a b msg vid t :
  a <> b ->
  existsb (Feed.same_pair b a) (Feed.likes_upsert a b msg vid t)
  = existsb (Feed.same_pair b a) t.
Proof.
  intros Hab. unfold Feed.likes_upsert.
  assert (X : forall i, Feed.same_pair b a (mkLike i a b msg vid) = false).
  { intros i. unfold Feed.same_pair. cbn. rewrite (proj2 (Z.eqb_neq a b) Hab). reflexivity. }
  destruct (existsb (Feed.same_pair a b) t).
  - apply existsb_update_stable. intros x Q. rewrite X.
    unfold Feed.same_pair in *. apply andb_true_iff in Q as [Q1 Q2].
    apply Z.eqb_eq in Q1, Q2. rewrite Q1, Q2.
    rewrite (proj2 (Z.eqb_neq a b) Hab). reflexivity.
  - rewrite existsb_app. cbn [existsb]. rewrite X. now rewrite !orb_false_r.
Qed.

Lemma likes_upsert_payload a b msg vid t l :
  In l (Feed.likes_upsert a b msg vid t) -> Feed.same_pair a b l = true ->
  l_message l = msg /\ l_video_url l = vid.
Proof.
  unfold Feed.likes_upsert. destruct (existsb (Feed.same_pair a b) t) eqn:E.
  - unfold update. intros H P. apply in_map_iff in H as [x [Hx _]].
    destruct (Feed.same_pair a b x) eqn:Q; subst l; [now split|congruence].
  - intros H P. apply in_app_iff in H as [H|[<-|[]]]; [|now split].
    exfalso. assert (X : existsb (Feed.same_pair a b) t = true).
    { apply existsb_exists. now exists l. }
    congruence.
Qed.

(** X18: A like that is not answered creates no match: when the target has
    not liked the user before, or the user likes himself, the Like row
    is stored and the Matches table stays as it was. *)
Theorem unanswered_like_creates_no_match :
  forall st now dbu to tg msg vid txt,
    to = u_id dbu \/ existsb (Feed.same_pair to (u_id dbu)) (LIKES st) = false ->
    let st' := store_of (run (Feed.like dbu to tg msg vid txt) st now) in
    MATCHES st' = MATCHES st /\
    existsb (Feed.same_pair (u_id dbu) to) (LIKES st') = true.
Proof.
  intros st now dbu to tg msg vid txt H st'. subst st'. unfold run, store_of.
  destruct (run_like dbu to tg msg vid txt st now []) as [evs R]. rewrite R.
  cbn [snd w_store]. split.
  - rewrite MATCHES_liked_back. cbn [LIKES MATCHES set_LIKES].
    destruct (Z.eq_dec to (u_id dbu)) as [E|E].
    + subst to. unfold matches_after. rewrite Z.eqb_refl.
      destruct (existsb _ (Feed.likes_upsert _ _ _ _ _)); reflexivity.
    + destruct H as [H|H]; [congruence|].
      rewrite likes_upsert_other_pair by congruence. now rewrite H.
  - rewrite LIKES_liked_back. cbn [LIKES set_LIKES]. apply likes_upsert_has.
Qed.

Lemma unanswered_like_creates_no_match_witness :
  existsb (Feed.same_pair 3 2) (LIKES liked) = false /\
  MATCHES (store_of (run (Feed.like (mkUser 2 102 None None None false) 3 (Some 102)
                                    None None None) liked 10)) = [].
Proof.
  split; [reflexivity|].
  exact (proj1 (unanswered_like_creates_no_match liked 10
                  (mkUser 2 102 None None None false) 3 (Some 102) None None None
                  (or_intror eq_refl))).
Defined.

(** X19: What a like does to Likes and Matches does not depend on the Users
    table: in particular the blocked flag of neither user is looked at,
    and a blocked user likes and is matched like anyone else. *)
Theorem like_does_not_read_users :
  forall st now dbu to tg msg vid txt (users : list User),
    let r := run (Feed.like dbu to tg msg vid txt) st now in
    let r' := run (Feed.like dbu to tg msg vid txt) (set_USERS st users) now in
    fst r = Return tt /\ fst r' = Return tt /\
    LIKES (store_of r') = LIKES (store_of r) /\
    MATCHES (store_of r') = MATCHES (store_of r) /\
    USERS (store_of r') = users.
Proof.
  intros st now dbu to tg msg vid txt users r r'. subst r r'. unfold run, store_of.
  destruct (run_like dbu to tg msg vid txt st now []) as [evs R]. rewrite R.
  destruct (run_like dbu to tg msg vid txt (set_USERS st users) now []) as [evs' R'].
  rewrite R'. cbn [fst snd w_store].
  rewrite !LIKES_liked_back, !MATCHES_liked_back. cbn [LIKES MATCHES set_LIKES set_USERS].
  repeat split.
  unfold liked_back, match_created.
  destruct (existsb (Feed.same_pair to (u_id dbu)) _); [|reflexivity].
  destruct (_ || _); reflexivity.
Qed.

Lemma run_get_db_user message user st now tr :
  from_user message = Some user ->
  Feed._get_db_user message (W st now tr)
  = (Return (find (fun r => u_tg_id r =? tg_user_id user) (USERS st)), W st now tr).
Proof. intros H. unfold Feed._get_db_user. rewrite H. apply run_get_user_by_tg_id. Qed.

(** X20: A like with a message.  Without a target in the dialogue state, or
    with a text that is empty after trimming, the handler answers that
    the message cannot be empty and stores nothing.  Otherwise the
    Like rows of the pair carry the trimmed text and no video, the
    dialogue state is cleared and the user is told the like was sent. *)
Theorem like_with_message_needs_text :
  forall st now message user dbu target,
    from_user message = Some user ->
    find (fun r => u_tg_id r =? tg_user_id user) (USERS st) = Some dbu ->
    let text := strip (or_empty (msg_text message)) in
    (target = None \/ target = Some 0 \/ text = "" ->
       run (Feed.like_with_message message target) st now
       = (Return tt, mkWorld st [] now [MessageAnswer "Сообщение не может быть пустым."])) /\
    (forall to,
       target = Some to -> to <> 0 -> text <> "" ->
       exists st' evs,
         run (Feed.like_with_message message target) st now
         = (Return tt,
            mkWorld st' [] now
              (evs ++ [FsmClear; MessageAnswer "Лайк с сообщением отправлен."])) /\
         existsb (Feed.same_pair (u_id dbu) to) (LIKES st') = true /\
         forall l, In l (LIKES st') -> Feed.same_pair (u_id dbu) to l = true ->
                   l_message l = Some text /\ l_video_url l = None).
Proof.
  intros st now message user dbu target Hu Hd text. split.
  - intros H. unfold run, Feed.like_with_message.
    run_with (run_get_db_user message user st now [] Hu). rewrite Hd. fold text.
    destruct target as [to|]; [|reflexivity].
    destruct H as [H|[H|H]]; [discriminate| |].
    + injection H as ->. reflexivity.
    + rewrite H. cbn [String.eqb]. now rewrite orb_true_r.
  - intros to -> Nz Ne. unfold run, Feed.like_with_message.
    run_with (run_get_db_user message user st now [] Hu). rewrite Hd. fold text.
    unfold truthy_int. rewrite (proj2 (Z.eqb_neq _ _) Nz).
    rewrite (proj2 (String.eqb_neq _ _) Ne). cbn [negb orb].
    destruct (run_like dbu to (from_id message) (Some text) None (Some text) st now [])
      as [evs R].
    cbn [app] in R. run_with R.
    match type of R with _ = (_, mkWorld ?s _ _ _) => exists s end.
    exists evs. split.
    { erewrite run_bind; [|reflexivity]. rewrite run_send. cbn [w_trace].
      now rewrite <- app_assoc. }
    rewrite LIKES_liked_back. cbn [LIKES set_LIKES]. split; [apply likes_upsert_has|].
    intros l Hl P. now apply (likes_upsert_payload (u_id dbu) to _ _ (LIKES st)).
Qed.

Lemma like_with_message_needs_text_witness :
  run (Feed.like_with_message (from_tg 101 (Some "   ")) (Some 2)) liked 10
  = (Return tt, mkWorld liked [] 10 [MessageAnswer "Сообщение не может быть пустым."]).
Proof.
  exact (proj1 (like_with_message_needs_text liked 10 (from_tg 101 (Some "   ")) (tg 101)
                  (mkUser 1 101 None None None false) (Some 2) eq_refl eq_refl)
               (or_intror (or_intror eq_refl))).
Defined.

(** X21: A like with a video.  When the clip cannot be downloaded, or the
    media store refuses the upload, the user is told so and no Like is
    stored; otherwise the Like rows of the pair carry the URL the media
    store returned and no text. *)
Theorem like_with_video_needs_upload :
  forall (upload_video : string -> option string) st now message user dbu to content,
    from_user message = Some user ->
    find (fun r => u_tg_id r =? tg_user_id user) (USERS st) = Some dbu ->
    to <> 0 ->
    msg_video message = Some content ->
    content <> "" ->
    Feed.like_with_video upload_video message (Some to) (mkWorld st [true; false] now [])
    = (Return tt,
       mkWorld st [] now
         [LogWarning "Failed to download video";
          MessageAnswer "Не удалось получить видео. Попробуйте ещё раз отправить видео."]) /\
    Feed.like_with_video upload_video message (Some to) (mkWorld st [true; true; false] now [])
    = (Return tt,
       mkWorld st [] now
         [LogWarning "Cloudinary video upload error";
          MessageAnswer "Ошибка загрузки видео. Попробуйте позже."]) /\
    exists st' evs,
      run (Feed.like_with_video upload_video message (Some to)) st now
      = (Return tt,
         mkWorld st' [] now (evs ++ [FsmClear; MessageAnswer "Лайк с видео отправлен."])) /\
      existsb (Feed.same_pair (u_id dbu) to) (LIKES st') = true /\
      forall l, In l (LIKES st') -> Feed.same_pair (u_id dbu) to l = true ->
                l_message l = None /\ l_video_url l = upload_video content.
Proof.
  intros upload_video st now message user dbu to content Hu Hd Nz Hv Ne.
  assert (T : truthy_str (Some content) = true).
  { unfold truthy_str. now rewrite (proj2 (String.eqb_neq _ _) Ne). }
  split; [|split].
  - unfold Feed.like_with_video, Feed._get_db_user. rewrite Hu.
    unfold get_user_by_tg_id. erewrite run_bind; [|erewrite run_bind; [|apply read_true]].
    2:{ unfold ret. rewrite first_limit_select. reflexivity. }
    rewrite Hd. unfold truthy_int. rewrite (proj2 (Z.eqb_neq _ _) Nz). cbn [negb].
    unfold Feed._download_video_bytes. rewrite Hv. reflexivity.
  - unfold Feed.like_with_video, Feed._get_db_user. rewrite Hu.
    unfold get_user_by_tg_id. erewrite run_bind; [|erewrite run_bind; [|apply read_true]].
    2:{ unfold ret. rewrite first_limit_select. reflexivity. }
    rewrite Hd. unfold truthy_int. rewrite (proj2 (Z.eqb_neq _ _) Nz). cbn [negb].
    unfold Feed._download_video_bytes. rewrite Hv.
    erewrite run_bind; [|reflexivity]. rewrite T. reflexivity.
  - unfold run, Feed.like_with_video.
    run_with (run_get_db_user message user st now [] Hu). rewrite Hd.
    unfold truthy_int. rewrite (proj2 (Z.eqb_neq _ _) Nz). cbn [negb].
    unfold Feed._download_video_bytes. rewrite Hv.
    erewrite run_bind; [|reflexivity]. rewrite T. cbn [negb].
    erewrite run_bind; [|reflexivity]. cbn [or_empty].
    destruct (run_like dbu to (from_id message) None (upload_video content) (Some "[видео]")
                       st now []) as [evs R].
    cbn [app] in R. run_with R.
    match type of R with _ = (_, mkWorld ?s _ _ _) => exists s end.
    exists evs. split.
    { erewrite run_bind; [|reflexivity]. rewrite run_send. cbn [w_trace].
      now rewrite <- app_assoc. }
    rewrite LIKES_liked_back. cbn [LIKES set_LIKES]. split; [apply likes_upsert_has|].
    intros l Hl P. now apply (likes_upsert_payload (u_id dbu) to _ _ (LIKES st)).
Qed.

Lemma like_with_video_needs_upload_witness :
  Feed.like_with_video (fun _ => Some "https://v/1")
    (mkMessage (Some (tg 101)) None (Some "clip")) (Some 2)
    (mkWorld liked [true; true; false] 10 [])
  = (Return tt,
     mkWorld liked [] 10
       [LogWarning "Cloudinary video upload error";
        MessageAnswer "Ошибка загрузки видео. Попробуйте позже."]).
Proof.
  refine (proj1 (proj2 (like_with_video_needs_upload (fun _ => Some "https://v/1") liked 10
                          (mkMessage (Some (tg 101)) None (Some "clip")) (tg 101)
                          (mkUser 1 101 None None None false) 2 "clip"
                          eq_refl eq_refl _ eq_refl _))); discriminate.
Defined.

(** ** Users *)

Lemma update_fixed {R} (q : R -> bool) (g : R -> R) t :
  (forall x, In x t -> q x = true -> g x = x) -> update q g t = t.
Proof.
  unfold update. induction t as [|x t IH]; cbn [map]; intros H; [reflexivity|].
  rewrite IH by (intros y Hy; apply H; now right).
  destruct (q x) eqn:Q; [now rewrite (H x (or_introl eq_refl) Q)|reflexivity].
Qed.

Lemma users_upsert_idem tg a b c t :
  users_upsert tg a b c (users_upsert tg a b c t) = users_upsert tg a b c t.
Proof.
  unfold users_upsert at 1.
  assert (E : existsb (fun u => u_tg_id u =? tg) (users_upsert tg a b c t) = true).
  { rewrite find_existsb. destruct (find_users_upsert tg a b c t) as [u [F _]]. now rewrite F. }
  rewrite E. apply update_fixed. intros x Hx Q. apply Z.eqb_eq in Q.
  unfold users_upsert in Hx. destruct (existsb _ t) eqn:Ex.
  - unfold update in Hx. apply in_map_iff in Hx as [y [Ey _]].
    destruct (u_tg_id y =? tg) eqn:Qy; subst x; [reflexivity|].
    apply Z.eqb_neq in Qy. congruence.
  - apply in_app_iff in Hx as [Hx|[<-|[]]]; [|reflexivity].
    assert (existsb (fun u => u_tg_id u =? tg) t = true); [|congruence].
    apply existsb_exists. exists x. split; [exact Hx|now apply Z.eqb_eq].
Qed.

Lemma users_upsert_others tg a b c t :
  select (fun u => negb (u_tg_id u =? tg)) (users_upsert tg a b c t)
  = select (fun u => negb (u_tg_id u =? tg)) t.
Proof.
  unfold users_upsert, select, update. destruct (existsb _ t).
  - induction t as [|x t IH]; cbn [map filter]; [reflexivity|].
    destruct (u_tg_id x =? tg) eqn:Q; cbn [u_tg_id]; [rewrite Z.eqb_refl|rewrite Q];
      cbn [negb]; now rewrite IH.
  - rewrite filter_app. cbn [filter u_tg_id]. rewrite Z.eqb_refl. cbn [negb].
    apply app_nil_r.
Qed.

(** X22: [upsert_user_basic] followed by [get_user_by_tg_id] finds the row
    with the given names; an existing row keeps its id and its blocked
    flag, a new one gets a fresh id and is not blocked; rows of other
    Telegram ids are untouched and a second upsert changes nothing. *)
Theorem upsert_user_then_lookup :
  forall tg a b c st now,
    let r := run (upsert_user_basic tg a b c ;; get_user_by_tg_id tg) st now in
    let old := find (fun u => u_tg_id u =? tg) (USERS st) in
    returned r =
      Some (Some (mkUser (match old with Some u => u_id u | None => fresh_id u_id (USERS st) end)
                         tg a b c
                         (match old with Some u => u_is_blocked u | None => false end))) /\
    select (fun u => negb (u_tg_id u =? tg)) (USERS (store_of r))
      = select (fun u => negb (u_tg_id u =? tg)) (USERS st) /\
    List.length (USERS (store_of r))
      = (match old with Some _ => 0 | None => 1 end + List.length (USERS st))%nat /\
    store_of (run (upsert_user_basic tg a b c ;; upsert_user_basic tg a b c) st now) = store_of r.
Proof.
  intros tg a b c st now r old. subst r old. unfold run.
  erewrite run_bind; [|apply run_write]. cbn [fst snd].
  rewrite run_get_user_by_tg_id. unfold returned, store_of. cbn [fst snd w_store].
  cbn [USERS set_USERS].
  erewrite (run_bind (upsert_user_basic tg a b c)); [|apply run_write]. cbn [fst snd].
  unfold upsert_user_basic at 1. rewrite run_write. cbn [fst snd w_store].
  repeat split.
  - unfold users_upsert. rewrite find_existsb.
    destruct (find (fun u => u_tg_id u =? tg) (USERS st)) as [u|] eqn:F.
    + rewrite find_update_same, F; [reflexivity|intros x _; cbn; apply Z.eqb_refl].
    + rewrite find_app, F. cbn. now rewrite Z.eqb_refl.
  - apply users_upsert_others.
  - unfold users_upsert. rewrite find_existsb.
    destruct (find (fun u => u_tg_id u =? tg) (USERS st)).
    + unfold update. now rewrite length_map.
    + rewrite length_app. cbn. lia.
  - cbn [USERS set_USERS]. rewrite users_upsert_idem.
    destruct st; reflexivity.
Qed.

(** ** Administrators *)

Lemma replace_semicolons_app a b :
  Config.replace_semicolons (a ++ b)
  = (Config.replace_semicolons a ++ Config.replace_semicolons b)%string.
Proof. induction a as [|c a IH]; cbn; [reflexivity|now rewrite IH]. Qed.

Lemma split_all_cons sep x : exists h t, Config.split_all sep x = h :: t.
Proof.
  induction x as [|c x [h [t IH]]]; cbn [Config.split_all]; [now eexists; eexists|].
  rewrite IH. destruct (Ascii.eqb c sep); now eexists; eexists.
Qed.

Lemma split_all_app sep x y :
  Config.split_all sep (x ++ String sep y)
  = (Config.split_all sep x ++ Config.split_all sep y)%list.
Proof.
  induction x as [|c x IH]; cbn [append Config.split_all].
  - now rewrite Ascii.eqb_refl.
  - rewrite IH. destruct (Ascii.eqb c sep); [reflexivity|].
    destruct (split_all_cons sep x) as [h [t ->]]. reflexivity.
Qed.

Lemma parse_admin_ids_parts v :
  Config._parse_admin_ids (Some v)
  = flat_map Config.admin_id_of_part (Config.split_all "," (Config.replace_semicolons v)).
Proof. unfold Config._parse_admin_ids. destruct v; reflexivity. Qed.

Lemma parse_admin_ids_app a b sep :
  sep = ","%char \/ sep = ";"%char ->
  Config._parse_admin_ids (Some (a ++ String sep b))
  = (Config._parse_admin_ids (Some a) ++ Config._parse_admin_ids (Some b))%list.
Proof.
  intros Hs. rewrite !parse_admin_ids_parts, replace_semicolons_app.
  cbn [Config.replace_semicolons].
  replace (if Ascii.eqb sep ";" then ","%char else sep) with ","%char
    by (destruct Hs; subst sep; reflexivity).
  now rewrite split_all_app, flat_map_app.
Qed.

Lemma num_char_plain c : num_char c = true -> plain_char c = true.
Proof. destruct c as [[] [] [] [] [] [] [] []]; intros H; try reflexivity; discriminate H. Qed.

Lemma num_char_no_sep c :
  num_char c = true -> Ascii.eqb c "," = false /\ Ascii.eqb c ";" = false.
Proof. destruct c as [[] [] [] [] [] [] [] []]; intros H; try (split; reflexivity); discriminate H. Qed.

Lemma uint_num d : all_chars num_char (NilEmpty.string_of_uint d) = true.
Proof. induction d; cbn [NilEmpty.string_of_uint all_chars]; [reflexivity|..]; exact IHd. Qed.

Lemma str_of_Z_num z : all_chars num_char (str_of_Z z) = true.
Proof.
  unfold str_of_Z. destruct (Z.to_int z) as [d|d]; cbn [NilZero.string_of_int].
  - destruct d; [reflexivity|..]; apply (uint_num (_ d)) || apply uint_num.
  - cbn [all_chars]. destruct d; [reflexivity|..]; apply uint_num.
Qed.

Lemma split_all_num s :
  all_chars num_char s = true ->
  Config.split_all "," (Config.replace_semicolons s) = [s].
Proof.
  induction s as [|c s IH]; [reflexivity|]. cbn [all_chars]. intros H.
  apply andb_true_iff in H as [Hc Hs]. cbn [Config.replace_semicolons Config.split_all].
  destruct (num_char_no_sep c Hc) as [E1 E2]. rewrite E2, E1, (IH Hs). reflexivity.
Qed.

Lemma all_chars_impl (p q : ascii -> bool) s :
  (forall c, p c = true -> q c = true) -> all_chars p s = true -> all_chars q s = true.
Proof.
  intros I. induction s as [|c s IH]; [reflexivity|]. cbn [all_chars]. intros H.
  apply andb_true_iff in H as [Hc Hs]. now rewrite (I c Hc), (IH Hs).
Qed.

Lemma str_of_Z_nonempty z : str_of_Z z <> ""%string.
Proof.
  intros E. pose proof (py_int_str_of_Z z) as P. rewrite E in P. discriminate P.
Qed.

Lemma parse_admin_ids_one z : Config._parse_admin_ids (Some (str_of_Z z)) = [z].
Proof.
  rewrite parse_admin_ids_parts, (split_all_num _ (str_of_Z_num z)).
  cbn [flat_map]. rewrite app_nil_r. unfold Config.admin_id_of_part.
  rewrite (strip_plain _ (str_of_Z_plain z)).
  destruct (String.eqb (str_of_Z z) "") eqn:E.
  - apply String.eqb_eq in E. now destruct (str_of_Z_nonempty z).
  - now rewrite py_int_str_of_Z.
Qed.

Lemma parse_admin_ids_concat sep ids :
  sep = ","%char \/ sep = ";"%char ->
  Config._parse_admin_ids (Some (String.concat (String sep "") (map str_of_Z ids))) = ids.
Proof.
  intros Hs. induction ids as [|x [|y l] IH]; [reflexivity|apply parse_admin_ids_one|].
  change (String.concat (String sep "") (map str_of_Z (x :: y :: l)))
    with (str_of_Z x ++ String sep (String.concat (String sep "") (map str_of_Z (y :: l))))%string.
  now rewrite (parse_admin_ids_app _ _ sep Hs), parse_admin_ids_one, IH.
Qed.

Lemma in_parse_admin_ids z v :
  In z (Config._parse_admin_ids (Some v)) <->
  exists part, In part (Config.split_all "," (Config.replace_semicolons v)) /\
               strip part <> ""%string /\ py_int (strip part) = Some z.
Proof.
  rewrite parse_admin_ids_parts, in_flat_map. split; intros [p [Hp H]]; exists p.
  - split; [exact Hp|]. unfold Config.admin_id_of_part in H.
    destruct (String.eqb (strip p) "") eqn:E; [destruct H|].
    apply String.eqb_neq in E. split; [exact E|].
    destruct (py_int (strip p)); [|destruct H]. destruct H as [->|[]]. reflexivity.
  - split; [exact Hp|]. destruct H as [E P]. unfold Config.admin_id_of_part.
    apply String.eqb_neq in E. rewrite E, P. now left.
Qed.

(** X23: in ADMIN_IDS a comma and a semicolon separate alike: the ids of
    two values joined by either are the ids of the first followed by the
    ids of the second.  An unset or empty value gives no administrator. *)
Theorem admin_ids_of_joined_values :
  forall a b,
    Config._parse_admin_ids (Some (a ++ "," ++ b))
      = (Config._parse_admin_ids (Some a) ++ Config._parse_admin_ids (Some b))%list /\
    Config._parse_admin_ids (Some (a ++ ";" ++ b))
      = (Config._parse_admin_ids (Some a) ++ Config._parse_admin_ids (Some b))%list /\
    Config._parse_admin_ids None = [] /\
    Config._parse_admin_ids (Some "") = [].
Proof.
  intros a b. split; [|split; [|split; reflexivity]].
  - apply parse_admin_ids_app. now left.
  - apply parse_admin_ids_app. now right.
Qed.

(** X24: a list of ids printed in decimal and joined by commas, or by
    semicolons, is parsed back to the same list, in the same order. *)
Theorem admin_ids_round_trip :
  forall ids,
    Config._parse_admin_ids (Some (String.concat "," (map str_of_Z ids))) = ids /\
    Config._parse_admin_ids (Some (String.concat ";" (map str_of_Z ids))) = ids.
Proof.
  intros ids. split; apply parse_admin_ids_concat; [now left|now right].
Qed.

(** X25: [admin_help] answers with the help text exactly when the sender's
    Telegram id is the value of some part of ADMIN_IDS (split at commas
    and semicolons, trimmed, read as an integer); otherwise it sends
    nothing.  It never touches the store. *)
Theorem admin_help_answers_listed_ids_only :
  forall env message st now,
    let r := run (Config.admin_help env message) st now in
    let listed :=
      exists user v part,
        from_user message = Some user /\ env = Some v /\
        In part (Config.split_all "," (Config.replace_semicolons v)) /\
        strip part <> ""%string /\ py_int (strip part) = Some (tg_user_id user) in
    store_of r = st /\
    returned r = Some tt /\
    ((listed /\ events_of r = [MessageAnswer Config.ADMIN_HELP]) \/
     (~ listed /\ events_of r = [])).
Proof.
  intros env message st now r listed. subst r. unfold run, Config.admin_help.
  destruct (from_user message) as [user|] eqn:Fu.
  2:{ repeat split. right. split; [|reflexivity].
      intros [u [v [p [H _]]]]. discriminate H. }
  destruct (Config._is_admin (tg_user_id user) (Config._parse_admin_ids env)) eqn:A;
    cbn [negb].
  - rewrite run_send. repeat split. left. split; [|reflexivity].
    unfold Config._is_admin in A. apply existsb_exists in A as [z [Hz Ez]].
    apply Z.eqb_eq in Ez. subst z.
    destruct env as [v|]; [|destruct Hz].
    apply in_parse_admin_ids in Hz as [p [Hp [E P]]].
    exists user, v, p. repeat split; assumption.
  - repeat split. right. split; [|reflexivity].
    intros [u [v [p [Hu [Hv [Hp [E P]]]]]]]. injection Hu as <-. subst env.
    assert (I : In (tg_user_id user) (Config._parse_admin_ids (Some v))).
    { apply in_parse_admin_ids. exists p. repeat split; assumption. }
    assert (T : Config._is_admin (tg_user_id user) (Config._parse_admin_ids (Some v)) = true).
    { apply existsb_exists. exists (tg_user_id user). split; [exact I|apply Z.eqb_refl]. }
    congruence.
Qed.

(** ** The registration dialogue *)

Section DialogueRuns.
Import Dialogue.

Lemma dbind_run {A B} (m : D A) (k : A -> D B) s w a s' w' :
  m s w = (Return a, (s', w')) -> dbind m k s w = k a s' w'.
Proof. intros H. unfold dbind. now rewrite H. Qed.

Lemma lift_run {A} (m : M A) s w o w' :
  m w = (o, w') -> lift m s w = (o, (s, w')).
Proof. intros H. unfold lift. now rewrite H. Qed.

Lemma run_answer text s st now tr :
  answer text s (W st now tr) = (Return tt, (s, W st now (tr ++ [MessageAnswer text]))).
Proof. unfold answer. apply lift_run. apply run_send. Qed.

Lemma run_set_state name s st now tr :
  set_state name s (W st now tr)
  = (Return tt, (mkSession (Some name) (entry s) (staged s), W st now (tr ++ [FsmSetState name]))).
Proof. reflexivity. Qed.

Lemma run_clear s st now tr :
  clear s (W st now tr) = (Return tt, (cleared, W st now (tr ++ [FsmClear]))).
Proof. reflexivity. Qed.

Lemma run_get_profile_for_user tg st now tr u :
  find (fun u => u_tg_id u =? tg) (USERS st) = Some u ->
  _get_profile_for_user tg (W st now tr)
  = (Return (find (owned_by (u_id u)) (PROFILES st)), W st now tr).
Proof.
  intros F. unfold _get_profile_for_user. erewrite run_try; [reflexivity|].
  run_with run_get_user_by_tg_id. rewrite F. run_with @run_read.
  unfold ret. now rewrite first_limit_select.
Qed.

Lemma answers_split text :
  answers text = true ->
  String.eqb (strip text) Registration.BACK_BTN = false /\ String.eqb (strip text) "" = false.
Proof.
  intros H. apply andb_true_iff in H as [H1 H2]. now apply negb_true_iff in H1, H2.
Qed.

Lemma run_create_profile_button user text s st now tr :
  exists greeting,
    create_profile_button (text_from user text) s (W st now tr)
    = (Return tt,
       (mkSession (Some "Registration:name") (Some "start") (staged s),
        W (set_USERS st (users_upsert (tg_user_id user) (tg_username user) (tg_first_name user)
                                      (tg_last_name user) (USERS st)))
          now (tr ++ [MessageAnswer greeting; FsmSetState "Registration:name"]))).
Proof.
  unfold create_profile_button, cmd_register, text_from. cbn [from_user].
  erewrite dbind_run; [|reflexivity].
  erewrite dbind_run; [|apply lift_run; apply run_write]. cbn [fst snd].
  erewrite dbind_run; [|apply lift_run; apply run_get_user_by_tg_id].
  cbn [USERS set_USERS].
  destruct (find_users_upsert (tg_user_id user) (tg_username user) (tg_first_name user)
              (tg_last_name user) (USERS st)) as [u [F E]].
  rewrite F.
  erewrite dbind_run;
    [|erewrite dbind_run; [reflexivity|apply lift_run; apply run_read]].
  destruct (first_row _).
  - eexists. erewrite dbind_run; [|apply run_answer].
    erewrite dbind_run; [|reflexivity]. cbn [entry].
    erewrite dbind_run; [|reflexivity]. rewrite run_set_state. cbn [entry staged].
    now rewrite <- app_assoc.
  - eexists. erewrite dbind_run; [|apply run_answer].
    erewrite dbind_run; [|reflexivity]. cbn [entry].
    erewrite dbind_run; [|reflexivity]. rewrite run_set_state. cbn [entry staged].
    now rewrite <- app_assoc.
Qed.

Lemma run_reg_name user text s st now tr :
  answers text = true ->
  reg_name (text_from user text) s (W st now tr)
  = (Return tt,
     (mkSession (Some "Registration:gender") (entry s) (with_name (strip text) (staged s)),
      W st now (tr ++ [FsmSetState "Registration:gender"; MessageAnswer ASK_GENDER]))).
Proof.
  intros H. destruct (answers_split _ H) as [H1 H2].
  unfold reg_name, text_from. cbn [msg_text or_empty]. rewrite H1, H2.
  erewrite dbind_run; [|reflexivity].
  erewrite dbind_run; [|apply run_set_state]. rewrite run_answer.
  cbn [fsm entry staged]. now rewrite <- app_assoc.
Qed.

Lemma run_reg_gender lower user text g s st now tr :
  answers text = true -> gender_of (lower (strip text)) = Some g ->
  reg_gender lower (text_from user text) s (W st now tr)
  = (Return tt,
     (mkSession (Some "Registration:age") (entry s) (with_gender g (staged s)),
      W st now (tr ++ [FsmSetState "Registration:age"; MessageAnswer ASK_AGE]))).
Proof.
  intros H G. destruct (answers_split _ H) as [H1 H2].
  unfold reg_gender, text_from. cbn [msg_text or_empty]. rewrite H1, G.
  erewrite dbind_run; [|reflexivity].
  erewrite dbind_run; [|apply run_set_state]. rewrite run_answer.
  cbn [fsm entry staged]. now rewrite <- app_assoc.
Qed.

Lemma run_reg_age user text age s st now tr :
  answers text = true -> py_int (strip text) = Some age -> 18 <= age <= 100 ->
  reg_age (text_from user text) s (W st now tr)
  = (Return tt,
     (mkSession (Some "Registration:city") (entry s) (with_age age (staged s)),
      W st now (tr ++ [FsmSetState "Registration:city"; MessageAnswer ASK_CITY]))).
Proof.
  intros H P R. destruct (answers_split _ H) as [H1 H2].
  unfold reg_age, text_from. cbn [msg_text or_empty]. rewrite H1, P.
  replace ((age <? 18) || (100 <? age)) with false
    by (symmetry; apply orb_false_iff; split; apply Z.ltb_ge; lia).
  erewrite dbind_run; [|reflexivity].
  erewrite dbind_run; [|apply run_set_state]. rewrite run_answer.
  cbn [fsm entry staged]. now rewrite <- app_assoc.
Qed.

Lemma run_reg_city user text s st now tr :
  answers text = true ->
  reg_city (text_from user text) s (W st now tr)
  = (Return tt,
     (mkSession (Some "Registration:photo") (entry s) (with_city (strip text) (staged s)),
      W st now (tr ++ [FsmSetState "Registration:photo"; MessageAnswer ASK_PHOTO]))).
Proof.
  intros H. destruct (answers_split _ H) as [H1 H2].
  unfold reg_city, text_from. cbn [msg_text or_empty]. rewrite H1, H2.
  erewrite dbind_run; [|reflexivity].
  erewrite dbind_run; [|apply run_set_state]. rewrite run_answer.
  cbn [fsm entry staged]. now rewrite <- app_assoc.
Qed.

Lemma run_reg_photo upload_image message content s st now tr :
  content <> ""%string ->
  reg_photo upload_image message (Some content) s (W st now tr)
  = (Return tt,
     (mkSession (Some "Registration:bio") (entry s)
                (with_photos [upload_image content] (staged s)),
      W st now (tr ++ [FsmSetState "Registration:bio"; MessageAnswer ASK_BIO]))).
Proof.
  intros H. apply String.eqb_neq in H.
  unfold reg_photo, _download_photo_bytes.
  rewrite (dbind_run _ _ s (W st now tr) (Some content) s (W st now tr)) by reflexivity.
  cbn [truthy_str]. rewrite H. cbn [negb or_empty].
  rewrite (dbind_run _ _ s (W st now tr) (Some (upload_image content)) s (W st now tr))
    by reflexivity.
  erewrite dbind_run; [|reflexivity].
  erewrite dbind_run; [|apply run_set_state]. rewrite run_answer.
  cbn [fsm entry staged]. now rewrite <- app_assoc.
Qed.

Lemma skipn_length_app {X} (l1 l2 : list X) : skipn (List.length l1) (l1 ++ l2) = l2.
Proof. induction l1; [reflexivity|exact IHl1]. Qed.

Lemma run_dialogue_reg_bio user text s st now tr :
  answers text = true ->
  exists st',
    Dialogue.reg_bio (text_from user text) s (W st now tr)
    = (Return tt, (cleared, W st' now (tr ++ [FsmClear; MessageAnswer Registration.SAVED]))) /\
    PROFILES st' = profiles_after (uid_of (tg_user_id user) (USERS st))
                                  (Registration.with_bio (staged s) (strip text)) now (PROFILES st) /\
    USERS st' = users_upsert (tg_user_id user) (tg_username user) (tg_first_name user)
                             (tg_last_name user) (USERS st).
Proof.
  intros H. destruct (answers_split _ H) as [H1 H2].
  destruct (run_create_or_update_profile user (Some text) None
              (Registration.with_bio (staged s) (strip text)) st now tr) as [st' [R [P U]]].
  exists st'. split; [|auto].
  unfold Dialogue.reg_bio, with_fsm, Registration.reg_bio, text_from.
  cbn [msg_text or_empty]. rewrite H1, H2.
  erewrite run_bind; [|exact R].
  erewrite run_bind; [|reflexivity]. rewrite run_send. cbn [w_trace].
  rewrite <- app_assoc. now rewrite skipn_length_app.
Qed.

End DialogueRuns.

Lemma find_update_owned uid g e t :
  (forall x, owned_by uid (g x) = true) ->
  find (owned_by uid) t = Some e ->
  exists x, find (owned_by uid) (update (fun p => p_id p =? p_id e) g t) = Some (g x).
Proof.
  intros G. unfold update. induction t as [|x t IH]; cbn [find map]; [discriminate|].
  destruct (owned_by uid x) eqn:Q.
  - intros [= ->]. rewrite Z.eqb_refl, G. now exists e.
  - intros F. destruct (p_id x =? p_id e).
    + rewrite G. now exists x.
    + rewrite Q. now apply IH.
Qed.

Lemma find_profiles_after uid data now t :
  exists p,
    find (owned_by uid) (profiles_after uid data now t) = Some p /\
    p_name p = Registration.d_name data /\ p_gender p = Registration.d_gender data /\
    p_age p = Registration.d_age data /\ p_city p = Registration.d_city data /\
    p_photos p = Registration.photos_of data /\ p_bio p = Registration.d_bio data /\
    p_is_active p = true.
Proof.
  unfold profiles_after. destruct (find (owned_by uid) t) as [e|] eqn:F.
  - destruct (find_update_owned uid (Registration.apply_payload uid data) e t) as [x Hx];
      [intros x; unfold owned_by; cbn; apply Z.eqb_refl|exact F|].
    eexists. split; [exact Hx|]. cbn. repeat split.
  - rewrite find_app, F. cbn [find]. unfold owned_by at 1. cbn [p_user_id Registration.new_profile].
    rewrite Z.eqb_refl. eexists. split; [reflexivity|]. cbn. repeat split.
Qed.

(** X26: a dialogue from the create button through name, gender, age,
    city, photo and bio, each answered validly, ends with the sender's
    profile holding exactly these answers (texts trimmed, the gender
    mapped, the age as an integer, the URL of the uploaded photo),
    active, and with the dialogue state cleared, whatever was staged
    before. *)
Theorem registration_dialogue_persists_the_answers :
  forall lower upload_image user name gender g age_text age city photo bio s st now,
    answers name = true ->
    answers gender = true -> Dialogue.gender_of (lower (strip gender)) = Some g ->
    answers age_text = true -> py_int (strip age_text) = Some age -> 18 <= age <= 100 ->
    answers city = true ->
    photo <> ""%string ->
    answers bio = true ->
    let r := Dialogue.drun
               (dseq [Dialogue.create_profile_button (text_from user Dialogue.CREATE_BTN);
                      Dialogue.reg_name (text_from user name);
                      Dialogue.reg_gender lower (text_from user gender);
                      Dialogue.reg_age (text_from user age_text);
                      Dialogue.reg_city (text_from user city);
                      Dialogue.reg_photo upload_image (mkMessage (Some user) None None) (Some photo);
                      Dialogue.reg_bio (text_from user bio)]) s st now in
    fst r = Return tt /\
    Dialogue.session_of r = Dialogue.cleared /\
    exists p,
      find (owned_by (uid_of (tg_user_id user) (USERS st)))
           (PROFILES (w_store (Dialogue.world_of r))) = Some p /\
      p_name p = Some (strip name) /\ p_gender p = Some g /\ p_age p = Some age /\
      p_city p = Some (strip city) /\ p_photos p = [upload_image photo] /\
      p_bio p = Some (strip bio) /\ p_is_active p = true.
Proof.
  intros lower upload_image user name gender g age_text age city photo bio s st now
         Hn Hg Gg Ha Pa Ra Hc Hp Hb r.
  subst r. unfold Dialogue.drun, dseq. cbn [fold_right].
  destruct (run_create_profile_button user Dialogue.CREATE_BTN s st now []) as [greet R0].
  erewrite dbind_run; [|exact R0].
  erewrite dbind_run; [|apply run_reg_name; exact Hn].
  erewrite dbind_run; [|apply (run_reg_gender lower user gender g); assumption].
  erewrite dbind_run; [|apply (run_reg_age user age_text age); assumption].
  erewrite dbind_run; [|apply run_reg_city; exact Hc].
  erewrite dbind_run; [|apply run_reg_photo; exact Hp].
  match goal with
  | |- context [Dialogue.dbind _ _ ?s1 (mkWorld ?st1 _ _ ?tr1)] =>
      destruct (run_dialogue_reg_bio user bio s1 st1 now tr1 Hb) as [st' [R [P U]]]
  end.
  erewrite dbind_run; [|exact R].
  unfold Dialogue.dret, Dialogue.session_of, Dialogue.world_of. cbn [fst snd w_store].
  split; [reflexivity|]. split; [reflexivity|].
  rewrite P. cbn [USERS set_USERS]. rewrite uid_of_users_upsert.
  destruct (find_profiles_after (uid_of (tg_user_id user) (USERS st))
              (Registration.with_bio
                 (Dialogue.with_photos [upload_image photo]
                    (Dialogue.with_city (strip city)
                       (Dialogue.with_age age
                          (Dialogue.with_gender g
                             (Dialogue.with_name (strip name) (Dialogue.staged s))))))
                 (strip bio))
              now (PROFILES st)) as [p [F Hf]].
  exists p. split; [exact F|exact Hf].
Qed.

Lemma registration_dialogue_persists_the_answers_witness :
  let r := Dialogue.drun
             (dseq [Dialogue.create_profile_button (text_from (tg 103) Dialogue.CREATE_BTN);
                    Dialogue.reg_name (text_from (tg 103) " Bob ");
                    Dialogue.reg_gender (fun s => s) (text_from (tg 103) "male");
                    Dialogue.reg_age (text_from (tg 103) "21");
                    Dialogue.reg_city (text_from (tg 103) "Riga");
                    Dialogue.reg_photo (fun b => ("https://img/" ++ b)%string)
                                       (mkMessage (Some (tg 103)) None None) (Some "jpeg");
                    Dialogue.reg_bio (text_from (tg 103) "hello")])
             Dialogue.cleared liked 10 in
  fst r = Return tt /\
  Dialogue.session_of r = Dialogue.cleared /\
  exists p,
    find (owned_by (uid_of 103 (USERS liked))) (PROFILES (w_store (Dialogue.world_of r))) = Some p /\
    p_name p = Some "Bob" /\ p_gender p = Some "male" /\ p_age p = Some 21 /\
    p_city p = Some "Riga" /\ p_photos p = ["https://img/jpeg"] /\
    p_bio p = Some "hello" /\ p_is_active p = true.
Proof.
  refine (registration_dialogue_persists_the_answers
            (fun s => s) (fun b => ("https://img/" ++ b)%string) (tg 103)
            " Bob " "male" "male" "21" 21 "Riga" "jpeg" "hello" Dialogue.cleared liked 10
            eq_refl eq_refl eq_refl eq_refl eq_refl _ eq_refl _ eq_refl).
  - lia.
  - discriminate.
Defined.

(** *** What the steps keep *)

Section KeepsValid.
Import Dialogue.
Variable T : Type.
Variable f : Store -> T.

Lemma keeps_valid_ret {A} (a : A) : keeps_valid f (dret a).
Proof. intros s w H. now split. Qed.

Lemma keeps_valid_bind {A B} (m : D A) (k : A -> D B) :
  keeps_valid f m -> (forall a, keeps_valid f (k a)) -> keeps_valid f (dbind m k).
Proof.
  intros Hm Hk s w H. unfold dbind. specialize (Hm s w H).
  destruct (m s w) as [[a|] [s' w']]; [|exact Hm].
  unfold session_of, world_of in Hm. cbn [fst snd] in Hm. destruct Hm as [V E].
  destruct (Hk a s' w' V) as [V' E']. split; [exact V'|]. now rewrite E'.
Qed.

Lemma keeps_valid_try {A} (m h : D A) :
  keeps_valid f m -> keeps_valid f h -> keeps_valid f (dtry m h).
Proof.
  intros Hm Hh s w H. unfold dtry. specialize (Hm s w H).
  destruct (m s w) as [[a|] [s' w']]; [exact Hm|].
  unfold session_of, world_of in Hm. cbn [fst snd] in Hm. destruct Hm as [V E].
  destruct (Hh s' w' V) as [V' E']. split; [exact V'|]. now rewrite E'.
Qed.

Lemma keeps_valid_lift {A} (m : M A) : keeps f m -> keeps_valid f (lift m).
Proof.
  intros Hm s w H. unfold lift, session_of, world_of. specialize (Hm w).
  destruct (m w) as [o w']. cbn [fst snd] in *. now split.
Qed.

Lemma keeps_valid_modify (g : Session -> Session) :
  (forall s, valid_staged (staged s) = true -> valid_staged (staged (g s)) = true) ->
  keeps_valid f (modify g).
Proof. intros Hg s w H. split; [now apply Hg|reflexivity]. Qed.

Lemma keeps_valid_get_state : keeps_valid f get_state.
Proof. intros s w H. now split. Qed.

Lemma keeps_valid_get_data : keeps_valid f get_data.
Proof. intros s w H. now split. Qed.

Lemma keeps_valid_set_state name : keeps_valid f (set_state name).
Proof.
  unfold set_state. apply keeps_valid_bind; [|intros _; apply keeps_valid_lift, keeps_emit].
  apply keeps_valid_modify. intros s H. exact H.
Qed.

Lemma keeps_valid_clear : keeps_valid f clear.
Proof.
  unfold clear. apply keeps_valid_bind; [|intros _; apply keeps_valid_lift, keeps_emit].
  apply keeps_valid_modify. intros s H. reflexivity.
Qed.

Lemma keeps_valid_update_entry e : keeps_valid f (update_entry e).
Proof. unfold update_entry. apply keeps_valid_modify. intros s H. exact H. Qed.

Lemma keeps_valid_update_staged g :
  (forall d, valid_staged d = true -> valid_staged (g d) = true) ->
  keeps_valid f (update_staged g).
Proof. intros Hg. unfold update_staged. apply keeps_valid_modify. intros s H. now apply Hg. Qed.

Lemma keeps_valid_answer text : keeps_valid f (answer text).
Proof. unfold answer. apply keeps_valid_lift, keeps_send. Qed.

Lemma keeps_valid_menu_or_prompt b p : keeps_valid f (menu_or_prompt b p).
Proof.
  unfold menu_or_prompt. destruct p as [p|]; [destruct b|]; try apply keeps_valid_answer.
  apply keeps_valid_bind; [apply keeps_valid_answer|intros _; apply keeps_valid_set_state].
Qed.

Lemma fold_fsm_effect_valid evs s :
  valid_staged (staged s) = true ->
  valid_staged (staged (fold_left fsm_effect evs s)) = true.
Proof.
  revert s. induction evs as [|e evs IH]; intros s H; [exact H|].
  cbn [fold_left]. apply IH. destruct e; try exact H. reflexivity.
Qed.

Lemma keeps_valid_with_fsm {A} (m : Session -> M A) :
  (forall s, keeps f (m s)) -> keeps_valid f (with_fsm m).
Proof.
  intros Hm s w H. unfold with_fsm, session_of, world_of. specialize (Hm s w).
  destruct (m s w) as [o w']. cbn [fst snd] in *. split; [|exact Hm].
  now apply fold_fsm_effect_valid.
Qed.

Lemma keeps_get_profile_for_user tg : keeps f (_get_profile_for_user tg).
Proof.
  unfold _get_profile_for_user. keeps_auto; try apply keeps_get_user_by_tg_id.
  intros w. reflexivity.
Qed.

Lemma keeps_download_photo_bytes photo : keeps f (_download_photo_bytes photo).
Proof. unfold _download_photo_bytes. keeps_auto. Qed.

End KeepsValid.

Ltac kv_step :=
  match goal with
  | |- keeps_valid _ (Dialogue.dbind _ _) => apply keeps_valid_bind; [|intros]
  | |- keeps_valid _ (Dialogue.dtry _ _) => apply keeps_valid_try
  | |- keeps_valid _ (Dialogue.dret _) => apply keeps_valid_ret
  | |- keeps_valid _ (Dialogue.answer _) => apply keeps_valid_answer
  | |- keeps_valid _ (Dialogue.set_state _) => apply keeps_valid_set_state
  | |- keeps_valid _ Dialogue.clear => apply keeps_valid_clear
  | |- keeps_valid _ (Dialogue.update_entry _) => apply keeps_valid_update_entry
  | |- keeps_valid _ Dialogue.get_state => apply keeps_valid_get_state
  | |- keeps_valid _ Dialogue.get_data => apply keeps_valid_get_data
  | |- keeps_valid _ (Dialogue.menu_or_prompt _ _) => apply keeps_valid_menu_or_prompt
  | |- keeps_valid _ (Dialogue.lift _) => apply keeps_valid_lift
  | |- keeps_valid _ (Dialogue.update_staged _) => apply keeps_valid_update_staged
  | |- keeps_valid _ (match ?x with _ => _ end) => destruct x eqn:?
  | |- keeps_valid _ (if ?x then _ else _) => destruct x eqn:?
  | |- keeps_valid _ (let _ := _ in _) => cbv zeta
  end.

Ltac kv_auto := repeat kv_step.

Lemma gender_of_valid text g :
  Dialogue.gender_of text = Some g ->
  existsb (String.eqb g) ["male"; "female"; "other"] = true.
Proof.
  unfold Dialogue.gender_of, Dialogue.GENDER_MAP. cbn [find fst snd].
  repeat (destruct (String.eqb _ text); [intros [= <-]; reflexivity|]).
  discriminate.
Qed.

Lemma valid_with_name n d :
  String.eqb n "" = false -> valid_staged d = true ->
  valid_staged (Dialogue.with_name n d) = true.
Proof.
  unfold valid_staged. cbn. intros E H.
  apply andb_true_iff in H as [H H4]. apply andb_true_iff in H as [H H3].
  apply andb_true_iff in H as [H1 H2]. now rewrite E, H2, H3, H4.
Qed.

Lemma valid_with_gender g d :
  existsb (String.eqb g) ["male"; "female"; "other"] = true -> valid_staged d = true ->
  valid_staged (Dialogue.with_gender g d) = true.
Proof.
  unfold valid_staged. cbn [Registration.d_name Registration.d_gender Registration.d_age
                            Registration.d_city Dialogue.with_gender]. intros E H.
  apply andb_true_iff in H as [H H4]. apply andb_true_iff in H as [H H3].
  apply andb_true_iff in H as [H1 H2]. now rewrite E, H1, H3, H4.
Qed.

Lemma valid_with_age a d :
  (a <? 18) || (100 <? a) = false -> valid_staged d = true ->
  valid_staged (Dialogue.with_age a d) = true.
Proof.
  unfold valid_staged. cbn [Registration.d_name Registration.d_gender Registration.d_age
                            Registration.d_city Dialogue.with_age]. intros E H.
  apply andb_true_iff in H as [H H4]. apply andb_true_iff in H as [H H3].
  apply andb_true_iff in H as [H1 H2]. rewrite H1, H2, H4.
  apply orb_false_iff in E as [E1 E2]. apply Z.ltb_ge in E1, E2.
  rewrite (proj2 (Z.leb_le _ _) E1), (proj2 (Z.leb_le _ _) E2). reflexivity.
Qed.

Lemma valid_with_city c d :
  String.eqb c "" = false -> valid_staged d = true ->
  valid_staged (Dialogue.with_city c d) = true.
Proof.
  unfold valid_staged. cbn [Registration.d_name Registration.d_gender Registration.d_age
                            Registration.d_city Dialogue.with_city]. intros E H.
  apply andb_true_iff in H as [H H4]. apply andb_true_iff in H as [H H3].
  apply andb_true_iff in H as [H1 H2]. now rewrite E, H1, H2, H3.
Qed.

Lemma valid_with_photos l d :
  valid_staged d = true -> valid_staged (Dialogue.with_photos l d) = true.
Proof. intros H. exact H. Qed.

Lemma keeps_cmd_feed message : keeps but_VIEWED (Feed.cmd_feed message).
Proof.
  unfold Feed.cmd_feed. keeps_auto;
    first [apply keeps_get_db_user|apply keeps_fetch_next_profile|apply keeps_show_profile].
Qed.

Lemma keeps_upsert_user_basic tg a b c : keeps but_USERS (upsert_user_basic tg a b c).
Proof. unfold upsert_user_basic. keeps_auto. Qed.

Lemma keeps_valid_cmd_register message :
  keeps_valid but_USERS (Dialogue.cmd_register message).
Proof.
  unfold Dialogue.cmd_register. kv_auto;
    first [apply keeps_upsert_user_basic|apply keeps_get_user_by_tg_id|apply keeps_read].
Qed.

(** X27: the handlers of the dialogue keep the staged answers valid (a
    name and a city not empty, a gender one of male, female, other, an
    age from 18 to 100), whichever calls fail.  The steps before Bio and
    the back button never write to the store; the create button and
    /start write to Users only, the Bio step to Users and Profiles only,
    a new profile text to Profiles only, a menu choice to Users and
    ViewedProfiles only. *)
Theorem dialogue_keeps_staged_answers_valid :
  forall lower upload_image message photo,
    keeps_valid (fun st => st) (Dialogue.reg_name message) /\
    keeps_valid (fun st => st) (Dialogue.reg_gender lower message) /\
    keeps_valid (fun st => st) (Dialogue.reg_age message) /\
    keeps_valid (fun st => st) (Dialogue.reg_city message) /\
    keeps_valid (fun st => st) (Dialogue.reg_photo upload_image message photo) /\
    keeps_valid (fun st => st) (Dialogue.reg_photo_invalid message) /\
    keeps_valid (fun st => st) (Dialogue.back_button message) /\
    keeps_valid but_USERS (Dialogue.create_profile_button message) /\
    keeps_valid but_USERS (Dialogue.start_handler message) /\
    keeps_valid but_USERS_PROFILES (Dialogue.reg_bio message) /\
    keeps_valid but_PROFILES (Dialogue.change_bio_receive message) /\
    keeps_valid but_USERS_VIEWED (Dialogue.myprofile_choice message).
Proof.
  intros lower upload_image message photo.
  repeat match goal with |- _ /\ _ => split end.
  - unfold Dialogue.reg_name. kv_auto; try apply keeps_get_profile_for_user.
    intros d. now apply valid_with_name.
  - unfold Dialogue.reg_gender. kv_auto.
    intros d. apply valid_with_gender. eapply gender_of_valid. eassumption.
  - unfold Dialogue.reg_age. kv_auto.
    intros d. now apply valid_with_age.
  - unfold Dialogue.reg_city. kv_auto.
    intros d. now apply valid_with_city.
  - unfold Dialogue.reg_photo. kv_auto; try apply keeps_download_photo_bytes.
    + keeps_auto.
    + intros d. apply valid_with_photos.
  - unfold Dialogue.reg_photo_invalid. kv_auto.
  - unfold Dialogue.back_button. kv_auto; apply keeps_get_profile_for_user.
  - unfold Dialogue.create_profile_button. kv_auto. apply keeps_valid_cmd_register.
  - unfold Dialogue.start_handler. kv_auto;
      first [apply keeps_upsert_user_basic|apply keeps_get_profile_for_user].
  - unfold Dialogue.reg_bio. apply keeps_valid_with_fsm. intros s. apply keeps_reg_bio.
  - unfold Dialogue.change_bio_receive. kv_auto;
      first [apply keeps_get_profile_for_user|keeps_auto].
  - unfold Dialogue.myprofile_choice. kv_auto.
    + apply (keeps_coarser but_VIEWED (fun st => set_USERS st [])). apply keeps_cmd_feed.
    + intros s w H.
      destruct (keeps_valid_cmd_register message s w H) as [V E]. split; [exact V|].
      assert (C : forall st, but_USERS_VIEWED st = set_VIEWED_PROFILES (but_USERS st) [])
        by (intros st; destruct st; reflexivity).
      now rewrite !C, E.
Qed.

(** *** What the Bio step writes *)

Section Post.
Variable R : Store -> Store -> Prop.
Hypothesis R_refl : forall st, R st st.
Hypothesis R_trans : forall a b c, R a b -> R b c -> R a c.

Lemma post_of_keeps {A} (m : M A) : keeps (fun st => st) m -> post R m.
Proof. intros H w. rewrite (H w). apply R_refl. Qed.

Lemma post_bind {A B} (m : M A) (k : A -> M B) :
  post R m -> (forall a, post R (k a)) -> post R (bind m k).
Proof.
  intros Hm Hk w. unfold bind. specialize (Hm w).
  destruct (m w) as [[a|] w1]; cbn [snd] in *; [|exact Hm].
  exact (R_trans _ _ _ Hm (Hk a w1)).
Qed.

Lemma post_try {A} (m h : M A) : post R m -> post R h -> post R (try_except m h).
Proof.
  intros Hm Hh w. unfold try_except. specialize (Hm w).
  destruct (m w) as [[a|] w1]; cbn [snd] in *; [exact Hm|].
  exact (R_trans _ _ _ Hm (Hh w1)).
Qed.

Lemma post_write {A} (q : timestamp -> Store -> A * Store) :
  (forall now st, R st (snd (q now st))) -> post R (execute_write q).
Proof.
  intros H. apply post_bind; [apply post_of_keeps, keeps_external|]. intros _ w.
  specialize (H (w_clock w) (w_store w)). destruct (q (w_clock w) (w_store w)). exact H.
Qed.

End Post.

Lemma new_rows_refl ok st : new_rows ok st st.
Proof. intros p H. now left. Qed.

Lemma new_rows_trans ok a b c : new_rows ok a b -> new_rows ok b c -> new_rows ok a c.
Proof.
  intros H1 H2 p H. destruct (H2 p H) as [Hb|Hb]; [exact (H1 p Hb)|now right].
Qed.

Lemma saved_row_apply_payload uid d bio e :
  valid_staged d = true -> String.eqb bio "" = false ->
  saved_row (Registration.apply_payload uid (Registration.with_bio d bio) e) = true.
Proof.
  unfold valid_staged, saved_row, passes_checks. cbn. intros H E.
  apply andb_true_iff in H as [H H4]. apply andb_true_iff in H as [H H3].
  apply andb_true_iff in H as [H1 H2]. now rewrite H2, H3, E.
Qed.

Lemma saved_row_new_profile uid d bio bu now t :
  valid_staged d = true -> String.eqb bio "" = false ->
  saved_row (Registration.new_profile uid (Registration.with_bio d bio) bu now t) = true.
Proof.
  unfold valid_staged, saved_row, passes_checks. cbn. intros H E.
  apply andb_true_iff in H as [H H4]. apply andb_true_iff in H as [H H3].
  apply andb_true_iff in H as [H1 H2]. now rewrite H2, H3, E.
Qed.

Lemma post_reg_bio message d :
  valid_staged d = true ->
  post (new_rows saved_row) (Registration.reg_bio message d).
Proof.
  intros V.
  pose proof (new_rows_refl saved_row) as Rr. pose proof (new_rows_trans saved_row) as Rt.
  unfold Registration.reg_bio.
  destruct (String.eqb _ Registration.BACK_BTN);
    [apply post_of_keeps; [exact Rr|keeps_auto]|].
  destruct (String.eqb (strip (or_empty (msg_text message))) "") eqn:E;
    [apply post_of_keeps; [exact Rr|keeps_auto]|].
  apply post_bind; [exact Rt| |intros; apply post_of_keeps; [exact Rr|keeps_auto]].
  unfold Registration._create_or_update_profile.
  destruct (from_user message) as [user|]; [|apply post_of_keeps; [exact Rr|keeps_auto]].
  apply post_bind; [exact Rt| |intros _].
  { unfold upsert_user_basic. apply post_write; [exact Rr|exact Rt|].
    intros now st p H. now left. }
  apply post_bind; [exact Rt|apply post_of_keeps; [exact Rr|apply keeps_get_user_by_tg_id]|].
  intros [dbu|]; [|apply post_of_keeps; [exact Rr|keeps_auto]].
  apply post_bind; [exact Rt|apply post_of_keeps; [exact Rr|keeps_auto]|].
  intros rows. apply post_try; [exact Rt| |apply post_of_keeps; [exact Rr|keeps_auto]].
  destruct (first_row rows) as [existing|].
  - apply post_write; [exact Rr|exact Rt|]. intros now st p H.
    cbn [snd PROFILES set_PROFILES] in H. unfold update in H.
    apply in_map_iff in H as [x [Hx Hin]].
    destruct (p_id x =? p_id existing); subst p; [right|now left].
    now apply saved_row_apply_payload.
  - apply post_bind; [exact Rt|apply post_of_keeps; [exact Rr|keeps_auto]|].
    intros now0. apply post_write; [exact Rr|exact Rt|]. intros now st p H.
    cbn [snd PROFILES set_PROFILES] in H. apply in_app_iff in H as [H|[<-|[]]]; [now left|right].
    now apply saved_row_new_profile.
Qed.

(** X28: with valid staged answers, whatever the Bio step leaves in
    Profiles is a row that was there before or a row that is active, has
    a text and passes the checks of the table on gender and age; this
    holds whichever calls fail. *)
Theorem bio_step_writes_rows_passing_checks :
  forall message s w p,
    valid_staged (Dialogue.staged s) = true ->
    In p (PROFILES (w_store (Dialogue.world_of (Dialogue.reg_bio message s w)))) ->
    In p (PROFILES (w_store w)) \/
    (passes_checks p = true /\ p_is_active p = true /\ truthy_str (p_bio p) = true).
Proof.
  intros message s w p V H.
  pose proof (post_reg_bio message (Dialogue.staged s) V w) as P.
  unfold Dialogue.reg_bio, Dialogue.with_fsm, Dialogue.world_of in H.
  destruct (Registration.reg_bio message (Dialogue.staged s) w) as [o w'].
  cbn [fst snd] in *. destruct (P p H) as [Hin|Hok]; [now left|right].
  unfold saved_row in Hok. apply andb_true_iff in Hok as [Hok H3].
  apply andb_true_iff in Hok as [H1 H2]. auto.
Qed.

Lemma bio_step_writes_rows_passing_checks_witness :
  let p := mkProfile 2 3 (Some "Bob") (Some "male") (Some 21) (Some "Riga") ["u"]
                     (Some "hello") true (Some (10 + hours 24)) 10 in
  In p (PROFILES liked) \/
  (passes_checks p = true /\ p_is_active p = true /\ truthy_str (p_bio p) = true).
Proof.
  refine (bio_step_writes_rows_passing_checks
            (text_from (tg 103) "hello")
            (Dialogue.mkSession (Some "Registration:bio") (Some "start")
               (Registration.mkRegData (Some "Bob") (Some "male") (Some 21) (Some "Riga")
                                       (Some ["u"]) None))
            (mkWorld liked [] 10 [])
            (mkProfile 2 3 (Some "Bob") (Some "male") (Some 21) (Some "Riga") ["u"]
                       (Some "hello") true (Some (10 + hours 24)) 10)
            eq_refl _).
  vm_compute. right. left. reflexivity.
Defined.

(** *** Going back *)

Lemma strip_back_btn :
  String.eqb (strip Registration.BACK_BTN) Registration.BACK_BTN = true.
Proof. reflexivity. Qed.

(** X29: the back button handler does at every step of the dialogue what
    the step's own handler does with the back button's text, whichever
    calls fail; inside the dialogue it moves one step back and keeps the
    entry point and every staged answer. *)
Theorem back_button_repeats_the_steps :
  forall lower user e d w,
    let back := text_from user Registration.BACK_BTN in
    let at_step name := Dialogue.mkSession (Some name) e d in
    (Dialogue.back_button back (at_step "Registration:name") w
     = Dialogue.reg_name back (at_step "Registration:name") w /\
     Dialogue.back_button back (at_step "Registration:gender") w
     = Dialogue.reg_gender lower back (at_step "Registration:gender") w /\
     Dialogue.back_button back (at_step "Registration:age") w
     = Dialogue.reg_age back (at_step "Registration:age") w /\
     Dialogue.back_button back (at_step "Registration:city") w
     = Dialogue.reg_city back (at_step "Registration:city") w /\
     Dialogue.back_button back (at_step "Registration:photo") w
     = Dialogue.reg_photo_invalid back (at_step "Registration:photo") w /\
     Dialogue.back_button back (at_step "Registration:bio") w
     = Dialogue.reg_bio back (at_step "Registration:bio") w /\
     Dialogue.back_button back (at_step "ChangeBio:waiting_bio") w
     = Dialogue.change_bio_receive back (at_step "ChangeBio:waiting_bio") w) /\
    (Dialogue.session_of (Dialogue.back_button back (at_step "Registration:gender") w)
     = at_step "Registration:name" /\
     Dialogue.session_of (Dialogue.back_button back (at_step "Registration:age") w)
     = at_step "Registration:gender" /\
     Dialogue.session_of (Dialogue.back_button back (at_step "Registration:city") w)
     = at_step "Registration:age" /\
     Dialogue.session_of (Dialogue.back_button back (at_step "Registration:photo") w)
     = at_step "Registration:city" /\
     Dialogue.session_of (Dialogue.back_button back (at_step "Registration:bio") w)
     = at_step "Registration:photo").
Proof.
  intros lower user e d w back at_step. subst back at_step.
  split; repeat match goal with |- _ /\ _ => split end.
  - unfold Dialogue.back_button, Dialogue.reg_name, text_from.
    cbn [from_user msg_text or_empty]. rewrite strip_back_btn. reflexivity.
  - unfold Dialogue.back_button, Dialogue.reg_gender, text_from.
    cbn [from_user msg_text or_empty]. rewrite strip_back_btn. reflexivity.
  - unfold Dialogue.back_button, Dialogue.reg_age, text_from.
    cbn [from_user msg_text or_empty]. rewrite strip_back_btn. reflexivity.
  - unfold Dialogue.back_button, Dialogue.reg_city, text_from.
    cbn [from_user msg_text or_empty]. rewrite strip_back_btn. reflexivity.
  - unfold Dialogue.back_button, Dialogue.reg_photo_invalid, text_from.
    cbn [from_user msg_text or_empty]. rewrite strip_back_btn. reflexivity.
  - unfold Dialogue.back_button, Dialogue.reg_bio, Dialogue.with_fsm, Registration.reg_bio,
      text_from.
    cbn [from_user msg_text or_empty]. rewrite strip_back_btn.
    destruct w as [st [|[] fs] now tr]; cbn;
      rewrite <- ?app_assoc, skipn_length_app; reflexivity.
  - unfold Dialogue.back_button, Dialogue.change_bio_receive, text_from.
    cbn [from_user msg_text or_empty]. rewrite strip_back_btn. reflexivity.
  - destruct w as [st [|[] fs] now tr]; reflexivity.
  - destruct w as [st [|[] fs] now tr]; reflexivity.
  - destruct w as [st [|[] fs] now tr]; reflexivity.
  - destruct w as [st [|[] fs] now tr]; reflexivity.
  - destruct w as [st [|[] fs] now tr]; reflexivity.
Qed.

(** *** Leaving the dialogue at its first step *)

Lemma find_owned_select uid t :
  first_row (limit 1 (select (fun p => p_user_id p =? uid) t)) = find (owned_by uid) t.
Proof. apply first_limit_select. Qed.

Lemma run_cmd_register user text s st now tr :
  Dialogue.cmd_register (text_from user text) s (W st now tr)
  = (Return tt,
     (Dialogue.mkSession (Some "Registration:name") (Some (Dialogue.entry_of s))
                         (Dialogue.staged s),
      W (set_USERS st (users_upsert (tg_user_id user) (tg_username user) (tg_first_name user)
                                    (tg_last_name user) (USERS st)))
        now
        (tr ++ [MessageAnswer
                  (match find (owned_by (uid_of (tg_user_id user) (USERS st))) (PROFILES st) with
                   | Some _ => Dialogue.GREET_UPDATE
                   | None => Dialogue.GREET_CREATE
                   end);
                FsmSetState "Registration:name"]))).
Proof.
  unfold Dialogue.cmd_register, text_from. cbn [from_user].
  erewrite dbind_run; [|apply lift_run; apply run_write]. cbn [fst snd].
  erewrite dbind_run; [|apply lift_run; apply run_get_user_by_tg_id].
  cbn [USERS set_USERS].
  destruct (find_users_upsert (tg_user_id user) (tg_username user) (tg_first_name user)
              (tg_last_name user) (USERS st)) as [u [F E]].
  rewrite F.
  erewrite dbind_run;
    [|erewrite dbind_run; [reflexivity|apply lift_run; apply run_read]].
  rewrite find_owned_select. cbn [PROFILES set_USERS]. rewrite E.
  destruct (find _ (PROFILES st)).
  - erewrite dbind_run; [|apply run_answer].
    erewrite dbind_run; [|reflexivity].
    destruct s as [f [e|] d]; cbn [Dialogue.entry Dialogue.entry_of];
      (erewrite dbind_run; [|reflexivity]); rewrite run_set_state;
      cbn [Dialogue.entry Dialogue.staged]; now rewrite <- app_assoc.
  - erewrite dbind_run; [|apply run_answer].
    erewrite dbind_run; [|reflexivity].
    destruct s as [f [e|] d]; cbn [Dialogue.entry Dialogue.entry_of];
      (erewrite dbind_run; [|reflexivity]); rewrite run_set_state;
      cbn [Dialogue.entry Dialogue.staged]; now rewrite <- app_assoc.
Qed.

Lemma sender_id_is_uid_of tg st u :
  find (fun u => u_tg_id u =? tg) (USERS st) = Some u ->
  u_id u = uid_of tg (USERS st).
Proof. intros F. unfold uid_of. now rewrite F. Qed.

Lemma run_start_handler user text s st now tr :
  Dialogue.start_handler (text_from user text) s (W st now tr)
  = (Return tt,
     match find (owned_by (uid_of (tg_user_id user) (USERS st))) (PROFILES st) with
     | Some p =>
         (Dialogue.mkSession (Some "MyProfileMenu:waiting_choice") (Dialogue.entry s)
                             (Dialogue.staged s),
          W (set_USERS st (users_upsert (tg_user_id user) (tg_username user)
                                        (tg_first_name user) (tg_last_name user) (USERS st)))
            now
            (tr ++ [MessageAnswer (Dialogue._format_profile p ++ Dialogue.MENU);
                    FsmSetState "MyProfileMenu:waiting_choice"]))
     | None =>
         (s,
          W (set_USERS st (users_upsert (tg_user_id user) (tg_username user)
                                        (tg_first_name user) (tg_last_name user) (USERS st)))
            now (tr ++ [MessageAnswer Dialogue.WELCOME]))
     end).
Proof.
  unfold Dialogue.start_handler, text_from. cbn [from_user].
  erewrite dbind_run; [|apply lift_run; apply run_write]. cbn [fst snd].
  destruct (find_users_upsert (tg_user_id user) (tg_username user) (tg_first_name user)
              (tg_last_name user) (USERS st)) as [u [F E]].
  erewrite dbind_run; [|apply lift_run; apply (run_get_profile_for_user _ _ _ _ u); exact F].
  cbn [PROFILES set_USERS]. rewrite E.
  destruct (find _ (PROFILES st)) as [p|].
  - erewrite dbind_run; [|apply run_answer]. rewrite run_set_state.
    now rewrite <- app_assoc.
  - now rewrite run_answer.
Qed.

Lemma run_reg_name_back user s st now tr u :
  find (fun u => u_tg_id u =? tg_user_id user) (USERS st) = Some u ->
  Dialogue.reg_name (text_from user Registration.BACK_BTN) s (W st now tr)
  = (Return tt,
     match find (owned_by (u_id u)) (PROFILES st), String.eqb (Dialogue.entry_of s) "menu" with
     | Some p, true =>
         (Dialogue.mkSession (Some "MyProfileMenu:waiting_choice") None
                             (Dialogue.staged Dialogue.cleared),
          W st now (tr ++ [FsmClear;
                           MessageAnswer (Dialogue._format_profile p ++ Dialogue.MENU);
                           FsmSetState "MyProfileMenu:waiting_choice"]))
     | _, _ =>
         (Dialogue.cleared,
          W st now (tr ++ [FsmClear; MessageAnswer Dialogue.CREATE_PROMPT]))
     end).
Proof.
  intros F. unfold Dialogue.reg_name, text_from. cbn [from_user msg_text or_empty].
  rewrite strip_back_btn.
  erewrite dbind_run; [|reflexivity].
  erewrite dbind_run; [|apply run_clear].
  erewrite dbind_run; [|apply lift_run; apply (run_get_profile_for_user _ _ _ _ u); exact F].
  unfold Dialogue.menu_or_prompt.
  destruct (find _ (PROFILES st)) as [p|];
    [destruct (String.eqb (Dialogue.entry_of s) "menu")|].
  - erewrite dbind_run; [|apply run_answer]. rewrite run_set_state.
    cbn [Dialogue.entry Dialogue.staged Dialogue.cleared]. now rewrite <- !app_assoc.
  - rewrite run_answer. now rewrite <- app_assoc.
  - rewrite run_answer. destruct (String.eqb (Dialogue.entry_of s) "menu");
      now rewrite <- app_assoc.
Qed.

Lemma run_reg_name_back_menu user s st now tr u p :
  find (fun u => u_tg_id u =? tg_user_id user) (USERS st) = Some u ->
  find (owned_by (u_id u)) (PROFILES st) = Some p ->
  Dialogue.entry s = Some "menu" ->
  Dialogue.reg_name (text_from user Registration.BACK_BTN) s (W st now tr)
  = (Return tt,
     (Dialogue.mkSession (Some "MyProfileMenu:waiting_choice") None
                         (Dialogue.staged Dialogue.cleared),
      W st now (tr ++ [FsmClear;
                       MessageAnswer (Dialogue._format_profile p ++ Dialogue.MENU);
                       FsmSetState "MyProfileMenu:waiting_choice"]))).
Proof.
  intros F P E. rewrite (run_reg_name_back user s st now tr u F), P.
  unfold Dialogue.entry_of. now rewrite E.
Qed.

Lemma run_reg_name_back_start user s st now tr u :
  find (fun u => u_tg_id u =? tg_user_id user) (USERS st) = Some u ->
  Dialogue.entry s = Some "start" ->
  Dialogue.reg_name (text_from user Registration.BACK_BTN) s (W st now tr)
  = (Return tt,
     (Dialogue.cleared, W st now (tr ++ [FsmClear; MessageAnswer Dialogue.CREATE_PROMPT]))).
Proof.
  intros F E. rewrite (run_reg_name_back user s st now tr u F).
  unfold Dialogue.entry_of. rewrite E.
  destruct (find _ (PROFILES st)); reflexivity.
Qed.

Lemma choice_two_not_one choice :
  Dialogue.is_choice choice "2" Dialogue.MENU_BTN_REGISTER = true ->
  Dialogue.is_choice choice "1" Dialogue.MENU_BTN_FEED = false.
Proof.
  unfold Dialogue.is_choice. intros H.
  destruct choice as [|c choice]; [vm_compute in H; discriminate H|].
  destruct (Ascii.eqb_spec c "2") as [->|N]; [reflexivity|].
  exfalso. apply orb_true_iff in H as [H|H]; [apply orb_true_iff in H as [H|H]|].
  - apply String.eqb_eq in H. congruence.
  - change (String.prefix ("2" ++ ".") (String c choice))
      with (if ascii_dec "2" c then String.prefix "." choice else false) in H.
    destruct (ascii_dec "2" c); [congruence|discriminate H].
  - apply String.eqb_eq in H. unfold Dialogue.MENU_BTN_REGISTER in H. congruence.
Qed.

Lemma run_myprofile_choice_register user text s w :
  Dialogue.is_choice (strip text) "2" Dialogue.MENU_BTN_REGISTER = true ->
  Dialogue.myprofile_choice (text_from user text) s w
  = Dialogue.cmd_register (text_from user text)
      (Dialogue.mkSession (Dialogue.fsm s) (Some "menu") (Dialogue.staged s)) w.
Proof.
  intros H. unfold Dialogue.myprofile_choice. cbv zeta.
  change (strip (or_empty (msg_text (text_from user text)))) with (strip text).
  now rewrite (choice_two_not_one _ H), H.
Qed.

(** X30: leaving the dialogue with Back at its first step returns to
    where it was entered.  Entered from the menu (the second choice,
    after /start showed the menu), the same menu over the profile is
    shown again and the menu state is set; entered by the create button,
    the prompt to create a profile is shown, although a profile exists,
    and no state is set.  Either way the staged answers are dropped and
    Profiles is as before. *)
Theorem back_at_first_step_returns_to_entry_point :
  forall user start_text text s st now p,
    Dialogue.is_choice (strip text) "2" Dialogue.MENU_BTN_REGISTER = true ->
    find (owned_by (uid_of (tg_user_id user) (USERS st))) (PROFILES st) = Some p ->
    let back := text_from user Registration.BACK_BTN in
    let menu := (Dialogue._format_profile p ++ Dialogue.MENU)%string in
    let from_menu :=
      Dialogue.drun (dseq [Dialogue.start_handler (text_from user start_text);
                           Dialogue.myprofile_choice (text_from user text);
                           Dialogue.reg_name back]) s st now in
    let from_button :=
      Dialogue.drun (dseq [Dialogue.create_profile_button (text_from user Dialogue.CREATE_BTN);
                           Dialogue.reg_name back]) s st now in
    Dialogue.session_of from_menu
      = Dialogue.mkSession (Some "MyProfileMenu:waiting_choice") None
                           (Dialogue.staged Dialogue.cleared) /\
    w_trace (Dialogue.world_of from_menu)
      = [MessageAnswer menu; FsmSetState "MyProfileMenu:waiting_choice";
         MessageAnswer Dialogue.GREET_UPDATE; FsmSetState "Registration:name";
         FsmClear; MessageAnswer menu; FsmSetState "MyProfileMenu:waiting_choice"] /\
    PROFILES (w_store (Dialogue.world_of from_menu)) = PROFILES st /\
    Dialogue.session_of from_button = Dialogue.cleared /\
    w_trace (Dialogue.world_of from_button)
      = [MessageAnswer Dialogue.GREET_UPDATE; FsmSetState "Registration:name";
         FsmClear; MessageAnswer Dialogue.CREATE_PROMPT] /\
    PROFILES (w_store (Dialogue.world_of from_button)) = PROFILES st.
Proof.
  intros user start_text text s st now p Hc Hp back menu from_menu from_button.
  subst back menu from_menu from_button. unfold Dialogue.drun, dseq. cbn [fold_right].
  pose proof (run_start_handler user start_text s st now []) as R0. rewrite Hp in R0.
  destruct (find_users_upsert (tg_user_id user) (tg_username user) (tg_first_name user)
              (tg_last_name user) (USERS st)) as [u [F E]].
  set (U := users_upsert (tg_user_id user) (tg_username user) (tg_first_name user)
                         (tg_last_name user) (USERS st)) in *.
  assert (I : users_upsert (tg_user_id user) (tg_username user) (tg_first_name user)
                           (tg_last_name user) U = U) by apply users_upsert_idem.
  assert (Hu : uid_of (tg_user_id user) U = uid_of (tg_user_id user) (USERS st))
    by apply uid_of_users_upsert.
  assert (Hp' : find (owned_by (u_id u)) (PROFILES st) = Some p) by now rewrite E.
  repeat match goal with |- _ /\ _ => split end.
  1-3: erewrite dbind_run; [|exact R0];
       erewrite dbind_run;
         [|rewrite (run_myprofile_choice_register _ _ _ _ Hc); apply run_cmd_register];
       cbn [USERS PROFILES set_USERS]; rewrite I, Hu, Hp;
       erewrite dbind_run;
         [|apply (run_reg_name_back_menu user _ _ _ _ u p);
           [cbn [USERS set_USERS]; exact F|cbn [PROFILES set_USERS]; exact Hp'|reflexivity]];
       reflexivity.
  all: pose proof (run_cmd_register user Dialogue.CREATE_BTN
                     (Dialogue.mkSession (Dialogue.fsm s) (Some "start") (Dialogue.staged s))
                     st now []) as R1;
       rewrite Hp in R1; fold U in R1;
       erewrite dbind_run; [|unfold Dialogue.create_profile_button;
                             erewrite dbind_run; [exact R1|reflexivity]];
       erewrite dbind_run;
         [|apply (run_reg_name_back_start user _ _ _ _ u);
           [cbn [USERS set_USERS]; exact F|reflexivity]];
       reflexivity.
Qed.

Lemma back_at_first_step_returns_to_entry_point_witness :
  let p := mkProfile 1 1 (Some "Ann") (Some "female") (Some 30) (Some "Paris") [] (Some "hi")
                     true None 0 in
  let back := text_from (tg 101) Registration.BACK_BTN in
  let menu := (Dialogue._format_profile p ++ Dialogue.MENU)%string in
  let from_menu :=
    Dialogue.drun (dseq [Dialogue.start_handler (text_from (tg 101) "/start");
                         Dialogue.myprofile_choice (text_from (tg 101) "2");
                         Dialogue.reg_name back]) Dialogue.cleared liked 10 in
  let from_button :=
    Dialogue.drun (dseq [Dialogue.create_profile_button (text_from (tg 101) Dialogue.CREATE_BTN);
                         Dialogue.reg_name back]) Dialogue.cleared liked 10 in
  Dialogue.session_of from_menu
    = Dialogue.mkSession (Some "MyProfileMenu:waiting_choice") None
                         (Dialogue.staged Dialogue.cleared) /\
  w_trace (Dialogue.world_of from_menu)
    = [MessageAnswer menu; FsmSetState "MyProfileMenu:waiting_choice";
       MessageAnswer Dialogue.GREET_UPDATE; FsmSetState "Registration:name";
       FsmClear; MessageAnswer menu; FsmSetState "MyProfileMenu:waiting_choice"] /\
  PROFILES (w_store (Dialogue.world_of from_menu)) = PROFILES liked /\
  Dialogue.session_of from_button = Dialogue.cleared /\
  w_trace (Dialogue.world_of from_button)
    = [MessageAnswer Dialogue.GREET_UPDATE; FsmSetState "Registration:name";
       FsmClear; MessageAnswer Dialogue.CREATE_PROMPT] /\
  PROFILES (w_store (Dialogue.world_of from_button)) = PROFILES liked.
Proof.
  exact (back_at_first_step_returns_to_entry_point (tg 101) "/start" "2" Dialogue.cleared
           liked 10
           (mkProfile 1 1 (Some "Ann") (Some "female") (Some 30) (Some "Paris") []
                      (Some "hi") true None 0)
           eq_refl eq_refl).
Defined.
